(** * TheKitchen: cart, order and payment routes

    A shallow embedding of the request handlers of [routes/cart_api.py],
    [routes/orders_api.py] and [routes/payments_api.py], over the tables
    declared in [models.py] and the constants of [config.py].

    - A table is the list of its rows, in the order the engine returns them;
      [Query.first] is the head of the filtered list.
    - A handler runs in a state and exception monad over the Flask session,
      the committed database and the unit of work of the request.
      [db.session.commit()] publishes the unit of work; a request that ends
      without it, by an early return or by an unhandled exception, leaves
      the committed database as it was.  An unhandled exception is answered
      with status 500.
    - Money columns are [Numeric(10, 2)]: SQLAlchemy hands them to Python as
      [decimal.Decimal] with two fractional digits, modelled as the integer
      number of hundredths.  Python floats are the kernel's binary64 floats.
      Python's operators are modelled per operand type: a Decimal and an
      int combine exactly, a Decimal and a float raise [TypeError].
    - A column declared [nullable=False] has a plain type, except
      [Cart.session_id], to which three handlers assign [None]: there the
      declaration is checked when the row is written, and the write raises
      [IntegrityError].  Lengths, precisions and foreign keys are left to
      the engine; where a statement needs a referenced row to exist, it
      says so.
    - Strings are sequences of code points below 256.
    - Timestamps ([created_at], [updated_at]) and the JSON payload of a
      response are left out; a response keeps its status code and text. *)

From Stdlib Require Import ZArith List String Ascii Bool Lia Floats DecimalString.
Import ListNotations.

Local Open Scope Z_scope.
Local Open Scope string_scope.

(* ------------------------------------------------------------------ *)
(** ** Python values *)

Module Py.

Inductive exn : Type :=
| TypeError
| AttributeError
| KeyError
| IntegrityError.

(** [decimal.Decimal] with exponent -2, as hundredths. *)
Definition decimal : Type := Z.

(** [Decimal * int] and [Decimal + Decimal] are exact. *)
Definition dec_mul_int (d : decimal) (n : Z) : decimal := d * n.
Definition dec_add (a b : decimal) : decimal := a + b.

(** [Decimal + int]: the int is converted exactly. *)
Definition dec_add_int (d : decimal) (n : Z) : decimal := d + 100 * n.

(** [float(n)] for a small int. *)
Definition float_of_int (n : Z) : float := PrimFloat.of_uint63 (Uint63.of_Z n).

(** [a / b] on ints is true division and yields a float. *)
Definition int_truediv (a b : Z) : float :=
  PrimFloat.div (float_of_int a) (float_of_int b).

(** [Decimal.__mul__] and [Decimal.__add__] return [NotImplemented] for a
    float operand, and so do the reflected float methods: the operator
    raises [TypeError], whatever the operands' values. *)
Definition dec_mul_float (d : decimal) (f : float) : exn + decimal := inl TypeError.
Definition dec_add_float (d : decimal) (f : float) : exn + decimal := inl TypeError.

(** [x < n] and [x > n] for a float [x] and an int [n]. *)
Definition float_lt_int (x : float) (n : Z) : bool := PrimFloat.ltb x (float_of_int n).
Definition float_gt_int (x : float) (n : Z) : bool := PrimFloat.ltb (float_of_int n) x.

(** [str.isspace] on one code point below 256. *)
Definition isspace (c : ascii) : bool :=
  let n := N_of_ascii c in
  (((9 <=? n) && (n <=? 13)) || ((28 <=? n) && (n <=? 32))
   || (n =? 133) || (n =? 160))%N.

Fixpoint lstrip (l : list ascii) : list ascii :=
  match l with
  | c :: l' => if isspace c then lstrip l' else l
  | [] => []
  end.

(** [s.strip()] *)
Definition strip (s : string) : string :=
  string_of_list_ascii
    (rev (lstrip (rev (lstrip (list_ascii_of_string s))))).

Definition lower_char (c : ascii) : ascii :=
  let n := N_of_ascii c in
  if (((65 <=? n) && (n <=? 90))
      || ((192 <=? n) && (n <=? 222) && negb (n =? 215)))%N
  then ascii_of_N (n + 32) else c.

(** [s.lower()] *)
Definition lower (s : string) : string :=
  string_of_list_ascii (map lower_char (list_ascii_of_string s)).

(** ['.' in s] *)
Definition has_dot (s : string) : bool :=
  existsb (Ascii.eqb ".") (list_ascii_of_string s).

(** The text after the last dot, scanning a reversed string. *)
Fixpoint until_dot (l acc : list ascii) : list ascii :=
  match l with
  | [] => acc
  | c :: l' => if Ascii.eqb c "." then acc else until_dot l' (c :: acc)
  end.

(** [s.rsplit('.', 1)[1]], for [s] with a dot. *)
Definition after_last_dot (s : string) : string :=
  string_of_list_ascii (until_dot (rev (list_ascii_of_string s)) []).

(** [str(n)] *)
Definition str_of_int (n : Z) : string := NilZero.string_of_int (Z.to_int n).

(** Truth value of a string, of an int and of an optional value. *)
Definition truthy_str (s : string) : bool := negb (s =? "").
Definition truthy_int (n : Z) : bool := negb (n =? 0)%Z.
Definition truthy_opt {A} (t : A -> bool) (o : option A) : bool :=
  match o with Some a => t a | None => false end.

(** [d.get(k, "")] *)
Definition get_or_empty (o : option string) : string :=
  match o with Some s => s | None => "" end.

(** [x in l] for a list of strings. *)
Definition str_in (x : string) (l : list string) : bool :=
  existsb (String.eqb x) l.

End Py.

(* ------------------------------------------------------------------ *)
(** ** config.py *)

Module Config.
Definition ALLOWED_EXTENSIONS : list string := ["png"; "jpg"; "jpeg"; "gif"; "webp"].
Definition UPLOAD_FOLDER : string := "static/uploads".
Definition MIN_DELIVERY_FEE : Z := 40.
Definition MAX_DELIVERY_FEE : Z := 80.
Definition ADVANCE_PAYMENT_PERCENTAGE : Z := 20.
End Config.

(* ------------------------------------------------------------------ *)
(** ** models.py *)

Module User.
Record t : Type := mk { id : Z; is_admin : bool }.
End User.

Module MenuItem.
Record t : Type := mk { id : Z; price : Py.decimal; is_available : bool }.
End MenuItem.

Module Order.
Record t : Type := mk {
  id : Z;
  user_id : Z;
  status : string;
  subtotal : Py.decimal;
  delivery_fee : Py.decimal;
  total_amount : Py.decimal;
  advance_amount : Py.decimal;
  delivery_address : string;
  notes : option string;
  admin_notes : option string
}.

Definition set_status (v : string) (o : t) : t :=
  mk (id o) (user_id o) v (subtotal o) (delivery_fee o) (total_amount o)
     (advance_amount o) (delivery_address o) (notes o) (admin_notes o).

Definition set_money (fee total advance : Py.decimal) (o : t) : t :=
  mk (id o) (user_id o) (status o) (subtotal o) fee total advance
     (delivery_address o) (notes o) (admin_notes o).
End Order.

Module OrderItem.
Record t : Type := mk {
  id : Z;
  order_id : Z;
  menu_item_id : Z;
  quantity : Z;
  unit_price : Py.decimal;
  notes : option string
}.
End OrderItem.

Module Payment.
Record t : Type := mk {
  id : Z;
  order_id : Z;
  method : string;
  amount : Py.decimal;
  status : string;
  screenshot_url : option string;
  transaction_id : option string;
  notes : option string
}.

Definition set_status (v : string) (p : t) : t :=
  mk (id p) (order_id p) (method p) (amount p) v (screenshot_url p)
     (transaction_id p) (notes p).
Definition set_screenshot_url (v : option string) (p : t) : t :=
  mk (id p) (order_id p) (method p) (amount p) (status p) v
     (transaction_id p) (notes p).
Definition set_transaction_id (v : option string) (p : t) : t :=
  mk (id p) (order_id p) (method p) (amount p) (status p) (screenshot_url p)
     v (notes p).
Definition set_notes (v : option string) (p : t) : t :=
  mk (id p) (order_id p) (method p) (amount p) (status p) (screenshot_url p)
     (transaction_id p) v.
End Payment.

(** [Cart.session_id] is declared [nullable=False] (models.py, line 221),
    yet the handlers assign [None] to it: the field is optional here and
    the declaration is checked when a row is written ([Store.cart_row_ok]). *)
Module Cart.
Record t : Type := mk {
  id : Z;
  session_id : option string;
  user_id : option Z;
  menu_item_id : Z;
  quantity : Z;
  notes : option string
}.

Definition set_quantity (v : Z) (c : t) : t :=
  mk (id c) (session_id c) (user_id c) (menu_item_id c) v (notes c).
Definition set_notes (v : option string) (c : t) : t :=
  mk (id c) (session_id c) (user_id c) (menu_item_id c) (quantity c) v.
Definition set_user_id (v : option Z) (c : t) : t :=
  mk (id c) (session_id c) v (menu_item_id c) (quantity c) (notes c).
Definition set_session_id (v : option string) (c : t) : t :=
  mk (id c) v (user_id c) (menu_item_id c) (quantity c) (notes c).
End Cart.

(** The tables. *)
Record DB : Type := mkDB {
  users : list User.t;
  menu_items : list MenuItem.t;
  orders : list Order.t;
  order_items : list OrderItem.t;
  payments : list Payment.t;
  cart : list Cart.t
}.

Definition with_orders (v : list Order.t) (d : DB) : DB :=
  mkDB (users d) (menu_items d) v (order_items d) (payments d) (cart d).
Definition with_order_items (v : list OrderItem.t) (d : DB) : DB :=
  mkDB (users d) (menu_items d) (orders d) v (payments d) (cart d).
Definition with_payments (v : list Payment.t) (d : DB) : DB :=
  mkDB (users d) (menu_items d) (orders d) (order_items d) v (cart d).
Definition with_cart (v : list Cart.t) (d : DB) : DB :=
  mkDB (users d) (menu_items d) (orders d) (order_items d) (payments d) v.

(* ------------------------------------------------------------------ *)
(** ** Queries *)

Module Query.
(** [.all()] on a filtered query, and [.first()]. *)
Definition all {A} (p : A -> bool) (rows : list A) : list A := filter p rows.
Definition first {A} (p : A -> bool) (rows : list A) : option A := find p rows.

(** [column == value] in a filter: a NULL column matches nothing. *)
Definition col_eq_int (col : option Z) (v : Z) : bool :=
  match col with Some x => (x =? v)%Z | None => false end.
Definition col_eq_str (col : option string) (v : string) : bool :=
  match col with Some x => (x =? v)%string | None => false end.

(** The primary key given to a new row. *)
Definition next_id (ids : list Z) : Z := 1 + fold_right Z.max 0 ids.
End Query.

(* ------------------------------------------------------------------ *)
(** ** The request monad *)

Module Session.
(** The keys of the Flask session the handlers read. *)
Record t : Type := mk {
  user_id : option Z;
  cart_session_id : option string;
  _id : option string
}.
Definition set_cart_session_id (v : option string) (s : t) : t :=
  mk (user_id s) v (_id s).
(** [session.clear()] *)
Definition clear : t := mk None None None.
End Session.

Record response : Type := mkResponse { status_code : Z; text : string }.

Record world : Type := mkWorld {
  session : Session.t;
  committed : DB;    (* what other requests see *)
  work : DB          (* the unit of work of this request *)
}.

Inductive outcome (A : Type) : Type :=
| Done (a : A) (w : world)
| Exc (e : Py.exn) (w : world).
Arguments Done {A} a w.
Arguments Exc {A} e w.

Definition M (A : Type) : Type := world -> outcome A.

Definition ret {A} (a : A) : M A := fun w => Done a w.
Definition bind {A B} (m : M A) (k : A -> M B) : M B :=
  fun w => match m w with
           | Done a w' => k a w'
           | Exc e w' => Exc e w'
           end.
Definition raise {A} (e : Py.exn) : M A := fun w => Exc e w.

Notation "x <- m ;; k" := (bind m (fun x => k))
  (at level 61, m at next level, right associativity).
Notation "m ;;; k" := (bind m (fun _ => k))
  (at level 61, right associativity).

Definition lift {A} (r : Py.exn + A) : M A :=
  match r with inl e => raise e | inr a => ret a end.

Definition get_session : M Session.t := fun w => Done (session w) w.
Definition put_session (s : Session.t) : M unit :=
  fun w => Done tt (mkWorld s (committed w) (work w)).
Definition query : M DB := fun w => Done (work w) w.
Definition flush (d : DB) : M unit :=
  fun w => Done tt (mkWorld (session w) (committed w) d).

(** [db.session.commit()] *)
Definition commit : M unit :=
  fun w => Done tt (mkWorld (session w) (work w) (work w)).

Fixpoint forM_ {A} (l : list A) (body : A -> M unit) : M unit :=
  match l with
  | [] => ret tt
  | x :: l' => body x ;;; forM_ l' body
  end.

Definition internal_server_error : response := mkResponse 500 "Internal Server Error".

(** One request: the handler starts from the committed database; what it
    did not commit is dropped when the request ends, and an exception
    that no handler catches is answered with 500. *)
Definition serve (handler : M response) (s : Session.t) (d : DB)
  : response * Session.t * DB :=
  match handler (mkWorld s d d) with
  | Done r w => (r, session w, committed w)
  | Exc _ w => (internal_server_error, session w, committed w)
  end.

(* ------------------------------------------------------------------ *)
(** ** Writes *)

Module Store.
(** [nullable=False] on [Cart.session_id]. *)
Definition cart_row_ok (c : Cart.t) : bool :=
  match Cart.session_id c with Some _ => true | None => false end.

(** INSERT of a cart row. *)
Definition cart_add (row : Z -> Cart.t) : M unit :=
  d <- query ;;
  let c := row (Query.next_id (map Cart.id (cart d))) in
  if cart_row_ok c then flush (with_cart (cart d ++ [c]) d)
  else raise Py.IntegrityError.

(** UPDATE of the quantity and notes of the row with this key. *)
Definition cart_update (id : Z) (f : Cart.t -> Cart.t) : M unit :=
  d <- query ;;
  flush (with_cart (map (fun c => if (Cart.id c =? id)%Z then f c else c) (cart d)) d).

(** UPDATE of the two owner columns of the row with this key. *)
Definition cart_update_owner (id : Z) (user_id : option Z)
    (session_id : option string) : M unit :=
  match session_id with
  | None => raise Py.IntegrityError
  | Some _ =>
      cart_update id (fun c => Cart.set_session_id session_id (Cart.set_user_id user_id c))
  end.

(** [Cart.query.filter_by(...).delete()] *)
Definition cart_delete (p : Cart.t -> bool) : M unit :=
  d <- query ;;
  flush (with_cart (filter (fun c => negb (p c)) (cart d)) d).

(** INSERT of an order, returning its key ([flush] makes it known). *)
Definition order_add (row : Z -> Order.t) : M Z :=
  d <- query ;;
  let id := Query.next_id (map Order.id (orders d)) in
  flush (with_orders (orders d ++ [row id]) d) ;;;
  ret id.

Definition order_update (id : Z) (f : Order.t -> Order.t) : M unit :=
  d <- query ;;
  flush (with_orders (map (fun o => if (Order.id o =? id)%Z then f o else o) (orders d)) d).

Definition order_item_add (row : Z -> OrderItem.t) : M unit :=
  d <- query ;;
  flush (with_order_items
           (order_items d ++ [row (Query.next_id (map OrderItem.id (order_items d)))]) d).

Definition payment_add (row : Z -> Payment.t) : M unit :=
  d <- query ;;
  flush (with_payments
           (payments d ++ [row (Query.next_id (map Payment.id (payments d)))]) d).

Definition payment_update (id : Z) (f : Payment.t -> Payment.t) : M unit :=
  d <- query ;;
  flush (with_payments
           (map (fun p => if (Payment.id p =? id)%Z then f p else p) (payments d)) d).
End Store.

(* ------------------------------------------------------------------ *)
(** ** auth.py *)

Definition _bad_request (message : string) (code : Z) : response :=
  mkResponse code message.

(** [session['user_id']] *)
Definition session_user_id : M Z :=
  s <- get_session ;;
  match Session.user_id s with
  | Some u => ret u
  | None => raise Py.KeyError
  end.

Definition require_auth (f : M response) : M response :=
  s <- get_session ;;
  match Session.user_id s with
  | None => ret (_bad_request "Authentication required" 401)
  | Some uid =>
      d <- query ;;
      match Query.first (fun u => (User.id u =? uid)%Z) (users d) with
      | None =>
          put_session Session.clear ;;;
          ret (_bad_request "Invalid session" 401)
      | Some _ => f
      end
  end.

Definition require_admin (f : M response) : M response :=
  s <- get_session ;;
  match Session.user_id s with
  | None => ret (_bad_request "Authentication required" 401)
  | Some uid =>
      d <- query ;;
      match Query.first (fun u => (User.id u =? uid)%Z) (users d) with
      | None => ret (_bad_request "Admin access required" 403)
      | Some u =>
          if User.is_admin u then f
          else ret (_bad_request "Admin access required" 403)
      end
  end.

(** [', '.join(missing)] behind the prefix of the 400 answer. *)
Definition missing_fields (missing : list string) : response :=
  _bad_request ("Missing fields: " ++ String.concat ", " missing) 400.

Definition is_empty {A} (l : list A) : bool :=
  match l with [] => true | _ :: _ => false end.

(* ------------------------------------------------------------------ *)
(** ** routes/cart_api.py *)

(** [get_session_id()] *)
Definition get_session_id : M string :=
  s <- get_session ;;
  match Session.cart_session_id s with
  | Some sid => ret sid
  | None =>
      let sid := Py.get_or_empty (Session._id s) in
      put_session (Session.set_cart_session_id (Some sid) s) ;;;
      ret sid
  end.

Module AddToCart.
(** The JSON body of POST /cart; [None] is an absent key. *)
Record data : Type := mk {
  menu_item_id : option Z;
  quantity : option Z;
  notes : option string
}.
End AddToCart.

(** POST /cart.  The cart projection of the answer is read-only and left out. *)
Definition add_to_cart (data : AddToCart.data) : M response :=
  let missing :=
    ((if Py.truthy_opt Py.truthy_int (AddToCart.menu_item_id data) then [] else ["menu_item_id"])
     ++ (if Py.truthy_opt Py.truthy_int (AddToCart.quantity data) then [] else ["quantity"]))%list in
  if negb (is_empty missing) then ret (missing_fields missing)
  else
    match AddToCart.menu_item_id data, AddToCart.quantity data with
    | Some menu_item_id, Some quantity =>
        let notes := Py.strip (Py.get_or_empty (AddToCart.notes data)) in
        if (quantity <=? 0)%Z then ret (_bad_request "Quantity must be greater than 0" 400)
        else
          d <- query ;;
          match Query.first (fun m => (MenuItem.id m =? menu_item_id)%Z) (menu_items d) with
          | None => ret (_bad_request "Menu item not found" 404)
          | Some menu_item =>
              if negb (MenuItem.is_available menu_item)
              then ret (_bad_request "Menu item is not available" 400)
              else
                s <- get_session ;;
                let user_id := Session.user_id s in
                session_id <-
                  (if negb (Py.truthy_opt Py.truthy_int user_id)
                   then sid <- get_session_id ;; ret (Some sid)
                   else ret None) ;;
                let existing_item :=
                  if Py.truthy_opt Py.truthy_int user_id
                  then Query.first
                         (fun c => Query.col_eq_int (Cart.user_id c) (match user_id with Some u => u | None => 0 end)
                                   && (Cart.menu_item_id c =? menu_item_id)%Z) (cart d)
                  else Query.first
                         (fun c => Query.col_eq_str (Cart.session_id c) (Py.get_or_empty session_id)
                                   && (Cart.menu_item_id c =? menu_item_id)%Z) (cart d) in
                match existing_item with
                | Some e =>
                    Store.cart_update (Cart.id e)
                      (fun c =>
                         let c1 := Cart.set_quantity (Cart.quantity e + quantity) c in
                         if Py.truthy_str notes then Cart.set_notes (Some notes) c1 else c1)
                | None =>
                    Store.cart_add
                      (fun id => Cart.mk id session_id user_id menu_item_id quantity (Some notes))
                end ;;;
                commit ;;;
                ret (mkResponse 200 "Item added to cart")
          end
    | _, _ => raise Py.KeyError
    end.

(** One turn of the loop of [merge_cart]; [g] is the key of [guest_item],
    whose attributes are read when the turn starts. *)
Definition merge_guest_item (user_id : Z) (g : Z) : M unit :=
  d <- query ;;
  match Query.first (fun c => (Cart.id c =? g)%Z) (cart d) with
  | None => ret tt
  | Some guest_item =>
      match Query.first
              (fun c => Query.col_eq_int (Cart.user_id c) user_id
                        && (Cart.menu_item_id c =? Cart.menu_item_id guest_item)%Z) (cart d) with
      | Some existing_item =>
          Store.cart_update (Cart.id existing_item)
            (fun c =>
               let c1 := Cart.set_quantity
                           (Cart.quantity existing_item + Cart.quantity guest_item) c in
               if Py.truthy_opt Py.truthy_str (Cart.notes guest_item)
                  && negb (Py.truthy_opt Py.truthy_str (Cart.notes existing_item))
               then Cart.set_notes (Cart.notes guest_item) c1 else c1)
      | None =>
          Store.cart_update_owner (Cart.id guest_item) (Some user_id) None
      end
  end.

(** POST /cart/merge *)
Definition merge_cart : M response :=
  require_auth
    (user_id <- session_user_id ;;
     session_id <- get_session_id ;;
     d <- query ;;
     let guest_items :=
       Query.all (fun c => Query.col_eq_str (Cart.session_id c) session_id) (cart d) in
     if is_empty guest_items then ret (mkResponse 200 "No guest items to merge")
     else
       forM_ (map Cart.id guest_items) (merge_guest_item user_id) ;;;
       commit ;;;
       ret (mkResponse 200 "Cart merged successfully")).

(* ------------------------------------------------------------------ *)
(** ** routes/orders_api.py *)

(** [cart_item.menu_item]: the row the foreign key names, [None] when there
    is none, and then reading [.price] raises. *)
Definition menu_item_of (menu_item_id : Z) : M MenuItem.t :=
  d <- query ;;
  match Query.first (fun m => (MenuItem.id m =? menu_item_id)%Z) (menu_items d) with
  | Some m => ret m
  | None => raise Py.AttributeError
  end.

(** [sum(item.menu_item.price * item.quantity for item in cart_items)];
    the int 0 it starts from adds exactly to a Decimal. *)
Fixpoint sum_prices (cart_items : list Cart.t) (acc : Py.decimal) : M Py.decimal :=
  match cart_items with
  | [] => ret acc
  | item :: rest =>
      m <- menu_item_of (Cart.menu_item_id item) ;;
      sum_prices rest (Py.dec_add acc (Py.dec_mul_int (MenuItem.price m) (Cart.quantity item)))
  end.

Module CreateOrder.
Record data : Type := mk { delivery_address : option string; notes : option string }.
End CreateOrder.

(** POST /orders *)
Definition create_order (data : CreateOrder.data) : M response :=
  require_auth
    (user_id <- session_user_id ;;
     let missing :=
       if Py.truthy_opt Py.truthy_str (CreateOrder.delivery_address data)
       then [] else ["delivery_address"] in
     if negb (is_empty missing) then ret (missing_fields missing)
     else
       d <- query ;;
       let cart_items := Query.all (fun c => Query.col_eq_int (Cart.user_id c) user_id) (cart d) in
       if is_empty cart_items then ret (_bad_request "Cart is empty" 400)
       else
         subtotal <- sum_prices cart_items 0 ;;
         let delivery_fee := Config.MIN_DELIVERY_FEE in
         let total_amount := Py.dec_add_int subtotal delivery_fee in
         advance_amount <-
           lift (Py.dec_mul_float total_amount
                   (Py.int_truediv Config.ADVANCE_PAYMENT_PERCENTAGE 100)) ;;
         order_id <-
           Store.order_add
             (fun id => Order.mk id user_id "new" subtotal (100 * delivery_fee)
                          total_amount advance_amount
                          (Py.strip (Py.get_or_empty (CreateOrder.delivery_address data)))
                          (Some (Py.strip (Py.get_or_empty (CreateOrder.notes data))))
                          None) ;;
         forM_ cart_items
           (fun cart_item =>
              m <- menu_item_of (Cart.menu_item_id cart_item) ;;
              Store.order_item_add
                (fun id => OrderItem.mk id order_id (Cart.menu_item_id cart_item)
                             (Cart.quantity cart_item) (MenuItem.price m)
                             (Cart.notes cart_item))) ;;;
         Store.cart_delete (fun c => Query.col_eq_int (Cart.user_id c) user_id) ;;;
         commit ;;;
         ret (mkResponse 201 "Order created successfully")).

Module DeliveryFee.
(** The [delivery_fee] key of the body of PUT /orders/<id>/delivery-fee:
    absent or null, a value [float()] converts to [x], or a value on
    which [float()] raises [TypeError] or [ValueError]. *)
Inductive field : Type :=
| Null
| Num (x : float)
| Unconvertible.
End DeliveryFee.

Section OrdersFee.

(** What the engine stores in a [Numeric(10, 2)] column when it is given
    a float; it belongs to the database driver. *)
Variable numeric_of_float : float -> Py.decimal.

(** PUT /orders/<order_id>/delivery-fee *)
Definition update_delivery_fee (order_id : Z) (data : DeliveryFee.field) : M response :=
  require_admin
    (d <- query ;;
     match Query.first (fun o => (Order.id o =? order_id)%Z) (orders d) with
     | None => ret (_bad_request "Order not found" 404)
     | Some order =>
         match data with
         | DeliveryFee.Null => ret (_bad_request "Delivery fee required" 400)
         | DeliveryFee.Unconvertible => ret (_bad_request "Invalid delivery fee" 400)
         | DeliveryFee.Num delivery_fee =>
             if Py.float_lt_int delivery_fee Config.MIN_DELIVERY_FEE
                || Py.float_gt_int delivery_fee Config.MAX_DELIVERY_FEE
             then ret (_bad_request
                         ("Delivery fee must be between "
                          ++ Py.str_of_int Config.MIN_DELIVERY_FEE ++ " and "
                          ++ Py.str_of_int Config.MAX_DELIVERY_FEE ++ " EGP") 400)
             else
               total_amount <- lift (Py.dec_add_float (Order.subtotal order) delivery_fee) ;;
               advance_amount <-
                 lift (Py.dec_mul_float total_amount
                         (Py.int_truediv Config.ADVANCE_PAYMENT_PERCENTAGE 100)) ;;
               Store.order_update (Order.id order)
                 (Order.set_money (numeric_of_float delivery_fee)
                    total_amount advance_amount) ;;;
               commit ;;;
               ret (mkResponse 200 "Delivery fee updated")
         end
     end).

End OrdersFee.

(** One turn of the loop of [reorder]. *)
Definition reorder_item (user_id : Z) (order_item : OrderItem.t) : M unit :=
  d <- query ;;
  match Query.first
          (fun c => Query.col_eq_int (Cart.user_id c) user_id
                    && (Cart.menu_item_id c =? OrderItem.menu_item_id order_item)%Z)
          (cart d) with
  | Some existing_cart_item =>
      Store.cart_update (Cart.id existing_cart_item)
        (Cart.set_quantity
           (Cart.quantity existing_cart_item + OrderItem.quantity order_item))
  | None =>
      Store.cart_add
        (fun id => Cart.mk id None (Some user_id)
                     (OrderItem.menu_item_id order_item)
                     (OrderItem.quantity order_item)
                     (OrderItem.notes order_item))
  end.

(** POST /orders/<order_id>/reorder.  [original_order.items] are the order
    lines whose foreign key is the order. *)
Definition reorder (order_id : Z) : M response :=
  require_auth
    (user_id <- session_user_id ;;
     d <- query ;;
     match Query.first
             (fun o => (Order.id o =? order_id)%Z && (Order.user_id o =? user_id)%Z)
             (orders d) with
     | None => ret (_bad_request "Order not found" 404)
     | Some original_order =>
         forM_ (Query.all (fun i => (OrderItem.order_id i =? Order.id original_order)%Z)
                  (order_items d))
           (reorder_item user_id) ;;;
         commit ;;;
         ret (mkResponse 200 "Items added to cart")
     end).

(* ------------------------------------------------------------------ *)
(** ** routes/payments_api.py *)

(** [allowed_file(filename)] *)
Definition allowed_file (filename : string) : bool :=
  Py.has_dot filename
  && Py.str_in (Py.lower (Py.after_last_dot filename)) Config.ALLOWED_EXTENSIONS.

Definition valid_methods : list string :=
  ["instapay"; "vodafone_cash"; "orange_money"; "etisalat_wallet"; "cod"].

Module CreatePayment.
Record data : Type := mk {
  order_id : option Z;
  method : option string;
  notes : option string
}.
End CreatePayment.

(** POST /payments *)
Definition create_payment (data : CreatePayment.data) : M response :=
  require_auth
    (user_id <- session_user_id ;;
     let missing :=
       ((if Py.truthy_opt Py.truthy_int (CreatePayment.order_id data) then [] else ["order_id"])
        ++ (if Py.truthy_opt Py.truthy_str (CreatePayment.method data) then [] else ["method"]))%list in
     if negb (is_empty missing) then ret (missing_fields missing)
     else
       match CreatePayment.order_id data, CreatePayment.method data with
       | Some order_id, Some method =>
           let notes := Py.strip (Py.get_or_empty (CreatePayment.notes data)) in
           if negb (Py.str_in method valid_methods)
           then ret (_bad_request
                       ("Invalid payment method. Must be one of: "
                        ++ String.concat ", " valid_methods) 400)
           else
             d <- query ;;
             match Query.first
                     (fun o => (Order.id o =? order_id)%Z && (Order.user_id o =? user_id)%Z)
                     (orders d) with
             | None => ret (_bad_request "Order not found" 404)
             | Some order =>
                 match Query.first (fun p => (Payment.order_id p =? order_id)%Z) (payments d) with
                 | Some existing_payment =>
                     ret (_bad_request "Payment already exists for this order" 409)
                 | None =>
                     Store.payment_add
                       (fun id => Payment.mk id order_id method (Order.advance_amount order)
                                    "pending" None None (Some notes)) ;;;
                     commit ;;;
                     ret (mkResponse 201 "Payment record created. Please upload payment proof.")
                 end
             end
       | _, _ => raise Py.KeyError
       end).

Module Upload.
(** The multipart body of POST /payments/<id>/upload and the clock:
    [screenshot] is the file name of the part of that name, [None] when
    the part is absent; [now] is [datetime.now()] as [strftime] prints it. *)
Record request : Type := mk { screenshot : option string; now : string }.
End Upload.

Section PaymentsUpload.

(** [werkzeug.utils.secure_filename] *)
Variable secure_filename : string -> string.

(** POST /payments/<payment_id>/upload.  Writing the file to disk is
    outside the tables and is left out. *)
Definition upload_payment_proof (payment_id : Z) (req : Upload.request) : M response :=
  require_auth
    (user_id <- session_user_id ;;
     d <- query ;;
     match Query.first
             (fun p => (Payment.id p =? payment_id)%Z
                       && existsb (fun o => (Order.id o =? Payment.order_id p)%Z
                                            && (Order.user_id o =? user_id)%Z) (orders d))
             (payments d) with
     | None => ret (_bad_request "Payment not found" 404)
     | Some payment =>
         match Upload.screenshot req with
         | None => ret (_bad_request "No file uploaded" 400)
         | Some file_filename =>
             if (file_filename =? "")%string then ret (_bad_request "No file selected" 400)
             else if negb (allowed_file file_filename)
             then ret (_bad_request
                         ("File type not allowed. Allowed types: "
                          ++ String.concat ", " Config.ALLOWED_EXTENSIONS) 400)
             else
               let filename := secure_filename file_filename in
               let timestamp := Upload.now req in
               let filename :=
                 "payment_" ++ Py.str_of_int payment_id ++ "_" ++ timestamp ++ "_" ++ filename in
               Store.payment_update (Payment.id payment)
                 (fun p => Payment.set_status "pending"
                             (Payment.set_screenshot_url
                                (Some ("/static/uploads/payments/" ++ filename)) p)) ;;;
               commit ;;;
               ret (mkResponse 200 "Payment proof uploaded successfully")
         end
     end).

End PaymentsUpload.

Module ConfirmPayment.
Record data : Type := mk { transaction_id : option string; notes : option string }.
End ConfirmPayment.

(** [payment.order] *)
Definition order_of (p : Payment.t) : M Order.t :=
  d <- query ;;
  match Query.first (fun o => (Order.id o =? Payment.order_id p)%Z) (orders d) with
  | Some o => ret o
  | None => raise Py.AttributeError
  end.

(** PUT /payments/<payment_id>/confirm *)
Definition confirm_payment (payment_id : Z) (data : ConfirmPayment.data) : M response :=
  require_admin
    (d <- query ;;
     match Query.first (fun p => (Payment.id p =? payment_id)%Z) (payments d) with
     | None => ret (_bad_request "Payment not found" 404)
     | Some payment =>
         let transaction_id := Py.strip (Py.get_or_empty (ConfirmPayment.transaction_id data)) in
         let notes := Py.strip (Py.get_or_empty (ConfirmPayment.notes data)) in
         Store.payment_update (Payment.id payment)
           (fun p =>
              let p1 := Payment.set_status "confirmed" p in
              let p2 := if Py.truthy_str transaction_id
                        then Payment.set_transaction_id (Some transaction_id) p1 else p1 in
              if Py.truthy_str notes then Payment.set_notes (Some notes) p2 else p2) ;;;
         order <- order_of payment ;;
         (if (Order.status order =? "new")%string
          then Store.order_update (Order.id order) (Order.set_status "confirmed")
          else ret tt) ;;;
         commit ;;;
         ret (mkResponse 200 "Payment confirmed successfully")
     end).

(** PUT /payments/<payment_id>/reject; [data_notes] is the [notes] key of
    the body, [None] when absent. *)
Definition reject_payment (payment_id : Z) (data_notes : option string) : M response :=
  require_admin
    (d <- query ;;
     match Query.first (fun p => (Payment.id p =? payment_id)%Z) (payments d) with
     | None => ret (_bad_request "Payment not found" 404)
     | Some payment =>
         let notes := Py.strip (Py.get_or_empty data_notes) in
         if negb (Py.truthy_str notes) then ret (_bad_request "Rejection reason required" 400)
         else
           Store.payment_update (Payment.id payment)
             (fun p => Payment.set_notes (Some notes) (Payment.set_status "rejected" p)) ;;;
           commit ;;;
           ret (mkResponse 200 "Payment rejected")
     end).

(* ------------------------------------------------------------------ *)
(** ** The other handlers of the three route files *)

(** A handler whose answer carries data next to the status: the same
    request, with the data when there was no exception. *)
Definition serve_with {A} (handler : M (response * A)) (s : Session.t) (d : DB)
  : response * option A * Session.t * DB :=
  match handler (mkWorld s d d) with
  | Done (r, a) w => (r, Some a, session w, committed w)
  | Exc _ w => (internal_server_error, None, session w, committed w)
  end.

(** [require_auth] and [require_admin] around a handler that answers with
    data; the refusals carry none. *)
Definition require_auth_with {A} (none : A) (f : M (response * A)) : M (response * A) :=
  s <- get_session ;;
  match Session.user_id s with
  | None => ret (_bad_request "Authentication required" 401, none)
  | Some uid =>
      d <- query ;;
      match Query.first (fun u => (User.id u =? uid)%Z) (users d) with
      | None =>
          put_session Session.clear ;;;
          ret (_bad_request "Invalid session" 401, none)
      | Some _ => f
      end
  end.

(** [x != v] in Python for an optional attribute [x]: [None] differs from
    every value. *)
Definition ne_int (x : option Z) (v : Z) : bool :=
  match x with Some y => negb (y =? v)%Z | None => true end.
Definition ne_str (x : option string) (v : string) : bool :=
  match x with Some y => negb (y =? v)%string | None => true end.

(** [get_cart_items()]: the rows behind the dictionaries it returns.  The
    user's rows when the session has a [user_id] key, the rows of the guest
    session otherwise. *)
Definition get_cart_items : M (list Cart.t) :=
  s <- get_session ;;
  match Session.user_id s with
  | Some user_id =>
      d <- query ;;
      ret (Query.all (fun c => Query.col_eq_int (Cart.user_id c) user_id) (cart d))
  | None =>
      session_id <- get_session_id ;;
      d <- query ;;
      ret (Query.all (fun c => Query.col_eq_str (Cart.session_id c) session_id) (cart d))
  end.

(** GET /cart: the items and [total_items].  [subtotal] is a sum of floats
    and is left out. *)
Definition get_cart : M (response * (list Cart.t * Z)) :=
  cart_items <- get_cart_items ;;
  let total_items := fold_left (fun acc item => acc + Cart.quantity item) cart_items 0 in
  ret (mkResponse 200 "", (cart_items, total_items)).

Module UpdateCartItem.
Record data : Type := mk { quantity : option Z; notes : option string }.
End UpdateCartItem.

(** The ownership test of [update_cart_item] and [remove_from_cart]:
    [true] when the request is refused with 403. *)
Definition access_denied (cart_item : Cart.t) : M bool :=
  s <- get_session ;;
  let user_id := Session.user_id s in
  if Py.truthy_opt Py.truthy_int user_id
  then ret (ne_int (Cart.user_id cart_item) (match user_id with Some u => u | None => 0 end))
  else
    session_id <- get_session_id ;;
    ret (ne_str (Cart.session_id cart_item) session_id).

(** PUT /cart/<item_id> *)
Definition update_cart_item (item_id : Z) (data : UpdateCartItem.data) : M response :=
  let notes := Py.strip (Py.get_or_empty (UpdateCartItem.notes data)) in
  match UpdateCartItem.quantity data with
  | None => ret (_bad_request "Quantity required" 400)
  | Some quantity =>
      if (quantity <=? 0)%Z then ret (_bad_request "Quantity must be greater than 0" 400)
      else
        d <- query ;;
        match Query.first (fun c => (Cart.id c =? item_id)%Z) (cart d) with
        | None => ret (_bad_request "Cart item not found" 404)
        | Some cart_item =>
            denied <- access_denied cart_item ;;
            if denied then ret (_bad_request "Access denied" 403)
            else
              Store.cart_update (Cart.id cart_item)
                (fun c =>
                   let c1 := Cart.set_quantity quantity c in
                   if Py.truthy_str notes then Cart.set_notes (Some notes) c1 else c1) ;;;
              commit ;;;
              ret (mkResponse 200 "Cart item updated")
        end
  end.

(** DELETE /cart/<item_id> *)
Definition remove_from_cart (item_id : Z) : M response :=
  d <- query ;;
  match Query.first (fun c => (Cart.id c =? item_id)%Z) (cart d) with
  | None => ret (_bad_request "Cart item not found" 404)
  | Some cart_item =>
      denied <- access_denied cart_item ;;
      if denied then ret (_bad_request "Access denied" 403)
      else
        Store.cart_delete (fun c => (Cart.id c =? Cart.id cart_item)%Z) ;;;
        commit ;;;
        ret (mkResponse 200 "Item removed from cart")
  end.

(** DELETE /cart *)
Definition clear_cart : M response :=
  s <- get_session ;;
  let user_id := Session.user_id s in
  (if Py.truthy_opt Py.truthy_int user_id
   then Store.cart_delete
          (fun c => Query.col_eq_int (Cart.user_id c)
                      (match user_id with Some u => u | None => 0 end))
   else
     session_id <- get_session_id ;;
     Store.cart_delete (fun c => Query.col_eq_str (Cart.session_id c) session_id)) ;;;
  commit ;;;
  ret (mkResponse 200 "Cart cleared").

(** GET /orders/<order_id>: the order behind the dictionary it returns. *)
Definition get_order_detail (order_id : Z) : M (response * option Order.t) :=
  require_auth_with None
    (user_id <- session_user_id ;;
     d <- query ;;
     match Query.first
             (fun o => (Order.id o =? order_id)%Z && (Order.user_id o =? user_id)%Z)
             (orders d) with
     | None => ret (_bad_request "Order not found" 404, None)
     | Some order => ret (mkResponse 200 "", Some order)
     end).

Definition valid_statuses : list string :=
  ["new"; "confirmed"; "preparing"; "on_way"; "delivered"; "cancelled"].

Definition set_admin_notes (v : option string) (o : Order.t) : Order.t :=
  Order.mk (Order.id o) (Order.user_id o) (Order.status o) (Order.subtotal o)
    (Order.delivery_fee o) (Order.total_amount o) (Order.advance_amount o)
    (Order.delivery_address o) (Order.notes o) v.

Module UpdateOrderStatus.
Record data : Type := mk { status : option string; admin_notes : option string }.
End UpdateOrderStatus.

Section OrdersStatus.

(** [order.get_status_display(language)] in the text of the answer: it
    reads the language of the session and tables of display names in two
    alphabets, outside the strings modelled here. *)
Variable get_status_display : Order.t -> string.

(** PUT /orders/<order_id>/status *)
Definition update_order_status (order_id : Z) (data : UpdateOrderStatus.data) : M response :=
  require_admin
    (d <- query ;;
     match Query.first (fun o => (Order.id o =? order_id)%Z) (orders d) with
     | None => ret (_bad_request "Order not found" 404)
     | Some order =>
         let admin_notes := Py.strip (Py.get_or_empty (UpdateOrderStatus.admin_notes data)) in
         if negb (Py.truthy_opt Py.truthy_str (UpdateOrderStatus.status data))
         then ret (_bad_request "Status required" 400)
         else
           let status := Py.get_or_empty (UpdateOrderStatus.status data) in
           if negb (Py.str_in status valid_statuses)
           then ret (_bad_request
                       ("Invalid status. Must be one of: "
                        ++ String.concat ", " valid_statuses) 400)
           else
             let update o :=
               let o1 := Order.set_status status o in
               if Py.truthy_str admin_notes then set_admin_notes (Some admin_notes) o1
               else o1 in
             Store.order_update (Order.id order) update ;;;
             commit ;;;
             ret (mkResponse 200
                    ("Order status updated to " ++ get_status_display (update order)))
     end).

End OrdersStatus.

(** PUT /orders/<order_id>/notes; [data_admin_notes] is the [admin_notes]
    key of the body, [None] when absent. *)
Definition update_order_notes (order_id : Z) (data_admin_notes : option string) : M response :=
  require_admin
    (d <- query ;;
     match Query.first (fun o => (Order.id o =? order_id)%Z) (orders d) with
     | None => ret (_bad_request "Order not found" 404)
     | Some order =>
         let admin_notes := Py.get_or_empty data_admin_notes in
         Store.order_update (Order.id order) (set_admin_notes (Some (Py.strip admin_notes))) ;;;
         commit ;;;
         ret (mkResponse 200 "Order notes updated")
     end).

(** GET /payments/order/<order_id>: the payments behind the dictionaries. *)
Definition get_order_payments (order_id : Z) : M (response * list Payment.t) :=
  require_auth_with []
    (user_id <- session_user_id ;;
     d <- query ;;
     match Query.first
             (fun o => (Order.id o =? order_id)%Z && (Order.user_id o =? user_id)%Z)
             (orders d) with
     | None => ret (_bad_request "Order not found" 404, [])
     | Some order =>
         ret (mkResponse 200 "",
              Query.all (fun p => (Payment.order_id p =? order_id)%Z) (payments d))
     end).

(* ------------------------------------------------------------------ *)
(** ** routes/menu_api.py: availability *)

Definition with_menu_items (v : list MenuItem.t) (d : DB) : DB :=
  mkDB (users d) v (orders d) (order_items d) (payments d) (cart d).

Definition menu_item_update (id : Z) (f : MenuItem.t -> MenuItem.t) : M unit :=
  d <- query ;;
  flush (with_menu_items
           (map (fun m => if (MenuItem.id m =? id)%Z then f m else m) (menu_items d)) d).

(** PUT /menu/<item_id>/toggle-availability *)
Definition toggle_availability (item_id : Z) : M response :=
  require_admin
    (d <- query ;;
     match Query.first (fun m => (MenuItem.id m =? item_id)%Z) (menu_items d) with
     | None => ret (_bad_request "Menu item not found" 404)
     | Some menu_item =>
         let is_available := negb (MenuItem.is_available menu_item) in
         menu_item_update (MenuItem.id menu_item)
           (fun m => MenuItem.mk (MenuItem.id m) (MenuItem.price m) is_available) ;;;
         commit ;;;
         ret (mkResponse 200
                ("Item is now " ++ (if is_available then "available" else "unavailable")))
     end).

(* ------------------------------------------------------------------ *)
(** ** models.py: SystemSettings *)

(** The [system_settings] table is read and written by two class methods
    only; it is their whole state, and [set_value] commits what it wrote. *)
Module SystemSettings.
Record t : Type := mk {
  id : Z;
  key : string;
  value : option string;
  description : option string
}.

(** [SystemSettings.get_value(key, default)] *)
Definition get_value (rows : list t) (k : string) (default : option string)
  : option string :=
  match Query.first (fun r => (key r =? k)%string) rows with
  | Some setting => value setting
  | None => default
  end.

(** [SystemSettings.set_value(key, value, description)]: the table after
    the commit. *)
Definition set_value (rows : list t) (k : string) (v : option string)
    (descr : option string) : list t :=
  match Query.first (fun r => (key r =? k)%string) rows with
  | Some setting =>
      map (fun r =>
             if (id r =? id setting)%Z
             then mk (id r) (key r) v
                    (if Py.truthy_opt Py.truthy_str descr then descr else description r)
             else r) rows
  | None => (rows ++ [mk (Query.next_id (map id rows)) k v descr])%list
  end.
End SystemSettings.

(* ------------------------------------------------------------------ *)
(** ** routes/admin_api.py: the ordering switch *)

Definition require_admin_with {A} (none : A) (f : M (response * A)) : M (response * A) :=
  s <- get_session ;;
  match Session.user_id s with
  | None => ret (_bad_request "Authentication required" 401, none)
  | Some uid =>
      d <- query ;;
      match Query.first (fun u => (User.id u =? uid)%Z) (users d) with
      | None => ret (_bad_request "Admin access required" 403, none)
      | Some u =>
          if User.is_admin u then f
          else ret (_bad_request "Admin access required" 403, none)
      end
  end.

(** [x == v] in Python for an optional text [x]. *)
Definition eq_str (x : option string) (v : string) : bool :=
  match x with Some y => (y =? v)%string | None => false end.

(** POST /admin/toggle-ordering, given the rows of [system_settings]:
    the answer and the rows after the commit of [set_value]. *)
Definition toggle_ordering (rows : list SystemSettings.t)
  : M (response * list SystemSettings.t) :=
  require_admin_with rows
    (let current_status := SystemSettings.get_value rows "ordering_enabled" (Some "true") in
     let new_status := if eq_str current_status "true" then "false" else "true" in
     let rows' :=
       SystemSettings.set_value rows "ordering_enabled" (Some new_status)
         (Some "Enable/disable ordering system") in
     ret (mkResponse 200
            ("Ordering system " ++ (if (new_status =? "true")%string
                                    then "enabled" else "disabled")),
          rows')).

(** GET /admin/ordering-status: the [ordering_enabled] of the answer. *)
Definition get_ordering_status (rows : list SystemSettings.t) : bool :=
  eq_str (SystemSettings.get_value rows "ordering_enabled" (Some "true")) "true".

(* ------------------------------------------------------------------ *)
(** ** Views of a state used in the statements *)

(** The payments recorded for an order. *)
Definition payments_of (order_id : Z) (d : DB) : list Payment.t :=
  Query.all (fun p => (Payment.order_id p =? order_id)%Z) (payments d).

Definition one_payment_per_order (d : DB) : Prop :=
  forall order_id, (List.length (payments_of order_id d) <= 1)%nat.

(** The cart rows of a user and of a guest session. *)
Definition user_cart (user_id : Z) (d : DB) : list Cart.t :=
  Query.all (fun c => Query.col_eq_int (Cart.user_id c) user_id) (cart d).
Definition guest_cart (session_id : string) (d : DB) : list Cart.t :=
  Query.all (fun c => Query.col_eq_str (Cart.session_id c) session_id) (cart d).

(** The rows of a cart for one menu item, and their total quantity. *)
Definition entries_for (menu_item_id : Z) (rows : list Cart.t) : list Cart.t :=
  filter (fun c => (Cart.menu_item_id c =? menu_item_id)%Z) rows.

(** What a cart row is apart from its quantity and notes. *)
Definition shape (c : Cart.t) : Z * option string * option Z * Z :=
  (Cart.id c, Cart.session_id c, Cart.user_id c, Cart.menu_item_id c).

(** The session identifier [get_session_id] answers with. *)
Definition session_id_of (s : Session.t) : string :=
  match Session.cart_session_id s with
  | Some sid => sid
  | None => Py.get_or_empty (Session._id s)
  end.

(** The session once [get_session_id] has run. *)
Definition session_with_id (s : Session.t) : Session.t :=
  match Session.cart_session_id s with
  | Some _ => s
  | None => Session.set_cart_session_id (Some (Py.get_or_empty (Session._id s))) s
  end.




(** Whether the session owns a cart row, as [update_cart_item] and
    [remove_from_cart] decide it. *)
Definition owns (s : Session.t) (c : Cart.t) : bool :=
  if Py.truthy_opt Py.truthy_int (Session.user_id s)
  then negb (ne_int (Cart.user_id c) (match Session.user_id s with Some u => u | None => 0 end))
  else negb (ne_str (Cart.session_id c) (session_id_of s)).

(** The session once a cart handler has looked for its owner: a guest
    session has its identifier from then on. *)
Definition session_after_owner_test (s : Session.t) : Session.t :=
  if Py.truthy_opt Py.truthy_int (Session.user_id s) then s else session_with_id s.

(** Whether the session is that of an administrator, as [require_admin]
    decides it. *)
Definition is_admin_session (s : Session.t) (d : DB) : bool :=
  match Session.user_id s with
  | Some uid =>
      match Query.first (fun u => (User.id u =? uid)%Z) (users d) with
      | Some u => User.is_admin u
      | None => false
      end
  | None => false
  end.

(** [total_items] of GET /cart. *)
Definition total_items (rows : list Cart.t) : Z :=
  fold_left (fun acc item => acc + Cart.quantity item) rows 0.

(** Every order has one of the six statuses; every payment one of three. *)
Definition order_statuses_valid (d : DB) : Prop :=
  forall o, In o (orders d) -> Py.str_in (Order.status o) valid_statuses = true.
Definition payment_statuses : list string := ["pending"; "confirmed"; "rejected"].
Definition payment_statuses_valid (d : DB) : Prop :=
  forall p, In p (payments d) -> Py.str_in (Payment.status p) payment_statuses = true.

(** What a payment is apart from its status, proof, transaction id and
    notes; what an order is apart from its status and admin notes. *)
Definition payment_terms (p : Payment.t) : Z * Z * string * Py.decimal :=
  (Payment.id p, Payment.order_id p, Payment.method p, Payment.amount p).
Definition order_terms (o : Order.t)
  : Z * Z * Py.decimal * Py.decimal * Py.decimal * Py.decimal * string * option string :=
  (Order.id o, Order.user_id o, Order.subtotal o, Order.delivery_fee o,
   Order.total_amount o, Order.advance_amount o, Order.delivery_address o, Order.notes o).

(** A write to the payments table by one of the three handlers that
    update it: an UPDATE by key that keeps the terms of the payment and
    stores one of the three statuses. *)
Definition payment_write (before after : list Payment.t) : Prop :=
  after = before
  \/ exists (k : Z) (f : Payment.t -> Payment.t),
       after = map (fun p => if (Payment.id p =? k)%Z then f p else p) before
       /\ (forall p, payment_terms (f p) = payment_terms p)
       /\ (forall p, Py.str_in (Payment.status (f p)) payment_statuses = true).

(** The row [confirm_payment] stores for a payment. *)
Definition confirmed_row (data : ConfirmPayment.data) (p : Payment.t) : Payment.t :=
  let transaction_id := Py.strip (Py.get_or_empty (ConfirmPayment.transaction_id data)) in
  let notes := Py.strip (Py.get_or_empty (ConfirmPayment.notes data)) in
  let p1 := Payment.set_status "confirmed" p in
  let p2 := if Py.truthy_str transaction_id
            then Payment.set_transaction_id (Some transaction_id) p1 else p1 in
  if Py.truthy_str notes then Payment.set_notes (Some notes) p2 else p2.

(* ------------------------------------------------------------------ *)
(** ** Sample data *)

Module Example.
Definition koshary : MenuItem.t := MenuItem.mk 1 6500 true.
Definition falafel : MenuItem.t := MenuItem.mk 2 4500 true.
Definition pickles : MenuItem.t := MenuItem.mk 5 2500 false.
Definition menu : list MenuItem.t := [koshary; falafel; pickles].

Definition manager : User.t := User.mk 1 true.
Definition customer : User.t := User.mk 7 false.
Definition people : list User.t := [manager; customer].

Definition manager_session : Session.t := Session.mk (Some 1) None None.
Definition customer_session : Session.t := Session.mk (Some 7) (Some "s7") None.
Definition guest_session : Session.t := Session.mk None None (Some "g1").

(** Nothing ordered, nothing in any cart. *)
Definition empty_db : DB := mkDB people menu [] [] [] [].

(** The customer's cart holds two koshary and one falafel. *)
Definition cart_db : DB :=
  mkDB people menu [] [] []
    [Cart.mk 1 (Some "s7") (Some 7) 1 2 None; Cart.mk 2 (Some "s7") (Some 7) 2 1 None].

(** Order 1 of the customer: subtotal 175.00, fee 40.00, total 215.00,
    advance 43.00, with its two lines. *)
Definition order1 : Order.t :=
  Order.mk 1 7 "new" 17500 4000 21500 4300 "X" (Some "") None.
Definition order1_items : list OrderItem.t :=
  [OrderItem.mk 1 1 1 2 6500 None; OrderItem.mk 2 1 2 1 4500 None].
Definition order_db : DB := mkDB people menu [order1] order1_items [] [].

(** Order 1 with a payment, in each status. *)
Definition payment1 (status : string) : Payment.t :=
  Payment.mk 1 1 "instapay" 4300 status None None (Some "").
Definition paid_db (status : string) : DB :=
  mkDB people menu [order1] order1_items [payment1 status] [].

(** The customer's cart holds one koshary; the session the customer
    browsed with before signing in holds two koshary and one falafel. *)
Definition merge_db : DB :=
  mkDB people menu [] [] []
    [Cart.mk 1 (Some "u7") (Some 7) 1 1 None;
     Cart.mk 2 (Some "s7") None 1 2 None;
     Cart.mk 3 (Some "s7") None 2 1 None].

(** As [merge_db], without the falafel of the guest session. *)
Definition matched_db : DB :=
  mkDB people menu [] [] []
    [Cart.mk 1 (Some "u7") (Some 7) 1 1 None;
     Cart.mk 2 (Some "s7") None 1 2 None].

(** Order 2 of the customer was one portion of pickles, which are
    no longer available. *)
Definition order2 : Order.t :=
  Order.mk 2 7 "delivered" 2500 4000 6500 1300 "X" (Some "") None.
Definition reorder_db : DB :=
  mkDB people menu [order2] [OrderItem.mk 1 2 5 1 2500 None] [] [].

(** As [reorder_db], with pickles already in the customer's cart. *)
Definition reorder_cart_db : DB :=
  mkDB people menu [order2] [OrderItem.mk 1 2 5 1 2500 None] []
    [Cart.mk 1 (Some "s7") (Some 7) 5 1 None].
End Example.

(* ------------------------------------------------------------------ *)
(** ** Stepping through a handler *)

Arguments Query.first : simpl never.
Arguments Query.all : simpl never.
Arguments Py.strip : simpl never.
Arguments Py.truthy_str : simpl never.
Arguments Py.truthy_int : simpl never.
Arguments Py.str_in : simpl never.
Arguments Py.str_of_int : simpl never.
Arguments Py.float_lt_int : simpl never.
Arguments Py.float_gt_int : simpl never.
Arguments Py.int_truediv : simpl never.
Arguments String.append : simpl never.
Arguments String.concat : simpl never.

Lemma bind_done {A B} (m : M A) (k : A -> M B) (w w' : world) (a : A) :
  m w = Done a w' -> bind m k w = k a w'.
Proof. intros H. unfold bind. rewrite H. reflexivity. Qed.

Lemma bind_exc {A B} (m : M A) (k : A -> M B) (w w' : world) (e : Py.exn) :
  m w = Exc e w' -> bind m k w = Exc e w'.
Proof. intros H. unfold bind. rewrite H. reflexivity. Qed.

Lemma require_auth_ok (f : M response) (w : world) (uid : Z) (u : User.t) :
  Session.user_id (session w) = Some uid ->
  Query.first (fun u => (User.id u =? uid)%Z) (users (work w)) = Some u ->
  require_auth f w = f w.
Proof.
  intros Hs Hu. unfold require_auth, bind, get_session, query.
  rewrite Hs, Hu. reflexivity.
Qed.

Lemma require_admin_ok (f : M response) (w : world) (uid : Z) (u : User.t) :
  Session.user_id (session w) = Some uid ->
  Query.first (fun u => (User.id u =? uid)%Z) (users (work w)) = Some u ->
  User.is_admin u = true ->
  require_admin f w = f w.
Proof.
  intros Hs Hu Ha. unfold require_admin, bind, get_session, query.
  rewrite Hs, Hu, Ha. reflexivity.
Qed.

Lemma session_user_id_ok (w : world) (uid : Z) :
  Session.user_id (session w) = Some uid -> session_user_id w = Done uid w.
Proof.
  intros Hs. unfold session_user_id, bind, get_session, ret.
  rewrite Hs. reflexivity.
Qed.

Lemma is_empty_false {A} (l : list A) : l <> [] -> is_empty l = false.
Proof. destruct l; [congruence | reflexivity]. Qed.

(** A handler that is refused by a decorator commits nothing. *)
Lemma require_auth_refused (f : M response) (w : world) :
  (exists r w', require_auth f w = Done r w' /\ committed w' = committed w
                /\ status_code r = 401)
  \/ require_auth f w = f w.
Proof.
  unfold require_auth, bind, get_session, query, put_session, ret.
  destruct (Session.user_id (session w)) as [uid|].
  - destruct (Query.first _ (users (work w))).
    + right. reflexivity.
    + left. eexists. eexists. repeat split; reflexivity.
  - left. eexists. eexists. repeat split; reflexivity.
Qed.

Lemma require_admin_refused (f : M response) (w : world) :
  (exists r, require_admin f w = Done r w /\ (status_code r = 401 \/ status_code r = 403))
  \/ require_admin f w = f w.
Proof.
  unfold require_admin, bind, get_session, query, ret.
  destruct (Session.user_id (session w)) as [uid|].
  - destruct (Query.first _ (users (work w))) as [u|].
    + destruct (User.is_admin u).
      * right. reflexivity.
      * left. eexists. split; [reflexivity | right; reflexivity].
    + left. eexists. split; [reflexivity | right; reflexivity].
  - left. eexists. split; [reflexivity | left; reflexivity].
Qed.

(* ------------------------------------------------------------------ *)
(** ** Checkout and the delivery fee *)

(** Adding up the cart reads the menu and changes nothing. *)
Lemma sum_prices_world (l : list Cart.t) :
  forall acc w,
    (exists x, sum_prices l acc w = Done x w)
    \/ sum_prices l acc w = Exc Py.AttributeError w.
Proof.
  induction l as [|c l IH]; intros acc w; cbn.
  - left. eexists. reflexivity.
  - unfold bind, menu_item_of, query, bind.
    destruct (Query.first _ (menu_items (work w))) as [m|]; cbn.
    + apply IH.
    + right. reflexivity.
Qed.

(** C1.  Checkout of a non-empty cart never produces an order: for a
    signed-in user who gives a delivery address and whose cart has at
    least one entry, POST /orders ends in an unhandled exception (the
    advance is computed as a Decimal times a float), is answered with 500,
    and leaves every table, the cart included, as it was. *)
Theorem create_order_nonempty_cart_fails :
  forall (s : Session.t) (d : DB) (data : CreateOrder.data) (uid : Z) (u : User.t),
    Session.user_id s = Some uid ->
    Query.first (fun u => (User.id u =? uid)%Z) (users d) = Some u ->
    Py.truthy_opt Py.truthy_str (CreateOrder.delivery_address data) = true ->
    user_cart uid d <> [] ->
    serve (create_order data) s d = (internal_server_error, s, d).
Proof.
  intros s d data uid u Hs Hu Ha Hc.
  unfold serve, create_order.
  rewrite (require_auth_ok _ (mkWorld s d d) uid u Hs Hu).
  rewrite (bind_done _ _ _ _ _ (session_user_id_ok (mkWorld s d d) uid Hs)).
  rewrite Ha. cbn [negb is_empty].
  unfold bind at 1. unfold query at 1. cbn [work].
  unfold user_cart in Hc. rewrite (is_empty_false _ Hc).
  destruct (sum_prices_world
              (Query.all (fun c => Query.col_eq_int (Cart.user_id c) uid) (cart d)) 0
              (mkWorld s d d)) as [[x Hx] | Hx].
  - rewrite (bind_done _ _ _ _ _ Hx). reflexivity.
  - rewrite (bind_exc _ _ _ _ _ Hx). reflexivity.
Qed.

Lemma create_order_nonempty_cart_fails_witness :
  serve (create_order (CreateOrder.mk (Some "X") None))
    Example.customer_session Example.cart_db
  = (internal_server_error, Example.customer_session, Example.cart_db).
Proof.
  apply (create_order_nonempty_cart_fails
           Example.customer_session Example.cart_db
           (CreateOrder.mk (Some "X") None) 7 Example.customer).
  - reflexivity.
  - reflexivity.
  - reflexivity.
  - vm_compute. discriminate.
Defined.

(** Whatever the request, [create_order] commits nothing and never
    answers 201. *)
Lemma create_order_commits_nothing (data : CreateOrder.data) (s : Session.t) (d : DB) :
  let '(r, _, d') := serve (create_order data) s d in
  status_code r <> 201 /\ d' = d.
Proof.
  unfold serve, create_order.
  match goal with
  | |- context [require_auth ?f ?w] =>
      destruct (require_auth_refused f w) as [(r & w' & Hr & Hc & H401) | Hr]; rewrite Hr
  end.
  - split; [rewrite H401; discriminate | exact Hc].
  - clear Hr. unfold bind at 1. unfold session_user_id, bind, get_session. cbn [session].
    destruct (Session.user_id s) as [uid|]; cbn.
    2:{ split; [discriminate | reflexivity]. }
    destruct (Py.truthy_opt Py.truthy_str (CreateOrder.delivery_address data)); cbn.
    2:{ split; [discriminate | reflexivity]. }
    destruct (is_empty (Query.all (fun c => Query.col_eq_int (Cart.user_id c) uid) (cart d))).
    { cbn. split; [discriminate | reflexivity]. }
    destruct (sum_prices_world
                (Query.all (fun c => Query.col_eq_int (Cart.user_id c) uid) (cart d)) 0
                (mkWorld s d d)) as [[x Hx] | Hx]; rewrite Hx; cbn;
      (split; [discriminate | reflexivity]).
Qed.

(** Whatever the request, [update_delivery_fee] commits nothing and never
    answers 200. *)
Lemma update_delivery_fee_commits_nothing
    (numeric_of_float : float -> Py.decimal) (order_id : Z) (fee : DeliveryFee.field)
    (s : Session.t) (d : DB) :
  let '(r, s', d') := serve (update_delivery_fee numeric_of_float order_id fee) s d in
  status_code r <> 200 /\ s' = s /\ d' = d.
Proof.
  unfold serve, update_delivery_fee.
  match goal with
  | |- context [require_admin ?f ?w] =>
      destruct (require_admin_refused f w) as [(r & Hr & Hcode) | Hr]; rewrite Hr
  end.
  - cbn. split; [destruct Hcode as [H | H]; rewrite H; discriminate | split; reflexivity].
  - clear Hr. unfold bind at 1. unfold query at 1. cbn [work].
    destruct (Query.first _ (orders d)) as [order|]; cbn.
    2:{ split; [discriminate | split; reflexivity]. }
    destruct fee as [|x|]; cbn.
    + split; [discriminate | split; reflexivity].
    + destruct (Py.float_lt_int x Config.MIN_DELIVERY_FEE
                || Py.float_gt_int x Config.MAX_DELIVERY_FEE); cbn;
        (split; [discriminate | split; reflexivity]).
    + split; [discriminate | split; reflexivity].
Qed.

(** C2.  The two handlers that set the money fields of an order never get
    to set them.  For every session, database and request, POST /orders
    does not answer 201 and PUT /orders/<id>/delivery-fee does not answer
    200, and neither changes any table: both multiply or add a Decimal and
    a float and stop there.  No order is ever in the state "immediately
    after checkout" or "after a successful delivery-fee update". *)
Theorem order_money_never_written :
  forall (numeric_of_float : float -> Py.decimal) (s : Session.t) (d : DB)
         (data : CreateOrder.data) (order_id : Z) (fee : DeliveryFee.field),
    (let '(r, _, d') := serve (create_order data) s d in
     status_code r <> 201 /\ d' = d)
    /\ (let '(r, _, d') := serve (update_delivery_fee numeric_of_float order_id fee) s d in
        status_code r <> 200 /\ d' = d).
Proof.
  intros nf s d data order_id fee. split.
  - apply create_order_commits_nothing.
  - pose proof (update_delivery_fee_commits_nothing nf order_id fee s d) as H.
    destruct (serve (update_delivery_fee nf order_id fee) s d) as [[r s'] d'].
    tauto.
Qed.

(** The scenario of the specification: two koshary at 65.00 and one
    falafel at 45.00 should give an order of 215.00 with an advance of
    43.00, and a fee of 80 on it a total of 255.00.  Both requests are
    answered 500. *)
Example scenario_checkout_raises :
  serve (create_order (CreateOrder.mk (Some "X") None))
    Example.customer_session Example.cart_db
  = (internal_server_error, Example.customer_session, Example.cart_db).
Proof. reflexivity. Qed.

Example scenario_fee_update_raises (numeric_of_float : float -> Py.decimal) :
  serve (update_delivery_fee numeric_of_float 1 (DeliveryFee.Num 80))
    Example.manager_session Example.order_db
  = (internal_server_error, Example.manager_session, Example.order_db).
Proof. reflexivity. Qed.

(** X1.  A fee outside the bounds is refused with 400 and nothing changes. *)
Lemma update_delivery_fee_out_of_bounds :
  forall (numeric_of_float : float -> Py.decimal) (s : Session.t) (d : DB)
         (order_id uid : Z) (u : User.t) (order : Order.t) (x : float),
    Session.user_id s = Some uid ->
    Query.first (fun u => (User.id u =? uid)%Z) (users d) = Some u ->
    User.is_admin u = true ->
    Query.first (fun o => (Order.id o =? order_id)%Z) (orders d) = Some order ->
    Py.float_lt_int x Config.MIN_DELIVERY_FEE = true
    \/ Py.float_gt_int x Config.MAX_DELIVERY_FEE = true ->
    serve (update_delivery_fee numeric_of_float order_id (DeliveryFee.Num x)) s d
    = (_bad_request "Delivery fee must be between 40 and 80 EGP" 400, s, d).
Proof.
  intros nf s d order_id uid u order x Hs Hu Ha Ho Hx.
  unfold serve, update_delivery_fee.
  rewrite (require_admin_ok _ (mkWorld s d d) uid u Hs Hu Ha).
  unfold bind at 1. unfold query at 1. cbn [work]. rewrite Ho.
  assert (Hb : Py.float_lt_int x Config.MIN_DELIVERY_FEE
               || Py.float_gt_int x Config.MAX_DELIVERY_FEE = true).
  { destruct Hx as [H | H]; rewrite H; [reflexivity | apply orb_true_r]. }
  rewrite Hb. reflexivity.
Qed.

(** C6.  A fee within the bounds does not succeed: for an administrator
    and an existing order, a fee [x] with neither [x < 40] nor [x > 80]
    makes PUT /orders/<id>/delivery-fee add a Decimal and a float; the
    request is answered 500 and the order keeps its delivery fee, total and
    advance. *)
Theorem update_delivery_fee_in_bounds_fails :
  forall (numeric_of_float : float -> Py.decimal) (s : Session.t) (d : DB)
         (order_id uid : Z) (u : User.t) (order : Order.t) (x : float),
    Session.user_id s = Some uid ->
    Query.first (fun u => (User.id u =? uid)%Z) (users d) = Some u ->
    User.is_admin u = true ->
    Query.first (fun o => (Order.id o =? order_id)%Z) (orders d) = Some order ->
    Py.float_lt_int x Config.MIN_DELIVERY_FEE = false ->
    Py.float_gt_int x Config.MAX_DELIVERY_FEE = false ->
    serve (update_delivery_fee numeric_of_float order_id (DeliveryFee.Num x)) s d
    = (internal_server_error, s, d).
Proof.
  intros nf s d order_id uid u order x Hs Hu Ha Ho Hlo Hhi.
  unfold serve, update_delivery_fee.
  rewrite (require_admin_ok _ (mkWorld s d d) uid u Hs Hu Ha).
  unfold bind at 1. unfold query at 1. cbn [work]. rewrite Ho, Hlo, Hhi.
  reflexivity.
Qed.

Lemma update_delivery_fee_in_bounds_fails_witness :
  serve (update_delivery_fee (fun _ => 0) 1 (DeliveryFee.Num 60)) Example.manager_session
    Example.order_db
  = (internal_server_error, Example.manager_session, Example.order_db).
Proof.
  apply (update_delivery_fee_in_bounds_fails (fun _ => 0)
           Example.manager_session Example.order_db 1 1 Example.manager Example.order1 60).
  - reflexivity.
  - reflexivity.
  - reflexivity.
  - reflexivity.
  - vm_compute. reflexivity.
  - vm_compute. reflexivity.
Defined.

(* ------------------------------------------------------------------ *)
(** ** Payments *)

(** Reading a row back after an UPDATE by key. *)
Lemma first_after_update {A} (key : A -> Z) (k : Z) (f : A -> A) (l : list A) :
  (forall a, key (f a) = key a) ->
  Query.first (fun a => (key a =? k)%Z)
    (map (fun a => if (key a =? k)%Z then f a else a) l)
  = option_map f (Query.first (fun a => (key a =? k)%Z) l).
Proof.
  intros Hkey. unfold Query.first.
  induction l as [|a l IH]; cbn; [reflexivity|].
  destruct (key a =? k)%Z eqn:E.
  - rewrite Hkey, E. reflexivity.
  - rewrite E. exact IH.
Qed.

Lemma payments_of_app (order_id : Z) (d : DB) (p : Payment.t) :
  payments_of order_id (with_payments (payments d ++ [p]) d)
  = (payments_of order_id d
     ++ (if (Payment.order_id p =? order_id)%Z then [p] else []))%list.
Proof.
  unfold payments_of, Query.all. cbn [payments with_payments].
  rewrite filter_app. cbn. destruct (Payment.order_id p =? order_id)%Z; reflexivity.
Qed.

Lemma first_none_all_nil {A} (p : A -> bool) (l : list A) :
  Query.first p l = None -> Query.all p l = [].
Proof.
  unfold Query.first, Query.all. induction l as [|a l IH]; cbn; [reflexivity|].
  destruct (p a); [discriminate | exact IH].
Qed.

(** Whatever the request, [create_payment] keeps the payments of every
    order at one at most. *)
Lemma create_payment_preserves_one_per_order
    (data : CreatePayment.data) (s : Session.t) (d : DB) :
  one_payment_per_order d ->
  one_payment_per_order (snd (serve (create_payment data) s d)).
Proof.
  intros Hinv. unfold serve, create_payment.
  match goal with
  | |- context [require_auth ?f ?w] =>
      destruct (require_auth_refused f w) as [(r & w' & Hr & Hc & H401) | Hr]; rewrite Hr
  end.
  - cbn [snd]. rewrite Hc. exact Hinv.
  - clear Hr. unfold bind at 1. unfold session_user_id, bind, get_session. cbn [session].
    destruct (Session.user_id s) as [uid|]; [|exact Hinv].
    cbn [ret].
    destruct (CreatePayment.order_id data) as [order_id|];
      destruct (CreatePayment.method data) as [method|]; cbn [Py.truthy_opt];
      try (destruct (Py.truthy_int order_id)); try (destruct (Py.truthy_str method));
      cbn; try exact Hinv.
    destruct (Py.str_in method valid_methods); cbn; [|exact Hinv].
    destruct (Query.first _ (orders d)) as [order|]; cbn; [|exact Hinv].
    destruct (Query.first (fun p => (Payment.order_id p =? order_id)%Z) (payments d))
      as [existing|] eqn:Hex; cbn; [exact Hinv|].
    intros oid.
    change (mkDB (users d) (menu_items d) (orders d) (order_items d)
              (payments d ++ [?p]) (cart d))
      with (with_payments (payments d ++ [p]) d).
    rewrite payments_of_app. cbn [Payment.order_id].
    destruct (order_id =? oid)%Z eqn:E.
    + apply Z.eqb_eq in E. subst oid.
      unfold payments_of. rewrite (first_none_all_nil _ _ Hex). cbn. lia.
    + rewrite app_nil_r. apply Hinv.
Qed.

(** C3.  A second create for an order that has a payment is refused.  For
    every session, database and request: (1) if every order has at most one
    payment before POST /payments, the same holds after it; (2) when the
    request is a well-formed one of the order's owner (order id and method
    given, method among the valid ones) and the order already has a
    payment, the answer is 409 and no table changes, so the order keeps
    exactly the payments it had. *)
Theorem create_payment_one_per_order :
  forall (s : Session.t) (d : DB) (data : CreatePayment.data),
    (one_payment_per_order d ->
     one_payment_per_order (snd (serve (create_payment data) s d)))
    /\ (forall (uid order_id : Z) (u : User.t) (method : string)
               (order : Order.t) (existing : Payment.t),
           Session.user_id s = Some uid ->
           Query.first (fun u => (User.id u =? uid)%Z) (users d) = Some u ->
           CreatePayment.order_id data = Some order_id ->
           order_id <> 0 ->
           CreatePayment.method data = Some method ->
           Py.str_in method valid_methods = true ->
           Query.first (fun o => (Order.id o =? order_id)%Z && (Order.user_id o =? uid)%Z)
             (orders d) = Some order ->
           Query.first (fun p => (Payment.order_id p =? order_id)%Z) (payments d)
           = Some existing ->
           serve (create_payment data) s d
           = (_bad_request "Payment already exists for this order" 409, s, d)).
Proof.
  intros s d data. split.
  - apply create_payment_preserves_one_per_order.
  - intros uid order_id u method order existing Hs Hu Hoid Hnz Hm Hvalid Ho Hex.
    unfold serve, create_payment.
    rewrite (require_auth_ok _ (mkWorld s d d) uid u Hs Hu).
    rewrite (bind_done _ _ _ _ _ (session_user_id_ok (mkWorld s d d) uid Hs)).
    rewrite Hoid, Hm. cbn [Py.truthy_opt].
    assert (Ht : Py.truthy_int order_id = true).
    { unfold Py.truthy_int. apply negb_true_iff. apply Z.eqb_neq. exact Hnz. }
    assert (Htm : Py.truthy_str method = true).
    { unfold Py.truthy_str. destruct (method =? "")%string eqn:E; [|reflexivity].
      apply String.eqb_eq in E. subst method. discriminate Hvalid. }
    rewrite Ht, Htm. cbn [app is_empty negb]. rewrite Hvalid. cbn [negb].
    unfold bind at 1. unfold query at 1. cbn [work]. rewrite Ho, Hex. reflexivity.
Qed.

Lemma create_payment_one_per_order_witness :
  one_payment_per_order
    (snd (serve (create_payment (CreatePayment.mk (Some 1) (Some "instapay") None))
            Example.customer_session (Example.paid_db "pending")))
  /\ serve (create_payment (CreatePayment.mk (Some 1) (Some "instapay") None))
       Example.customer_session (Example.paid_db "pending")
     = (_bad_request "Payment already exists for this order" 409,
        Example.customer_session, Example.paid_db "pending").
Proof.
  destruct (create_payment_one_per_order Example.customer_session
              (Example.paid_db "pending")
              (CreatePayment.mk (Some 1) (Some "instapay") None)) as [Hinv Hconflict].
  split.
  - apply Hinv. intros oid. unfold payments_of, Query.all, Example.paid_db.
    cbn [payments filter Payment.order_id Example.payment1].
    destruct (1 =? oid)%Z; cbn [List.length]; lia.
  - apply (Hconflict 7 1 Example.customer "instapay" Example.order1
             (Example.payment1 "pending")); try reflexivity.
    discriminate.
Defined.

(** The first create for an order without a payment records one, pending,
    for the advance of the order. *)
Example first_create_payment_succeeds :
  serve (create_payment (CreatePayment.mk (Some 1) (Some "instapay") None))
    Example.customer_session Example.order_db
  = (mkResponse 201 "Payment record created. Please upload payment proof.",
     Example.customer_session, Example.paid_db "pending").
Proof. reflexivity. Qed.

Lemma first_some_holds {A} (p : A -> bool) (l : list A) (x : A) :
  Query.first p l = Some x -> p x = true.
Proof. intros H. apply (find_some _ _ H). Qed.

Lemma first_weaken {A} (p q : A -> bool) (l : list A) (x : A) :
  (forall a, p a = true -> q a = true) ->
  Query.first p l = Some x -> exists y, Query.first q l = Some y.
Proof.
  intros Hpq. unfold Query.first. induction l as [|a l IH]; cbn; [discriminate|].
  destruct (p a) eqn:E.
  - intros _. rewrite (Hpq a E). eexists. reflexivity.
  - intros H. destruct (q a); [eexists; reflexivity | exact (IH H)].
Qed.

(** C4.  For an administrator, a payment with this key and its parent
    order: PUT /payments/<id>/confirm answers 200, the payment read back
    has status "confirmed", an order whose status was "new" is read back
    with status "confirmed", and when the order's status was anything else
    the orders table is unchanged. *)
Theorem confirm_payment_order_status :
  forall (s : Session.t) (d : DB) (payment_id uid : Z) (data : ConfirmPayment.data)
         (u : User.t) (payment : Payment.t) (order : Order.t),
    Session.user_id s = Some uid ->
    Query.first (fun u => (User.id u =? uid)%Z) (users d) = Some u ->
    User.is_admin u = true ->
    Query.first (fun p => (Payment.id p =? payment_id)%Z) (payments d) = Some payment ->
    Query.first (fun o => (Order.id o =? Payment.order_id payment)%Z) (orders d)
    = Some order ->
    exists d',
      serve (confirm_payment payment_id data) s d
      = (mkResponse 200 "Payment confirmed successfully", s, d')
      /\ (exists p', Query.first (fun p => (Payment.id p =? payment_id)%Z) (payments d')
                     = Some p'
                     /\ Payment.status p' = "confirmed")
      /\ (Order.status order = "new" ->
          exists o', Query.first (fun o => (Order.id o =? Payment.order_id payment)%Z)
                       (orders d') = Some o'
                     /\ Order.status o' = "confirmed")
      /\ (Order.status order <> "new" -> orders d' = orders d).
Proof.
  intros s d payment_id uid data u payment order Hs Hu Ha Hp Ho.
  pose proof (first_some_holds _ _ _ Hp) as Hpid. apply Z.eqb_eq in Hpid.
  pose proof (first_some_holds _ _ _ Ho) as Hoid. apply Z.eqb_eq in Hoid.
  unfold serve, confirm_payment.
  rewrite (require_admin_ok _ (mkWorld s d d) uid u Hs Hu Ha).
  unfold bind at 1. unfold query at 1. cbn [work]. rewrite Hp.
  unfold Store.payment_update, order_of, Store.order_update, bind, query, flush, commit, ret.
  cbn [work session committed with_payments orders]. rewrite Ho.
  rewrite Hpid, Hoid.
  destruct (Order.status order =? "new")%string eqn:Enew;
    cbn [work session committed with_payments with_orders orders payments].
  - eexists. split; [reflexivity|]. cbn [payments orders with_orders with_payments].
    split; [| split].
    + rewrite (first_after_update Payment.id payment_id).
      * rewrite Hp. cbn [option_map]. eexists. split; [reflexivity|].
        destruct (Py.truthy_str _), (Py.truthy_str _); reflexivity.
      * intros a. destruct (Py.truthy_str _), (Py.truthy_str _); reflexivity.
    + intros _. rewrite (first_after_update Order.id (Payment.order_id payment)).
      * rewrite Ho. cbn [option_map]. eexists. split; reflexivity.
      * intros a. reflexivity.
    + intros Hne. apply String.eqb_eq in Enew. contradiction.
  - eexists. split; [reflexivity|]. cbn [payments orders with_orders with_payments].
    split; [| split].
    + rewrite (first_after_update Payment.id payment_id).
      * rewrite Hp. cbn [option_map]. eexists. split; [reflexivity|].
        destruct (Py.truthy_str _), (Py.truthy_str _); reflexivity.
      * intros a. destruct (Py.truthy_str _), (Py.truthy_str _); reflexivity.
    + intros Hnew. apply String.eqb_neq in Enew. contradiction.
    + intros _. reflexivity.
Qed.

Lemma confirm_payment_order_status_witness :
  exists d',
    serve (confirm_payment 1 (ConfirmPayment.mk (Some "TX9") None))
      Example.manager_session (Example.paid_db "pending")
    = (mkResponse 200 "Payment confirmed successfully", Example.manager_session, d')
    /\ (exists p', Query.first (fun p => (Payment.id p =? 1)%Z) (payments d') = Some p'
                   /\ Payment.status p' = "confirmed")
    /\ (Order.status Example.order1 = "new" ->
        exists o', Query.first
                     (fun o => (Order.id o =? Payment.order_id (Example.payment1 "pending"))%Z)
                     (orders d') = Some o'
                   /\ Order.status o' = "confirmed")
    /\ (Order.status Example.order1 <> "new" ->
        orders d' = orders (Example.paid_db "pending")).
Proof.
  apply (confirm_payment_order_status Example.manager_session (Example.paid_db "pending")
           1 1 (ConfirmPayment.mk (Some "TX9") None) Example.manager
           (Example.payment1 "pending") Example.order1); reflexivity.
Defined.

(** Confirming the payment of an order that is already on its way leaves
    the order on its way. *)
Example confirm_payment_of_later_order :
  let d := mkDB Example.people Example.menu
             [Order.set_status "on_way" Example.order1] Example.order1_items
             [Example.payment1 "pending"] [] in
  orders (snd (serve (confirm_payment 1 (ConfirmPayment.mk None None))
                 Example.manager_session d))
  = [Order.set_status "on_way" Example.order1].
Proof. reflexivity. Qed.

(** C7, as stated, fails: the reason " " is not empty, yet the request is
    refused with 400 and the payment stays pending. *)
Lemma reject_payment_blank_reason :
  " " <> ""
  /\ serve (reject_payment 1 (Some " ")) Example.manager_session (Example.paid_db "pending")
     = (_bad_request "Rejection reason required" 400,
        Example.manager_session, Example.paid_db "pending")
  /\ Query.first (fun p => (Payment.id p =? 1)%Z) (payments (Example.paid_db "pending"))
     = Some (Example.payment1 "pending").
Proof. split; [discriminate | split; reflexivity]. Qed.

(** C7, amended.  For an administrator and a payment with this key, the
    reason is the [notes] of the body with surrounding whitespace removed.
    When it is empty (key absent, empty text or whitespace only) the
    answer is 400 and no table changes.  Otherwise the answer is 200, the
    payment read back has status "rejected" and the reason as its notes,
    and the orders table is unchanged. *)
Theorem reject_payment_stripped_reason :
  forall (s : Session.t) (d : DB) (payment_id uid : Z) (data_notes : option string)
         (u : User.t) (payment : Payment.t),
    Session.user_id s = Some uid ->
    Query.first (fun u => (User.id u =? uid)%Z) (users d) = Some u ->
    User.is_admin u = true ->
    Query.first (fun p => (Payment.id p =? payment_id)%Z) (payments d) = Some payment ->
    (Py.strip (Py.get_or_empty data_notes) = "" ->
     serve (reject_payment payment_id data_notes) s d
     = (_bad_request "Rejection reason required" 400, s, d))
    /\ (Py.strip (Py.get_or_empty data_notes) <> "" ->
        exists d',
          serve (reject_payment payment_id data_notes) s d
          = (mkResponse 200 "Payment rejected", s, d')
          /\ orders d' = orders d
          /\ exists p', Query.first (fun p => (Payment.id p =? payment_id)%Z) (payments d')
                        = Some p'
                        /\ Payment.status p' = "rejected"
                        /\ Payment.notes p' = Some (Py.strip (Py.get_or_empty data_notes))).
Proof.
  intros s d payment_id uid data_notes u payment Hs Hu Ha Hp.
  pose proof (first_some_holds _ _ _ Hp) as Hpid. apply Z.eqb_eq in Hpid.
  split; intros Hreason.
  - unfold serve, reject_payment.
    rewrite (require_admin_ok _ (mkWorld s d d) uid u Hs Hu Ha).
    unfold bind at 1. unfold query at 1. cbn [work]. rewrite Hp.
    rewrite Hreason. reflexivity.
  - unfold serve, reject_payment.
    rewrite (require_admin_ok _ (mkWorld s d d) uid u Hs Hu Ha).
    unfold bind at 1. unfold query at 1. cbn [work]. rewrite Hp.
    assert (Ht : Py.truthy_str (Py.strip (Py.get_or_empty data_notes)) = true).
    { unfold Py.truthy_str. apply negb_true_iff. apply String.eqb_neq. exact Hreason. }
    rewrite Ht. cbn [negb].
    unfold Store.payment_update, bind, query, flush, commit, ret.
    cbn [work session committed with_payments orders payments]. rewrite Hpid.
    eexists. split; [reflexivity|]. cbn [orders payments with_payments].
    split; [reflexivity|].
    rewrite (first_after_update Payment.id payment_id).
    + rewrite Hp. cbn [option_map]. eexists. repeat split; reflexivity.
    + intros a. reflexivity.
Qed.

Lemma reject_payment_stripped_reason_witness :
  (Py.strip (Py.get_or_empty (Some " wrong amount ")) = "" ->
   serve (reject_payment 1 (Some " wrong amount ")) Example.manager_session
     (Example.paid_db "pending")
   = (_bad_request "Rejection reason required" 400, Example.manager_session,
      Example.paid_db "pending"))
  /\ (Py.strip (Py.get_or_empty (Some " wrong amount ")) <> "" ->
      exists d',
        serve (reject_payment 1 (Some " wrong amount ")) Example.manager_session
          (Example.paid_db "pending")
        = (mkResponse 200 "Payment rejected", Example.manager_session, d')
        /\ orders d' = orders (Example.paid_db "pending")
        /\ exists p', Query.first (fun p => (Payment.id p =? 1)%Z) (payments d') = Some p'
                      /\ Payment.status p' = "rejected"
                      /\ Payment.notes p'
                         = Some (Py.strip (Py.get_or_empty (Some " wrong amount ")))).
Proof.
  apply (reject_payment_stripped_reason Example.manager_session (Example.paid_db "pending")
           1 1 (Some " wrong amount ") Example.manager (Example.payment1 "pending"));
    reflexivity.
Defined.

(** The reason is stored without its surrounding whitespace. *)
Example reject_payment_stores_stripped_reason :
  payments (snd (serve (reject_payment 1 (Some " wrong amount "))
                   Example.manager_session (Example.paid_db "pending")))
  = [Payment.set_notes (Some "wrong amount") (Example.payment1 "rejected")].
Proof. reflexivity. Qed.

(** C8.  For the owner of the parent order and a file whose name is not
    empty and has an allowed extension: POST /payments/<id>/upload answers
    200 and the payment read back has status "pending" and the new proof
    reference, whatever its status was. *)
Theorem upload_proof_resets_pending :
  forall (secure_filename : string -> string) (s : Session.t) (d : DB)
         (payment_id uid : Z) (req : Upload.request) (u : User.t)
         (payment : Payment.t) (file_filename : string),
    Session.user_id s = Some uid ->
    Query.first (fun u => (User.id u =? uid)%Z) (users d) = Some u ->
    Query.first
      (fun p => (Payment.id p =? payment_id)%Z
                && existsb (fun o => (Order.id o =? Payment.order_id p)%Z
                                     && (Order.user_id o =? uid)%Z) (orders d))
      (payments d) = Some payment ->
    Upload.screenshot req = Some file_filename ->
    file_filename <> "" ->
    allowed_file file_filename = true ->
    exists d',
      serve (upload_payment_proof secure_filename payment_id req) s d
      = (mkResponse 200 "Payment proof uploaded successfully", s, d')
      /\ exists p', Query.first (fun p => (Payment.id p =? payment_id)%Z) (payments d')
                    = Some p'
                    /\ Payment.status p' = "pending"
                    /\ Payment.screenshot_url p'
                       = Some ("/static/uploads/payments/"
                               ++ ("payment_" ++ Py.str_of_int payment_id ++ "_"
                                   ++ Upload.now req ++ "_"
                                   ++ secure_filename file_filename)).
Proof.
  intros sf s d payment_id uid req u payment file_filename Hs Hu Hp Hf Hne Hal.
  pose proof (first_some_holds _ _ _ Hp) as Hpid.
  apply andb_true_iff in Hpid. destruct Hpid as [Hpid _]. apply Z.eqb_eq in Hpid.
  destruct (first_weaken _ (fun p => (Payment.id p =? payment_id)%Z) _ _
              (fun a H => proj1 (proj1 (andb_true_iff _ _) H)) Hp) as [p0 Hp0].
  unfold serve, upload_payment_proof.
  rewrite (require_auth_ok _ (mkWorld s d d) uid u Hs Hu).
  rewrite (bind_done _ _ _ _ _ (session_user_id_ok (mkWorld s d d) uid Hs)).
  unfold bind at 1. unfold query at 1. cbn [work]. rewrite Hp, Hf.
  apply String.eqb_neq in Hne. rewrite Hne, Hal. cbn [negb].
  unfold Store.payment_update, bind, query, flush, commit, ret.
  cbn [work session committed with_payments orders payments]. rewrite Hpid.
  eexists. split; [reflexivity|]. cbn [payments with_payments].
  rewrite (first_after_update Payment.id payment_id).
  - rewrite Hp0. cbn [option_map]. eexists. repeat split; reflexivity.
  - intros a. reflexivity.
Qed.

Lemma upload_proof_resets_pending_witness :
  exists d',
    serve (upload_payment_proof (fun n => n) 1 (Upload.mk (Some "proof.PNG") "20240101_120000"))
      Example.customer_session (Example.paid_db "rejected")
    = (mkResponse 200 "Payment proof uploaded successfully", Example.customer_session, d')
    /\ exists p', Query.first (fun p => (Payment.id p =? 1)%Z) (payments d') = Some p'
                  /\ Payment.status p' = "pending"
                  /\ Payment.screenshot_url p'
                     = Some ("/static/uploads/payments/"
                             ++ ("payment_" ++ Py.str_of_int 1 ++ "_"
                                 ++ Upload.now (Upload.mk (Some "proof.PNG") "20240101_120000")
                                 ++ "_" ++ (fun n : string => n) "proof.PNG")).
Proof.
  apply (upload_proof_resets_pending (fun n => n) Example.customer_session
           (Example.paid_db "rejected") 1 7
           (Upload.mk (Some "proof.PNG") "20240101_120000") Example.customer
           (Example.payment1 "rejected") "proof.PNG"); try reflexivity.
  discriminate.
Defined.

(** A confirmed payment goes back to pending as well. *)
Example upload_after_confirmation :
  payments (snd (serve (upload_payment_proof (fun n => n) 1
                          (Upload.mk (Some "proof.jpg") "20240101_120000"))
                   Example.customer_session (Example.paid_db "confirmed")))
  = [Payment.set_screenshot_url
       (Some "/static/uploads/payments/payment_1_20240101_120000_proof.jpg")
       (Example.payment1 "pending")].
Proof. reflexivity. Qed.

(* ------------------------------------------------------------------ *)
(** ** The cart of a signed-in user *)

Lemma first_none_of_filters {A} (p q : A -> bool) (l : list A) :
  filter q (filter p l) = [] -> Query.first (fun a => p a && q a) l = None.
Proof.
  unfold Query.first. induction l as [|a l IH]; cbn; [reflexivity|].
  destruct (p a); cbn.
  - destruct (q a); [discriminate | exact IH].
  - exact IH.
Qed.

(** A signed-in user has no row for the item: POST /cart builds a row with
    [session_id=None], which the table refuses. *)
Lemma add_to_cart_signed_in_new_item_fails :
  forall (s : Session.t) (d : DB) (data : AddToCart.data)
         (uid menu_item_id quantity : Z) (m : MenuItem.t),
    Session.user_id s = Some uid ->
    uid <> 0 ->
    AddToCart.menu_item_id data = Some menu_item_id ->
    menu_item_id <> 0 ->
    AddToCart.quantity data = Some quantity ->
    0 < quantity ->
    Query.first (fun m => (MenuItem.id m =? menu_item_id)%Z) (menu_items d) = Some m ->
    MenuItem.is_available m = true ->
    entries_for menu_item_id (user_cart uid d) = [] ->
    serve (add_to_cart data) s d = (internal_server_error, s, d).
Proof.
  intros s d data uid mid q m Hs Hu Hmid Hmz Hq Hpos Hm Hav Hnone.
  unfold serve, add_to_cart. rewrite Hmid, Hq. cbn [Py.truthy_opt].
  assert (Ht1 : Py.truthy_int mid = true)
    by (unfold Py.truthy_int; apply negb_true_iff, Z.eqb_neq; exact Hmz).
  assert (Ht2 : Py.truthy_int q = true)
    by (unfold Py.truthy_int; apply negb_true_iff, Z.eqb_neq; lia).
  assert (Ht3 : Py.truthy_int uid = true)
    by (unfold Py.truthy_int; apply negb_true_iff, Z.eqb_neq; exact Hu).
  rewrite Ht1, Ht2. cbn [app is_empty negb].
  assert (Hq0 : (q <=? 0)%Z = false) by (apply Z.leb_gt; exact Hpos).
  rewrite Hq0.
  unfold bind at 1. unfold query at 1. cbn [work]. rewrite Hm, Hav. cbn [negb].
  unfold bind at 1. unfold get_session at 1. cbn [session]. rewrite Hs.
  cbn [Py.truthy_opt]. rewrite Ht3. cbn [negb].
  unfold bind at 1. unfold ret at 1.
  unfold entries_for, user_cart, Query.all in Hnone.
  rewrite (first_none_of_filters _ _ _ Hnone).
  reflexivity.
Qed.

(** C5.  For a signed-in user the two adds give no entry at all.  When
    the user has no cart row for an available menu item, each of two
    POST /cart requests for it, with quantities [q1 > 0] and [q2 > 0], is
    answered 500, and the cart table is afterwards what it was: there is
    no entry of quantity [q1 + q2]. *)
Theorem add_to_cart_signed_in_twice_fails :
  forall (s : Session.t) (d : DB) (uid menu_item_id q1 q2 : Z)
         (notes1 notes2 : option string) (m : MenuItem.t),
    Session.user_id s = Some uid ->
    uid <> 0 ->
    menu_item_id <> 0 ->
    0 < q1 ->
    0 < q2 ->
    Query.first (fun m => (MenuItem.id m =? menu_item_id)%Z) (menu_items d) = Some m ->
    MenuItem.is_available m = true ->
    entries_for menu_item_id (user_cart uid d) = [] ->
    let '(r1, s1, d1) :=
      serve (add_to_cart (AddToCart.mk (Some menu_item_id) (Some q1) notes1)) s d in
    let '(r2, s2, d2) :=
      serve (add_to_cart (AddToCart.mk (Some menu_item_id) (Some q2) notes2)) s1 d1 in
    status_code r1 = 500 /\ status_code r2 = 500 /\ d2 = d
    /\ entries_for menu_item_id (user_cart uid d2) = [].
Proof.
  intros s d uid mid q1 q2 n1 n2 m Hs Hu Hmz H1 H2 Hm Hav Hnone.
  rewrite (add_to_cart_signed_in_new_item_fails s d
             (AddToCart.mk (Some mid) (Some q1) n1) uid mid q1 m Hs Hu eq_refl Hmz
             eq_refl H1 Hm Hav Hnone).
  rewrite (add_to_cart_signed_in_new_item_fails s d
             (AddToCart.mk (Some mid) (Some q2) n2) uid mid q2 m Hs Hu eq_refl Hmz
             eq_refl H2 Hm Hav Hnone).
  cbn [status_code internal_server_error]. repeat split. exact Hnone.
Qed.

Lemma add_to_cart_signed_in_twice_fails_witness :
  let '(r1, s1, d1) :=
    serve (add_to_cart (AddToCart.mk (Some 1) (Some 2) None))
      Example.customer_session Example.empty_db in
  let '(r2, s2, d2) :=
    serve (add_to_cart (AddToCart.mk (Some 1) (Some 3) None)) s1 d1 in
  status_code r1 = 500 /\ status_code r2 = 500 /\ d2 = Example.empty_db
  /\ entries_for 1 (user_cart 7 d2) = [].
Proof.
  apply (add_to_cart_signed_in_twice_fails Example.customer_session Example.empty_db
           7 1 2 3 None None Example.koshary); try reflexivity; try lia.
Defined.

(* ------------------------------------------------------------------ *)
(** ** Loops over the cart: merge and reorder *)

(** A lookup that reads only the key, the owners and the menu item of a
    row finds rows of the same shape in tables of the same shape. *)
Lemma first_same_shape (P : Z * option string * option Z * Z -> bool) :
  forall l l' : list Cart.t,
    map shape l = map shape l' ->
    option_map shape (Query.first (fun c => P (shape c)) l)
    = option_map shape (Query.first (fun c => P (shape c)) l').
Proof.
  unfold Query.first.
  induction l as [|a l IH]; intros [|a' l'] H; cbn in *; try discriminate.
  - reflexivity.
  - assert (Ha : shape a = shape a') by exact (f_equal (hd (shape a)) H).
    assert (Hl : map shape l = map shape l') by exact (f_equal (@tl _) H).
    rewrite <- Ha.
    destruct (P (shape a)); cbn; [rewrite Ha; reflexivity | exact (IH l' Hl)].
Qed.

Lemma user_row_same_shape (uid m : Z) (l l' : list Cart.t) :
  map shape l = map shape l' ->
  Query.first (fun c => Query.col_eq_int (Cart.user_id c) uid
                        && (Cart.menu_item_id c =? m)%Z) l = None ->
  Query.first (fun c => Query.col_eq_int (Cart.user_id c) uid
                        && (Cart.menu_item_id c =? m)%Z) l' = None.
Proof.
  intros Hsh Hnone.
  pose proof (first_same_shape
                (fun sh => Query.col_eq_int (snd (fst sh)) uid && (snd sh =? m)%Z)
                l l' Hsh) as H.
  cbn [shape fst snd] in H. rewrite Hnone in H.
  destruct (Query.first _ l'); [discriminate | reflexivity].
Qed.

Lemma row_by_id_same_shape (g : Z) (l l' : list Cart.t) (gi : Cart.t) :
  map shape l = map shape l' ->
  Query.first (fun c => (Cart.id c =? g)%Z) l = Some gi ->
  exists gi', Query.first (fun c => (Cart.id c =? g)%Z) l' = Some gi'
              /\ Cart.menu_item_id gi' = Cart.menu_item_id gi.
Proof.
  intros Hsh Hgi.
  pose proof (first_same_shape (fun sh => (fst (fst (fst sh)) =? g)%Z) l l' Hsh) as H.
  cbn [shape fst snd] in H. rewrite Hgi in H.
  destruct (Query.first _ l') as [gi'|]; [|discriminate].
  exists gi'. split; [reflexivity|].
  cbn [option_map] in H. assert (H' : shape gi = shape gi') by congruence.
  exact (eq_sym (f_equal snd H')).
Qed.

(** An UPDATE that keeps the shape of the rows. *)
Lemma cart_update_shape (id : Z) (f : Cart.t -> Cart.t) (w : world) :
  (forall c, shape (f c) = shape c) ->
  exists w',
    Store.cart_update id f w = Done tt w'
    /\ session w' = session w /\ committed w' = committed w
    /\ map shape (cart (work w')) = map shape (cart (work w)).
Proof.
  intros Hf. unfold Store.cart_update, bind, query, flush.
  eexists. split; [reflexivity|]. cbn [session committed work cart with_cart].
  repeat split. rewrite map_map. apply map_ext.
  intros c. destruct (Cart.id c =? id)%Z; [apply Hf | reflexivity].
Qed.

(** One turn of the merge loop either updates a row of the user, keeping
    the shape of the table, or raises and leaves the world as it is. *)
Lemma merge_guest_item_step (uid g : Z) (w : world) :
  (exists w',
      merge_guest_item uid g w = Done tt w'
      /\ session w' = session w /\ committed w' = committed w
      /\ map shape (cart (work w')) = map shape (cart (work w)))
  \/ merge_guest_item uid g w = Exc Py.IntegrityError w.
Proof.
  unfold merge_guest_item, bind, query. cbn beta iota.
  destruct (Query.first (fun c => (Cart.id c =? g)%Z) (cart (work w))) as [gi|].
  - destruct (Query.first _ (cart (work w))) as [e|].
    + left. apply cart_update_shape. intros c.
      destruct (Py.truthy_opt Py.truthy_str (Cart.notes gi)
                && negb (Py.truthy_opt Py.truthy_str (Cart.notes e))); reflexivity.
    + right. reflexivity.
  - left. exists w. repeat split; reflexivity.
Qed.

Lemma merge_guest_item_unmatched (uid g : Z) (w : world) (gi : Cart.t) :
  Query.first (fun c => (Cart.id c =? g)%Z) (cart (work w)) = Some gi ->
  Query.first (fun c => Query.col_eq_int (Cart.user_id c) uid
                        && (Cart.menu_item_id c =? Cart.menu_item_id gi)%Z)
    (cart (work w)) = None ->
  merge_guest_item uid g w = Exc Py.IntegrityError w.
Proof.
  intros Hgi Hnone. unfold merge_guest_item. unfold bind at 1. unfold query at 1.
  cbn beta iota. rewrite Hgi, Hnone. reflexivity.
Qed.

(** A guest row without a row of the user for its menu item stops the loop. *)
Lemma merge_loop_fails (uid : Z) (gs : list Z) :
  forall w : world,
    (exists g gi, In g gs
                  /\ Query.first (fun c => (Cart.id c =? g)%Z) (cart (work w)) = Some gi
                  /\ Query.first (fun c => Query.col_eq_int (Cart.user_id c) uid
                                           && (Cart.menu_item_id c =? Cart.menu_item_id gi)%Z)
                       (cart (work w)) = None) ->
    exists w', forM_ gs (merge_guest_item uid) w = Exc Py.IntegrityError w'
               /\ committed w' = committed w.
Proof.
  induction gs as [|g0 gs IH]; intros w (g & gi & Hin & Hgi & Hnone).
  - destruct Hin.
  - cbn [forM_]. destruct Hin as [-> | Hin].
    + exists w. split; [|reflexivity].
      apply bind_exc. apply (merge_guest_item_unmatched uid g w gi Hgi Hnone).
    + destruct (merge_guest_item_step uid g0 w) as [(w1 & Hstep & _ & Hc & Hsh) | Hstep].
      * rewrite (bind_done _ _ _ _ _ Hstep).
        destruct (row_by_id_same_shape g _ _ gi (eq_sym Hsh) Hgi) as (gi' & Hgi' & Hitem).
        destruct (IH w1) as (w' & Hloop & Hc').
        { exists g, gi'. split; [exact Hin|]. split; [exact Hgi'|].
          rewrite Hitem. apply (user_row_same_shape uid _ _ _ (eq_sym Hsh) Hnone). }
        exists w'. split; [exact Hloop | congruence].
      * exists w. split; [apply bind_exc; exact Hstep | reflexivity].
Qed.

Lemma get_session_id_done (w : world) :
  exists w', get_session_id w = Done (session_id_of (session w)) w'
             /\ Session.user_id (session w') = Session.user_id (session w)
             /\ committed w' = committed w /\ work w' = work w.
Proof.
  unfold get_session_id, session_id_of, bind, get_session, put_session, ret.
  destruct (Session.cart_session_id (session w)); eexists; repeat split; reflexivity.
Qed.

(** C9.  The quantities of the matching guest entries are not added when
    the session also holds an entry the user has no row for.  For a
    signed-in user and a guest row [g] of the session, stored under its
    key, whose menu item is not in the user's cart: POST /cart/merge tries
    to re-own [g] with [session_id=None], the table refuses, the request
    is answered 500 and the cart table is what it was, every user entry
    with the quantity it had. *)
Theorem merge_cart_unmatched_guest_fails :
  forall (s : Session.t) (d : DB) (uid : Z) (u : User.t) (g : Cart.t),
    Session.user_id s = Some uid ->
    Query.first (fun u => (User.id u =? uid)%Z) (users d) = Some u ->
    In g (guest_cart (session_id_of s) d) ->
    Query.first (fun c => (Cart.id c =? Cart.id g)%Z) (cart d) = Some g ->
    entries_for (Cart.menu_item_id g) (user_cart uid d) = [] ->
    let '(r, _, d') := serve merge_cart s d in
    r = internal_server_error /\ d' = d.
Proof.
  intros s d uid u g Hs Hu Hin Hg Hnone.
  unfold serve, merge_cart.
  rewrite (require_auth_ok _ (mkWorld s d d) uid u Hs Hu).
  rewrite (bind_done _ _ _ _ _ (session_user_id_ok (mkWorld s d d) uid Hs)).
  destruct (get_session_id_done (mkWorld s d d)) as (w1 & Hsid & _ & Hc1 & Hw1).
  rewrite (bind_done _ _ _ _ _ Hsid). cbn [session] in *.
  unfold bind at 1. unfold query at 1. rewrite Hw1. cbn [work].
  unfold guest_cart in Hin.
  assert (Hne : Query.all
                  (fun c => Query.col_eq_str (Cart.session_id c) (session_id_of s))
                  (cart d) <> []).
  { intros E. rewrite E in Hin. destruct Hin. }
  rewrite (is_empty_false _ Hne).
  destruct (merge_loop_fails uid
              (map Cart.id (Query.all
                              (fun c => Query.col_eq_str (Cart.session_id c) (session_id_of s))
                              (cart d))) w1) as (w' & Hloop & Hc').
  { exists (Cart.id g), g. rewrite Hw1. cbn [work]. split; [|split].
    - apply in_map. exact Hin.
    - exact Hg.
    - unfold entries_for, user_cart, Query.all in Hnone.
      apply (first_none_of_filters _ _ _ Hnone). }
  rewrite (bind_exc _ _ _ _ _ Hloop).
  split; [reflexivity|]. rewrite Hc', Hc1. reflexivity.
Qed.

Lemma merge_cart_unmatched_guest_fails_witness :
  let '(r, _, d') := serve merge_cart Example.customer_session Example.merge_db in
  r = internal_server_error /\ d' = Example.merge_db.
Proof.
  apply (merge_cart_unmatched_guest_fails Example.customer_session Example.merge_db
           7 Example.customer (Cart.mk 3 (Some "s7") None 2 1 None)).
  - reflexivity.
  - reflexivity.
  - right. left. reflexivity.
  - reflexivity.
  - reflexivity.
Defined.

(** In [Example.merge_db] the guest's two koshary match the user's one
    koshary; after the merge the user still has one. *)
Example merge_leaves_matching_entry :
  user_cart 7 (snd (serve merge_cart Example.customer_session Example.merge_db))
  = [Cart.mk 1 (Some "u7") (Some 7) 1 1 None].
Proof. reflexivity. Qed.

(** One turn of the reorder loop either updates a row of the user, keeping
    the shape of the table, or raises and leaves the world as it is. *)
Lemma reorder_item_step (uid : Z) (oi : OrderItem.t) (w : world) :
  (exists w',
      reorder_item uid oi w = Done tt w'
      /\ session w' = session w /\ committed w' = committed w
      /\ map shape (cart (work w')) = map shape (cart (work w)))
  \/ reorder_item uid oi w = Exc Py.IntegrityError w.
Proof.
  unfold reorder_item, bind, query. cbn beta iota.
  destruct (Query.first _ (cart (work w))) as [e|].
  - left. apply cart_update_shape. intros c. reflexivity.
  - right. reflexivity.
Qed.

Lemma reorder_item_new_row (uid : Z) (oi : OrderItem.t) (w : world) :
  Query.first (fun c => Query.col_eq_int (Cart.user_id c) uid
                        && (Cart.menu_item_id c =? OrderItem.menu_item_id oi)%Z)
    (cart (work w)) = None ->
  reorder_item uid oi w = Exc Py.IntegrityError w.
Proof.
  intros Hnone. unfold reorder_item, bind, query. cbn beta iota.
  rewrite Hnone. reflexivity.
Qed.

(** An order line whose menu item is not in the user's cart stops the loop. *)
Lemma reorder_loop_fails (uid : Z) (ois : list OrderItem.t) :
  forall w : world,
    (exists oi, In oi ois
                /\ Query.first (fun c => Query.col_eq_int (Cart.user_id c) uid
                                         && (Cart.menu_item_id c =? OrderItem.menu_item_id oi)%Z)
                     (cart (work w)) = None) ->
    exists w', forM_ ois (reorder_item uid) w = Exc Py.IntegrityError w'
               /\ session w' = session w /\ committed w' = committed w.
Proof.
  induction ois as [|o0 ois IH]; intros w (oi & Hin & Hnone).
  - destruct Hin.
  - cbn [forM_]. destruct Hin as [-> | Hin].
    + exists w. split; [|split; reflexivity].
      apply bind_exc. apply (reorder_item_new_row uid oi w Hnone).
    + destruct (reorder_item_step uid o0 w) as [(w1 & Hstep & Hs & Hc & Hsh) | Hstep].
      * rewrite (bind_done _ _ _ _ _ Hstep).
        destruct (IH w1) as (w' & Hloop & Hs' & Hc').
        { exists oi. split; [exact Hin|].
          apply (user_row_same_shape uid _ _ _ (eq_sym Hsh) Hnone). }
        exists w'. split; [exact Hloop | split; congruence].
      * exists w. split; [apply bind_exc; exact Hstep | split; reflexivity].
Qed.

(** C10.  A menu item that is not in the caller's cart does not enter it
    by a reorder, available or not.  For a signed-in user, an order of
    theirs and a line of that order whose menu item has no row in the
    user's cart: POST /orders/<id>/reorder builds a cart row without a
    [session_id], the table refuses it, the request is answered 500 and
    no table changes. *)
Theorem reorder_new_row_fails :
  forall (s : Session.t) (d : DB) (uid order_id : Z) (u : User.t)
         (order : Order.t) (order_item : OrderItem.t),
    Session.user_id s = Some uid ->
    Query.first (fun u => (User.id u =? uid)%Z) (users d) = Some u ->
    Query.first (fun o => (Order.id o =? order_id)%Z && (Order.user_id o =? uid)%Z)
      (orders d) = Some order ->
    In order_item (order_items d) ->
    OrderItem.order_id order_item = Order.id order ->
    entries_for (OrderItem.menu_item_id order_item) (user_cart uid d) = [] ->
    serve (reorder order_id) s d = (internal_server_error, s, d).
Proof.
  intros s d uid order_id u order oi Hs Hu Ho Hin Hoid Hnone.
  unfold serve, reorder.
  rewrite (require_auth_ok _ (mkWorld s d d) uid u Hs Hu).
  rewrite (bind_done _ _ _ _ _ (session_user_id_ok (mkWorld s d d) uid Hs)).
  unfold bind at 1. unfold query at 1. cbn [work]. rewrite Ho.
  destruct (reorder_loop_fails uid
              (Query.all (fun i => (OrderItem.order_id i =? Order.id order)%Z) (order_items d))
              (mkWorld s d d)) as (w' & Hloop & Hs' & Hc').
  { exists oi. split.
    - unfold Query.all. apply filter_In. split; [exact Hin|].
      apply Z.eqb_eq. exact Hoid.
    - cbn [work]. unfold entries_for, user_cart, Query.all in Hnone.
      apply (first_none_of_filters _ _ _ Hnone). }
  rewrite (bind_exc _ _ _ _ _ Hloop). rewrite Hs', Hc'. reflexivity.
Qed.

Lemma reorder_new_row_fails_witness :
  serve (reorder 2) Example.customer_session Example.reorder_db
  = (internal_server_error, Example.customer_session, Example.reorder_db).
Proof.
  apply (reorder_new_row_fails Example.customer_session Example.reorder_db 7 2
           Example.customer Example.order2 (OrderItem.mk 1 2 5 1 2500 None)).
  - reflexivity.
  - reflexivity.
  - reflexivity.
  - left. reflexivity.
  - reflexivity.
  - reflexivity.
Defined.

(** What remains of C10: [reorder] never looks at availability.
    Pickles are unavailable; POST /cart refuses them with 400, while a
    reorder raises the quantity of the pickles already in the cart. *)
Example add_to_cart_refuses_unavailable :
  serve (add_to_cart (AddToCart.mk (Some 5) (Some 1) None))
    Example.guest_session Example.reorder_cart_db
  = (_bad_request "Menu item is not available" 400,
     Example.guest_session, Example.reorder_cart_db).
Proof. reflexivity. Qed.

Example reorder_raises_quantity_of_unavailable :
  serve (reorder 2) Example.customer_session Example.reorder_cart_db
  = (mkResponse 200 "Items added to cart", Example.customer_session,
     with_cart [Cart.mk 1 (Some "s7") (Some 7) 5 2 None] Example.reorder_cart_db).
Proof. reflexivity. Qed.

(* ------------------------------------------------------------------ *)
(** ** The cart of a guest *)

Lemma next_id_above (ids : list Z) (k : Z) : In k ids -> k < Query.next_id ids.
Proof.
  unfold Query.next_id. induction ids as [|a ids IH]; cbn [fold_right In]; [intros []|].
  intros [-> | H]; [lia | specialize (IH H); lia].
Qed.

Lemma first_app_none {A} (p : A -> bool) (l : list A) (x : A) :
  Query.first p l = None -> p x = true -> Query.first p (l ++ [x]) = Some x.
Proof.
  unfold Query.first. induction l as [|a l IH]; cbn; intros Hn Hx.
  - rewrite Hx. reflexivity.
  - destruct (p a); [discriminate | exact (IH Hn Hx)].
Qed.





Lemma session_with_id_stable (s : Session.t) :
  session_with_id (session_with_id s) = session_with_id s
  /\ session_id_of (session_with_id s) = session_id_of s
  /\ Session.user_id (session_with_id s) = Session.user_id s.
Proof.
  unfold session_with_id, session_id_of.
  destruct (Session.cart_session_id s) eqn:E; cbn; rewrite ?E; repeat split; reflexivity.
Qed.




(** The scenario of the specification: quantities 2 and 3 give one entry
    with quantity 5. *)
Example guest_adds_two_then_three :
  cart (snd (serve (add_to_cart (AddToCart.mk (Some 1) (Some 3) None))
               (session_with_id Example.guest_session)
               (snd (serve (add_to_cart (AddToCart.mk (Some 1) (Some 2) None))
                       Example.guest_session Example.empty_db))))
  = [Cart.mk 1 (Some "g1") None 1 5 (Some "")].
Proof. reflexivity. Qed.

(* ------------------------------------------------------------------ *)
(** ** Updating one row of a table with unique keys *)









(* ------------------------------------------------------------------ *)
(** ** A merge in which every guest row is matched *)


Lemma shape_session_id (a b : Cart.t) :
  shape a = shape b -> Cart.session_id a = Cart.session_id b.
Proof. intros H. exact (f_equal (fun sh => snd (fst (fst sh))) H). Qed.







Lemma get_session_id_eq (w : world) :
  get_session_id w
  = Done (session_id_of (session w))
      (mkWorld (session_with_id (session w)) (committed w) (work w)).
Proof.
  unfold get_session_id, session_id_of, session_with_id, bind, get_session, put_session, ret.
  destruct w as [s c k]. cbn [session committed work].
  destruct (Session.cart_session_id s); reflexivity.
Qed.










(** In [Example.matched_db] the user has one koshary and the session two:
    one merge gives the user three, a second one five, and the session
    keeps its two throughout. *)
Example merge_twice_counts_twice :
  cart (snd (serve merge_cart (session_with_id Example.customer_session)
               (snd (serve merge_cart Example.customer_session Example.matched_db))))
  = [Cart.mk 1 (Some "u7") (Some 7) 1 5 None; Cart.mk 2 (Some "s7") None 1 2 None].
Proof. reflexivity. Qed.

(* ------------------------------------------------------------------ *)
(** ** A reorder of items that are all in the cart *)



(** POST /cart refuses a menu item that is not available. *)
Lemma add_to_cart_unavailable :
  forall (s : Session.t) (d : DB) (menu_item_id quantity : Z) (notes : option string)
         (m : MenuItem.t),
    menu_item_id <> 0 ->
    0 < quantity ->
    Query.first (fun m => (MenuItem.id m =? menu_item_id)%Z) (menu_items d) = Some m ->
    MenuItem.is_available m = false ->
    serve (add_to_cart (AddToCart.mk (Some menu_item_id) (Some quantity) notes)) s d
    = (_bad_request "Menu item is not available" 400, s, d).
Proof.
  intros s d mid q notes m Hmz Hpos Hm Hav.
  unfold serve, add_to_cart. cbn [AddToCart.menu_item_id AddToCart.quantity AddToCart.notes
                                  Py.truthy_opt].
  assert (Ht1 : Py.truthy_int mid = true)
    by (unfold Py.truthy_int; apply negb_true_iff, Z.eqb_neq; exact Hmz).
  assert (Ht2 : Py.truthy_int q = true)
    by (unfold Py.truthy_int; apply negb_true_iff, Z.eqb_neq; lia).
  rewrite Ht1, Ht2. cbn [app is_empty negb].
  assert (Hq0 : (q <=? 0)%Z = false) by (apply Z.leb_gt; exact Hpos).
  rewrite Hq0.
  unfold bind at 1. unfold query at 1. cbn [work]. rewrite Hm, Hav. reflexivity.
Qed.



(* ------------------------------------------------------------------ *)
(** ** More of the cart *)

Lemma add_to_cart_outcome (s : Session.t) (d : DB) (data : AddToCart.data) :
  let '(r, _, d') := serve (add_to_cart data) s d in
  status_code r <> 200 -> d' = d.
Proof.
  unfold serve, add_to_cart.
  destruct (AddToCart.menu_item_id data) as [mid|], (AddToCart.quantity data) as [q|];
    cbn [Py.truthy_opt];
    try destruct (Py.truthy_int mid); try destruct (Py.truthy_int q);
    cbn [app is_empty negb ret]; try (intros _; reflexivity).
  destruct (q <=? 0)%Z; [intros _; reflexivity|].
  unfold bind at 1. unfold query at 1. cbn [work].
  destruct (Query.first _ (menu_items d)) as [m|]; [|intros _; reflexivity].
  destruct (MenuItem.is_available m); cbn [negb]; [|intros _; reflexivity].
  unfold bind at 1. unfold get_session at 1. cbn [session].
  unfold get_session_id, Store.cart_update, Store.cart_add, Store.cart_row_ok,
    bind, get_session, put_session, query, flush, commit, ret.
  destruct (Py.truthy_opt Py.truthy_int (Session.user_id s)); cbn [negb session work committed].
  - destruct (Query.first _ (cart d)); cbn [session work committed];
      [intros H; contradiction H; reflexivity | intros _; reflexivity].
  - destruct (Session.cart_session_id s); cbn [session work committed Py.get_or_empty];
      destruct (Query.first _ (cart d)); cbn [session work committed];
      intros H; contradiction H; reflexivity.
Qed.

(** X6.  A POST /cart that is not answered 200 changes no table, whatever the
    session, the tables and the body. *)
Theorem add_to_cart_refusal_changes_nothing :
  forall (s : Session.t) (d : DB) (data : AddToCart.data),
    status_code (fst (fst (serve (add_to_cart data) s d))) <> 200 ->
    snd (serve (add_to_cart data) s d) = d.
Proof.
  intros s d data. pose proof (add_to_cart_outcome s d data) as H.
  destruct (serve (add_to_cart data) s d) as [[r s'] d']. exact H.
Qed.

Lemma add_to_cart_refusal_changes_nothing_witness :
  snd (serve (add_to_cart (AddToCart.mk (Some 1) (Some (-2)) None))
         Example.guest_session Example.cart_db)
  = Example.cart_db.
Proof.
  apply (add_to_cart_refusal_changes_nothing Example.guest_session Example.cart_db
           (AddToCart.mk (Some 1) (Some (-2)) None)).
  vm_compute. discriminate.
Defined.

(** X7.  The refusals of a well-typed body: a quantity that is absent or zero
    is reported as a missing field, a negative one as out of range, and a
    menu item that does not exist as not found. *)
Theorem add_to_cart_validation :
  forall (s : Session.t) (d : DB) (menu_item_id quantity : Z) (notes : option string),
    menu_item_id <> 0 ->
    serve (add_to_cart (AddToCart.mk (Some menu_item_id) None notes)) s d
    = (_bad_request "Missing fields: quantity" 400, s, d)
    /\ serve (add_to_cart (AddToCart.mk (Some menu_item_id) (Some 0) notes)) s d
       = (_bad_request "Missing fields: quantity" 400, s, d)
    /\ (quantity < 0 ->
        serve (add_to_cart (AddToCart.mk (Some menu_item_id) (Some quantity) notes)) s d
        = (_bad_request "Quantity must be greater than 0" 400, s, d))
    /\ (0 < quantity ->
        Query.first (fun m => (MenuItem.id m =? menu_item_id)%Z) (menu_items d) = None ->
        serve (add_to_cart (AddToCart.mk (Some menu_item_id) (Some quantity) notes)) s d
        = (_bad_request "Menu item not found" 404, s, d)).
Proof.
  intros s d mid q notes Hmz.
  assert (Ht1 : Py.truthy_int mid = true)
    by (unfold Py.truthy_int; apply negb_true_iff, Z.eqb_neq; exact Hmz).
  unfold serve, add_to_cart.
  cbn [AddToCart.menu_item_id AddToCart.quantity AddToCart.notes Py.truthy_opt].
  rewrite Ht1. repeat split.
  - intros Hneg.
    assert (Ht2 : Py.truthy_int q = true)
      by (unfold Py.truthy_int; apply negb_true_iff, Z.eqb_neq; lia).
    rewrite Ht2. cbn [app is_empty negb].
    assert (Hq : (q <=? 0)%Z = true) by (apply Z.leb_le; lia).
    rewrite Hq. reflexivity.
  - intros Hpos Hnone.
    assert (Ht2 : Py.truthy_int q = true)
      by (unfold Py.truthy_int; apply negb_true_iff, Z.eqb_neq; lia).
    rewrite Ht2. cbn [app is_empty negb].
    assert (Hq : (q <=? 0)%Z = false) by (apply Z.leb_gt; lia).
    rewrite Hq. unfold bind at 1. unfold query at 1. cbn [work]. rewrite Hnone.
    reflexivity.
Qed.

Lemma add_to_cart_validation_witness :
  serve (add_to_cart (AddToCart.mk (Some 9) (Some (-1)) None)) Example.guest_session
    Example.empty_db
  = (_bad_request "Quantity must be greater than 0" 400, Example.guest_session,
     Example.empty_db)
  /\ serve (add_to_cart (AddToCart.mk (Some 9) (Some 4) None)) Example.guest_session
       Example.empty_db
     = (_bad_request "Menu item not found" 404, Example.guest_session, Example.empty_db).
Proof.
  split.
  - destruct (add_to_cart_validation Example.guest_session Example.empty_db 9 (-1) None
                ltac:(lia)) as (_ & _ & H & _).
    apply H. lia.
  - destruct (add_to_cart_validation Example.guest_session Example.empty_db 9 4 None
                ltac:(lia)) as (_ & _ & _ & H).
    apply H; [lia | reflexivity].
Defined.


(* ------------------------------------------------------------------ *)
(** ** Ownership of a cart row *)

Lemma access_denied_eq (c : Cart.t) (w : world) :
  access_denied c w
  = Done (negb (owns (session w) c))
      (mkWorld (session_after_owner_test (session w)) (committed w) (work w)).
Proof.
  unfold access_denied, owns, session_after_owner_test.
  unfold bind at 1. unfold get_session at 1.
  destruct (Py.truthy_opt Py.truthy_int (Session.user_id (session w))).
  - unfold ret. rewrite negb_involutive. destruct w. reflexivity.
  - rewrite (bind_done _ _ _ _ _ (get_session_id_eq w)).
    unfold ret. rewrite negb_involutive. reflexivity.
Qed.

Lemma with_cart_cart (l : list Cart.t) (d : DB) : cart (with_cart l d) = l.
Proof. reflexivity. Qed.

Lemma first_after_update_other {A} (key : A -> Z) (k k' : Z) (f : A -> A) (l : list A) :
  (forall a, key (f a) = key a) -> k' <> k ->
  Query.first (fun a => (key a =? k')%Z)
    (map (fun a => if (key a =? k)%Z then f a else a) l)
  = Query.first (fun a => (key a =? k')%Z) l.
Proof.
  intros Hkey Hne. unfold Query.first.
  induction l as [|a l IH]; cbn; [reflexivity|].
  destruct (key a =? k)%Z eqn:E.
  - rewrite Hkey. apply Z.eqb_eq in E.
    assert (E' : (key a =? k')%Z = false) by (apply Z.eqb_neq; lia).
    rewrite E'. exact IH.
  - destruct (key a =? k')%Z; [reflexivity | exact IH].
Qed.



(** X9.  A cart row of another owner is out of reach: PUT /cart/<id> with a
    valid quantity and DELETE /cart/<id> are both answered 403, and no
    table changes. *)
Theorem cart_item_of_another_owner :
  forall (s : Session.t) (d : DB) (item_id quantity : Z) (notes : option string)
         (c : Cart.t),
    0 < quantity ->
    Query.first (fun c => (Cart.id c =? item_id)%Z) (cart d) = Some c ->
    owns s c = false ->
    serve (update_cart_item item_id (UpdateCartItem.mk (Some quantity) notes)) s d
    = (_bad_request "Access denied" 403, session_after_owner_test s, d)
    /\ serve (remove_from_cart item_id) s d
       = (_bad_request "Access denied" 403, session_after_owner_test s, d).
Proof.
  intros s d item_id q notes c Hq Hc Hown.
  assert (Hq0 : (q <=? 0)%Z = false) by (apply Z.leb_gt; exact Hq).
  split.
  - unfold serve, update_cart_item. cbn [UpdateCartItem.quantity UpdateCartItem.notes].
    rewrite Hq0.
    unfold bind at 1. unfold query at 1. cbn [work]. rewrite Hc.
    rewrite (bind_done _ _ _ _ _ (access_denied_eq c (mkWorld s d d))).
    cbn [session committed work]. rewrite Hown. reflexivity.
  - unfold serve, remove_from_cart.
    unfold bind at 1. unfold query at 1. cbn [work]. rewrite Hc.
    rewrite (bind_done _ _ _ _ _ (access_denied_eq c (mkWorld s d d))).
    cbn [session committed work]. rewrite Hown. reflexivity.
Qed.

Lemma cart_item_of_another_owner_witness :
  serve (update_cart_item 1 (UpdateCartItem.mk (Some 9) None)) Example.guest_session
    Example.cart_db
  = (_bad_request "Access denied" 403, session_after_owner_test Example.guest_session,
     Example.cart_db)
  /\ serve (remove_from_cart 1) Example.guest_session Example.cart_db
     = (_bad_request "Access denied" 403, session_after_owner_test Example.guest_session,
        Example.cart_db).
Proof.
  apply (cart_item_of_another_owner Example.guest_session Example.cart_db 1 9 None
           (Cart.mk 1 (Some "s7") (Some 7) 1 2 None)).
  - lia.
  - reflexivity.
  - reflexivity.
Defined.

(** X10.  DELETE /cart/<id> by the owner of the row: the rows left are exactly
    the rows with another key, and no other table changes. *)
Theorem remove_from_cart_by_owner :
  forall (s : Session.t) (d : DB) (item_id : Z) (c : Cart.t),
    Query.first (fun c => (Cart.id c =? item_id)%Z) (cart d) = Some c ->
    owns s c = true ->
    exists d',
      serve (remove_from_cart item_id) s d
      = (mkResponse 200 "Item removed from cart", session_after_owner_test s, d')
      /\ Query.first (fun c => (Cart.id c =? item_id)%Z) (cart d') = None
      /\ (forall c', In c' (cart d') <-> In c' (cart d) /\ Cart.id c' <> item_id)
      /\ with_cart (cart d) d' = d.
Proof.
  intros s d item_id c Hc Hown.
  pose proof (first_some_holds _ _ _ Hc) as Hid. cbn beta in Hid. apply Z.eqb_eq in Hid.
  unfold serve, remove_from_cart.
  unfold bind at 1. unfold query at 1. cbn [work]. rewrite Hc.
  rewrite (bind_done _ _ _ _ _ (access_denied_eq c (mkWorld s d d))).
  cbn [session committed work]. rewrite Hown. cbn [negb].
  unfold Store.cart_delete, bind, query, flush, commit, ret. cbn [session committed work].
  rewrite Hid.
  eexists. split; [reflexivity|]. rewrite with_cart_cart.
  split; [|split].
  - destruct (Query.first (fun c0 => (Cart.id c0 =? item_id)%Z)
                (filter (fun c0 => negb (Cart.id c0 =? item_id)%Z) (cart d))) as [x|] eqn:E;
      [|reflexivity].
    destruct (find_some _ _ E) as [Hin Hk]. apply filter_In in Hin.
    destruct Hin as [_ Hn]. rewrite Hk in Hn. discriminate.
  - intros c'. rewrite filter_In, negb_true_iff, Z.eqb_neq. reflexivity.
  - destruct d; reflexivity.
Qed.

Lemma remove_from_cart_by_owner_witness :
  exists d',
    serve (remove_from_cart 1) Example.customer_session Example.cart_db
    = (mkResponse 200 "Item removed from cart",
       session_after_owner_test Example.customer_session, d')
    /\ Query.first (fun c => (Cart.id c =? 1)%Z) (cart d') = None
    /\ (forall c', In c' (cart d') <-> In c' (cart Example.cart_db) /\ Cart.id c' <> 1)
    /\ with_cart (cart Example.cart_db) d' = Example.cart_db.
Proof.
  apply (remove_from_cart_by_owner Example.customer_session Example.cart_db 1
           (Cart.mk 1 (Some "s7") (Some 7) 1 2 None)).
  - reflexivity.
  - reflexivity.
Defined.

(* ------------------------------------------------------------------ *)
(** ** What GET /cart shows *)

Lemma owns_eq (s : Session.t) (c : Cart.t) :
  owns s c
  = if Py.truthy_opt Py.truthy_int (Session.user_id s)
    then Query.col_eq_int (Cart.user_id c)
           (match Session.user_id s with Some u => u | None => 0 end)
    else Query.col_eq_str (Cart.session_id c) (session_id_of s).
Proof.
  unfold owns, ne_int, ne_str, Query.col_eq_int, Query.col_eq_str.
  destruct (Py.truthy_opt Py.truthy_int (Session.user_id s)).
  - destruct (Cart.user_id c); [apply negb_involutive | reflexivity].
  - destruct (Cart.session_id c); [apply negb_involutive | reflexivity].
Qed.

Lemma truthy_user_id (s : Session.t) (u : Z) :
  Session.user_id s = Some u -> u <> 0 ->
  Py.truthy_opt Py.truthy_int (Session.user_id s) = true.
Proof.
  intros -> Hu. cbn. unfold Py.truthy_int. apply negb_true_iff, Z.eqb_neq. exact Hu.
Qed.

Lemma get_cart_of_user (s : Session.t) (d : DB) (u : Z) :
  Session.user_id s = Some u ->
  serve_with get_cart s d
  = (mkResponse 200 "", Some (user_cart u d, total_items (user_cart u d)), s, d).
Proof.
  intros Hs. unfold serve_with, get_cart, get_cart_items, bind, get_session, query, ret.
  cbn [session work committed]. rewrite Hs. reflexivity.
Qed.

Lemma get_cart_of_guest (s : Session.t) (d : DB) :
  Session.user_id s = None ->
  serve_with get_cart s d
  = (mkResponse 200 "",
     Some (guest_cart (session_id_of s) d, total_items (guest_cart (session_id_of s) d)),
     session_with_id s, d).
Proof.
  intros Hs. unfold serve_with, get_cart, get_cart_items.
  unfold bind at 1. unfold bind at 1. unfold get_session at 1. cbn [session]. rewrite Hs.
  rewrite (bind_done _ _ _ _ _ (get_session_id_eq (mkWorld s d d))).
  reflexivity.
Qed.

(** X11.  GET /cart lists exactly the rows PUT and DELETE /cart/<id> let the
    session touch, counts their quantities, and changes no table.  The
    session must not carry the user id 0, which the two places read
    differently. *)
Theorem get_cart_lists_owned_rows :
  forall (s : Session.t) (d : DB),
    Session.user_id s <> Some 0 ->
    exists items,
      serve_with get_cart s d
      = (mkResponse 200 "", Some (items, total_items items), session_after_owner_test s, d)
      /\ forall c, In c items <-> In c (cart d) /\ owns s c = true.
Proof.
  intros s d Hs. unfold session_after_owner_test.
  destruct (Session.user_id s) as [u|] eqn:Eu.
  - assert (Hu : u <> 0) by congruence.
    pose proof (truthy_user_id s u Eu Hu) as Ht. rewrite Eu in Ht.
    rewrite (get_cart_of_user s d u Eu). rewrite Ht.
    eexists. split; [reflexivity|].
    intros c. rewrite owns_eq, Eu, Ht. unfold user_cart, Query.all. apply filter_In.
  - rewrite (get_cart_of_guest s d Eu). cbn [Py.truthy_opt].
    eexists. split; [reflexivity|].
    intros c. rewrite owns_eq, Eu. cbn [Py.truthy_opt].
    unfold guest_cart, Query.all. apply filter_In.
Qed.

Lemma get_cart_lists_owned_rows_witness :
  exists items,
    serve_with get_cart Example.customer_session Example.merge_db
    = (mkResponse 200 "", Some (items, total_items items),
       session_after_owner_test Example.customer_session, Example.merge_db)
    /\ forall c, In c items
                 <-> In c (cart Example.merge_db) /\ owns Example.customer_session c = true.
Proof.
  apply (get_cart_lists_owned_rows Example.customer_session Example.merge_db).
  discriminate.
Defined.

Lemma filter_negb_same {A} (p : A -> bool) (l : list A) :
  filter p (filter (fun a => negb (p a)) l) = [].
Proof.
  induction l as [|a l IH]; cbn; [reflexivity|].
  destruct (p a) eqn:E; cbn; rewrite ?E; exact IH.
Qed.

(** X12.  DELETE /cart: afterwards GET /cart of the same session shows no item
    and a count of 0, the rows of every other owner are still there, and
    no other table changes. *)
Theorem clear_cart_empties_own_cart :
  forall (s : Session.t) (d : DB),
    Session.user_id s <> Some 0 ->
    exists d',
      serve clear_cart s d = (mkResponse 200 "Cart cleared", session_after_owner_test s, d')
      /\ serve_with get_cart (session_after_owner_test s) d'
         = (mkResponse 200 "", Some ([], 0), session_after_owner_test s, d')
      /\ (forall c, In c (cart d') <-> In c (cart d) /\ owns s c = false)
      /\ with_cart (cart d) d' = d.
Proof.
  intros s d Hs. unfold session_after_owner_test.
  destruct (Session.user_id s) as [u|] eqn:Eu.
  - assert (Hu : u <> 0) by congruence.
    pose proof (truthy_user_id s u Eu Hu) as Ht. rewrite Eu in Ht.
    unfold serve, clear_cart, Store.cart_delete, bind, get_session, query, flush, commit, ret.
    cbn [session work committed]. rewrite Eu, Ht. cbn [session work committed].
    eexists. split; [reflexivity|]. rewrite with_cart_cart.
    split; [|split].
    + rewrite (get_cart_of_user s _ u Eu). unfold user_cart, Query.all.
      rewrite with_cart_cart, filter_negb_same. reflexivity.
    + intros c. rewrite owns_eq, Eu, Ht, filter_In, negb_true_iff. reflexivity.
    + destruct d; reflexivity.
  - unfold serve, clear_cart.
    unfold bind at 1. unfold get_session at 1. cbn [session]. rewrite Eu.
    cbn [Py.truthy_opt].
    unfold bind at 1. unfold bind at 1.
    rewrite (get_session_id_eq (mkWorld s d d)).
    unfold Store.cart_delete, bind, query, flush, commit, ret.
    cbn [session work committed].
    destruct (session_with_id_stable s) as (Hss & Hsid & Huid).
    eexists. split; [reflexivity|]. rewrite with_cart_cart.
    split; [|split].
    + rewrite get_cart_of_guest; [|rewrite Huid; exact Eu].
      rewrite Hss, Hsid. unfold guest_cart, Query.all.
      rewrite with_cart_cart, filter_negb_same. reflexivity.
    + intros c. rewrite owns_eq, Eu. cbn [Py.truthy_opt].
      rewrite filter_In, negb_true_iff. reflexivity.
    + destruct d; reflexivity.
Qed.

Lemma clear_cart_empties_own_cart_witness :
  exists d',
    serve clear_cart Example.guest_session Example.merge_db
    = (mkResponse 200 "Cart cleared", session_after_owner_test Example.guest_session, d')
    /\ serve_with get_cart (session_after_owner_test Example.guest_session) d'
       = (mkResponse 200 "", Some ([], 0), session_after_owner_test Example.guest_session, d')
    /\ (forall c, In c (cart d')
                  <-> In c (cart Example.merge_db) /\ owns Example.guest_session c = false)
    /\ with_cart (cart Example.merge_db) d' = Example.merge_db.
Proof.
  apply (clear_cart_empties_own_cart Example.guest_session Example.merge_db).
  discriminate.
Defined.







(* ------------------------------------------------------------------ *)
(** ** The status and the notes of an order *)

Lemma valid_status_truthy (status : string) :
  Py.str_in status valid_statuses = true -> Py.truthy_str status = true.
Proof.
  intros H. unfold Py.truthy_str. destruct (status =? "")%string eqn:E; [|reflexivity].
  apply String.eqb_eq in E. subst status. discriminate H.
Qed.

Lemma with_orders_orders (l : list Order.t) (d : DB) : orders (with_orders l d) = l.
Proof. reflexivity. Qed.

(** X14.  PUT /orders/<id>/status has no transition rule: for an administrator
    and an existing order, each of the six statuses is accepted whatever
    the status of the order is, a delivered or cancelled one included.
    The order read back has the new status and its owner, money, address
    and customer notes as before; its admin notes are replaced when the
    stripped notes of the body are not empty and kept otherwise; no other
    order and no other table changes. *)
Theorem update_order_status_any_to_any :
  forall (get_status_display : Order.t -> string) (s : Session.t) (d : DB)
         (order_id uid : Z) (u : User.t) (order : Order.t) (status : string)
         (admin_notes : option string),
    Session.user_id s = Some uid ->
    Query.first (fun u => (User.id u =? uid)%Z) (users d) = Some u ->
    User.is_admin u = true ->
    Query.first (fun o => (Order.id o =? order_id)%Z) (orders d) = Some order ->
    Py.str_in status valid_statuses = true ->
    exists r d' order',
      serve (update_order_status get_status_display order_id
               (UpdateOrderStatus.mk (Some status) admin_notes)) s d = (r, s, d')
      /\ status_code r = 200
      /\ Query.first (fun o => (Order.id o =? order_id)%Z) (orders d') = Some order'
      /\ Order.status order' = status
      /\ order_terms order' = order_terms order
      /\ Order.admin_notes order'
         = (if Py.truthy_str (Py.strip (Py.get_or_empty admin_notes))
            then Some (Py.strip (Py.get_or_empty admin_notes))
            else Order.admin_notes order)
      /\ (forall k, k <> order_id ->
            Query.first (fun o => (Order.id o =? k)%Z) (orders d')
            = Query.first (fun o => (Order.id o =? k)%Z) (orders d))
      /\ with_orders (orders d) d' = d.
Proof.
  intros gsd s d order_id uid u order status notes Hs Hu Ha Ho Hv.
  pose proof (first_some_holds _ _ _ Ho) as Hid. cbn beta in Hid. apply Z.eqb_eq in Hid.
  unfold serve, update_order_status.
  rewrite (require_admin_ok _ (mkWorld s d d) uid u Hs Hu Ha).
  unfold bind at 1. unfold query at 1. cbn [work]. rewrite Ho.
  cbn [UpdateOrderStatus.status UpdateOrderStatus.admin_notes Py.truthy_opt Py.get_or_empty].
  rewrite (valid_status_truthy status Hv), Hv. cbn [negb].
  unfold Store.order_update, bind, query, flush, commit, ret. cbn [session committed work].
  rewrite Hid.
  set (f := fun o : Order.t =>
              if Py.truthy_str (Py.strip match notes with Some s0 => s0 | None => "" end)
              then set_admin_notes
                     (Some (Py.strip match notes with Some s0 => s0 | None => "" end))
                     (Order.set_status status o)
              else Order.set_status status o).
  assert (Hkey : forall a, Order.id (f a) = Order.id a)
    by (intros a; unfold f; destruct (Py.truthy_str _); reflexivity).
  eexists. exists (with_orders (map (fun o => if (Order.id o =? order_id)%Z then f o else o)
                                  (orders d)) d), (f order).
  split; [reflexivity|]. rewrite with_orders_orders.
  split; [reflexivity|].
  split; [rewrite (first_after_update Order.id order_id f (orders d) Hkey), Ho; reflexivity|].
  split; [unfold f; destruct (Py.truthy_str _); reflexivity|].
  split; [unfold f; destruct (Py.truthy_str _); reflexivity|].
  split; [unfold f, Py.get_or_empty; destruct (Py.truthy_str _); reflexivity|].
  split; [intros k Hk; apply first_after_update_other; assumption|].
  destruct d; reflexivity.
Qed.

Lemma update_order_status_any_to_any_witness :
  exists r d' order',
    serve (update_order_status (fun o => Order.status o) 2
             (UpdateOrderStatus.mk (Some "new") None)) Example.manager_session
      Example.reorder_db = (r, Example.manager_session, d')
    /\ status_code r = 200
    /\ Query.first (fun o => (Order.id o =? 2)%Z) (orders d') = Some order'
    /\ Order.status order' = "new"
    /\ order_terms order' = order_terms Example.order2
    /\ Order.admin_notes order'
       = (if Py.truthy_str (Py.strip (Py.get_or_empty None))
          then Some (Py.strip (Py.get_or_empty None))
          else Order.admin_notes Example.order2)
    /\ (forall k, k <> 2 ->
          Query.first (fun o => (Order.id o =? k)%Z) (orders d')
          = Query.first (fun o => (Order.id o =? k)%Z) (orders Example.reorder_db))
    /\ with_orders (orders Example.reorder_db) d' = Example.reorder_db.
Proof.
  apply (update_order_status_any_to_any (fun o => Order.status o) Example.manager_session
           Example.reorder_db 2 1 Example.manager Example.order2 "new" None);
    reflexivity.
Defined.

(** A status that is absent, empty or not one of the six is refused with
    400 and no table changes. *)
Theorem update_order_status_refuses_unknown :
  forall (get_status_display : Order.t -> string) (s : Session.t) (d : DB)
         (order_id uid : Z) (u : User.t) (order : Order.t) (data : UpdateOrderStatus.data),
    Session.user_id s = Some uid ->
    Query.first (fun u => (User.id u =? uid)%Z) (users d) = Some u ->
    User.is_admin u = true ->
    Query.first (fun o => (Order.id o =? order_id)%Z) (orders d) = Some order ->
    Py.str_in (Py.get_or_empty (UpdateOrderStatus.status data)) valid_statuses = false ->
    exists r,
      serve (update_order_status get_status_display order_id data) s d = (r, s, d)
      /\ status_code r = 400.
Proof.
  intros gsd s d order_id uid u order data Hs Hu Ha Ho Hv.
  unfold serve, update_order_status.
  rewrite (require_admin_ok _ (mkWorld s d d) uid u Hs Hu Ha).
  unfold bind at 1. unfold query at 1. cbn [work]. rewrite Ho, Hv.
  destruct (Py.truthy_opt Py.truthy_str (UpdateOrderStatus.status data));
    eexists; split; reflexivity.
Qed.

Lemma update_order_status_refuses_unknown_witness :
  exists r,
    serve (update_order_status (fun o => Order.status o) 1
             (UpdateOrderStatus.mk (Some "Delivered") None)) Example.manager_session
      Example.order_db = (r, Example.manager_session, Example.order_db)
    /\ status_code r = 400.
Proof.
  apply (update_order_status_refuses_unknown (fun o => Order.status o)
           Example.manager_session Example.order_db 1 1 Example.manager Example.order1
           (UpdateOrderStatus.mk (Some "Delivered") None)); reflexivity.
Defined.

(** X15.  PUT /orders/<id>/notes always overwrites: for an administrator and an
    existing order the admin notes become the stripped text of the body,
    the empty text when the key is absent, and the status and every other
    column of the order stay. *)
Theorem update_order_notes_overwrites :
  forall (s : Session.t) (d : DB) (order_id uid : Z) (u : User.t) (order : Order.t)
         (admin_notes : option string),
    Session.user_id s = Some uid ->
    Query.first (fun u => (User.id u =? uid)%Z) (users d) = Some u ->
    User.is_admin u = true ->
    Query.first (fun o => (Order.id o =? order_id)%Z) (orders d) = Some order ->
    exists d',
      serve (update_order_notes order_id admin_notes) s d
      = (mkResponse 200 "Order notes updated", s, d')
      /\ Query.first (fun o => (Order.id o =? order_id)%Z) (orders d')
         = Some (set_admin_notes (Some (Py.strip (Py.get_or_empty admin_notes))) order)
      /\ (forall k, k <> order_id ->
            Query.first (fun o => (Order.id o =? k)%Z) (orders d')
            = Query.first (fun o => (Order.id o =? k)%Z) (orders d))
      /\ with_orders (orders d) d' = d.
Proof.
  intros s d order_id uid u order notes Hs Hu Ha Ho.
  pose proof (first_some_holds _ _ _ Ho) as Hid. cbn beta in Hid. apply Z.eqb_eq in Hid.
  unfold serve, update_order_notes.
  rewrite (require_admin_ok _ (mkWorld s d d) uid u Hs Hu Ha).
  unfold bind at 1. unfold query at 1. cbn [work]. rewrite Ho.
  unfold Store.order_update, bind, query, flush, commit, ret. cbn [session committed work].
  rewrite Hid.
  eexists. split; [reflexivity|]. rewrite with_orders_orders.
  split; [|split].
  - rewrite (first_after_update Order.id order_id); [rewrite Ho; reflexivity|].
    intros a. reflexivity.
  - intros k Hk. apply first_after_update_other; [intros a; reflexivity | exact Hk].
  - destruct d; reflexivity.
Qed.

Lemma update_order_notes_overwrites_witness :
  exists d',
    serve (update_order_notes 1 None) Example.manager_session Example.order_db
    = (mkResponse 200 "Order notes updated", Example.manager_session, d')
    /\ Query.first (fun o => (Order.id o =? 1)%Z) (orders d')
       = Some (set_admin_notes (Some (Py.strip (Py.get_or_empty None))) Example.order1)
    /\ (forall k, k <> 1 ->
          Query.first (fun o => (Order.id o =? k)%Z) (orders d')
          = Query.first (fun o => (Order.id o =? k)%Z) (orders Example.order_db))
    /\ with_orders (orders Example.order_db) d' = Example.order_db.
Proof.
  apply (update_order_notes_overwrites Example.manager_session Example.order_db 1 1
           Example.manager Example.order1 None); reflexivity.
Defined.

(** An UPDATE by key whose new rows have a valid status keeps every status
    valid. *)
Lemma statuses_valid_after_update (k : Z) (f : Order.t -> Order.t) (l : list Order.t) :
  (forall o, Py.str_in (Order.status o) valid_statuses = true ->
             Py.str_in (Order.status (f o)) valid_statuses = true) ->
  (forall o, In o l -> Py.str_in (Order.status o) valid_statuses = true) ->
  forall o, In o (map (fun o => if (Order.id o =? k)%Z then f o else o) l) ->
            Py.str_in (Order.status o) valid_statuses = true.
Proof.
  intros Hf Hl o Hin. apply in_map_iff in Hin. destruct Hin as (o0 & <- & Hin0).
  destruct (Order.id o0 =? k)%Z; [apply Hf|]; apply Hl; exact Hin0.
Qed.

Lemma update_order_status_keeps_valid (get_status_display : Order.t -> string)
    (order_id : Z) (data : UpdateOrderStatus.data) (s : Session.t) (d : DB) :
  order_statuses_valid d ->
  order_statuses_valid (snd (serve (update_order_status get_status_display order_id data) s d)).
Proof.
  intros Hinv. unfold serve, update_order_status.
  match goal with
  | |- context [require_admin ?f ?w] =>
      destruct (require_admin_refused f w) as [(r & Hr & _) | Hr]; rewrite Hr
  end; [exact Hinv|]. clear Hr.
  unfold bind at 1. unfold query at 1. cbn [work].
  destruct (Query.first _ (orders d)) as [order|]; [|exact Hinv].
  destruct (Py.truthy_opt Py.truthy_str (UpdateOrderStatus.status data)); [|exact Hinv].
  cbn [negb].
  destruct (Py.str_in (Py.get_or_empty (UpdateOrderStatus.status data)) valid_statuses)
    eqn:Hv; [|exact Hinv].
  cbn [negb]. unfold Store.order_update, bind, query, flush, commit, ret.
  cbn [session committed work snd]. unfold order_statuses_valid. rewrite with_orders_orders.
  apply statuses_valid_after_update; [|exact Hinv].
  intros o _. destruct (Py.truthy_str _); exact Hv.
Qed.

Lemma update_order_notes_keeps_valid (order_id : Z) (notes : option string)
    (s : Session.t) (d : DB) :
  order_statuses_valid d ->
  order_statuses_valid (snd (serve (update_order_notes order_id notes) s d)).
Proof.
  intros Hinv. unfold serve, update_order_notes.
  match goal with
  | |- context [require_admin ?f ?w] =>
      destruct (require_admin_refused f w) as [(r & Hr & _) | Hr]; rewrite Hr
  end; [exact Hinv|]. clear Hr.
  unfold bind at 1. unfold query at 1. cbn [work].
  destruct (Query.first _ (orders d)) as [order|]; [|exact Hinv].
  unfold Store.order_update, bind, query, flush, commit, ret.
  cbn [session committed work snd]. unfold order_statuses_valid. rewrite with_orders_orders.
  apply statuses_valid_after_update; [|exact Hinv].
  intros o Ho. exact Ho.
Qed.

Lemma confirm_payment_keeps_valid (payment_id : Z) (data : ConfirmPayment.data)
    (s : Session.t) (d : DB) :
  order_statuses_valid d ->
  order_statuses_valid (snd (serve (confirm_payment payment_id data) s d)).
Proof.
  intros Hinv. unfold serve, confirm_payment.
  match goal with
  | |- context [require_admin ?f ?w] =>
      destruct (require_admin_refused f w) as [(r & Hr & _) | Hr]; rewrite Hr
  end; [exact Hinv|]. clear Hr.
  unfold bind at 1. unfold query at 1. cbn [work].
  destruct (Query.first _ (payments d)) as [payment|]; [|exact Hinv].
  unfold Store.payment_update, order_of, Store.order_update, bind, query, flush, commit, ret.
  cbn [work session committed with_payments orders].
  destruct (Query.first _ (orders d)) as [order|]; [|exact Hinv].
  destruct (Order.status order =? "new")%string;
    cbn [work session committed with_payments with_orders orders payments snd].
  - unfold order_statuses_valid. cbn [orders].
    apply statuses_valid_after_update; [|exact Hinv].
    intros o _. reflexivity.
  - exact Hinv.
Qed.

(** X16.  The status column of the orders table only ever holds one of the six
    statuses: whatever the session and the body, the three handlers that
    write the column (status update, notes update, payment confirmation)
    keep it so. *)
Theorem order_statuses_stay_valid :
  forall (get_status_display : Order.t -> string) (s : Session.t) (d : DB)
         (order_id payment_id : Z) (status_data : UpdateOrderStatus.data)
         (admin_notes : option string) (confirm_data : ConfirmPayment.data),
    order_statuses_valid d ->
    order_statuses_valid
      (snd (serve (update_order_status get_status_display order_id status_data) s d))
    /\ order_statuses_valid (snd (serve (update_order_notes order_id admin_notes) s d))
    /\ order_statuses_valid (snd (serve (confirm_payment payment_id confirm_data) s d)).
Proof.
  intros gsd s d order_id payment_id sd notes cd Hinv. split; [|split].
  - apply update_order_status_keeps_valid. exact Hinv.
  - apply update_order_notes_keeps_valid. exact Hinv.
  - apply confirm_payment_keeps_valid. exact Hinv.
Qed.

Lemma order_statuses_stay_valid_witness :
  order_statuses_valid
    (snd (serve (update_order_status (fun o => Order.status o) 1
                   (UpdateOrderStatus.mk (Some "preparing") None))
            Example.manager_session (Example.paid_db "pending")))
  /\ order_statuses_valid
       (snd (serve (update_order_notes 1 (Some "call first")) Example.manager_session
               (Example.paid_db "pending")))
  /\ order_statuses_valid
       (snd (serve (confirm_payment 1 (ConfirmPayment.mk None None)) Example.manager_session
               (Example.paid_db "pending"))).
Proof.
  apply (order_statuses_stay_valid (fun o => Order.status o) Example.manager_session
           (Example.paid_db "pending") 1 1 (UpdateOrderStatus.mk (Some "preparing") None)
           (Some "call first") (ConfirmPayment.mk None None)).
  intros o [<- | []]. reflexivity.
Defined.

(* ------------------------------------------------------------------ *)
(** ** Reading an order and its payments *)

Lemma require_auth_with_refused {A} (none : A) (f : M (response * A)) (w : world) :
  (exists r w', require_auth_with none f w = Done (r, none) w'
                /\ committed w' = committed w /\ status_code r = 401)
  \/ (require_auth_with none f w = f w
      /\ exists uid, Session.user_id (session w) = Some uid).
Proof.
  unfold require_auth_with, bind, get_session, query, put_session, ret.
  destruct (Session.user_id (session w)) as [uid|].
  - destruct (Query.first _ (users (work w))).
    + right. split; [reflexivity | eexists; reflexivity].
    + left. eexists. eexists. repeat split; reflexivity.
  - left. eexists. eexists. repeat split; reflexivity.
Qed.

(** X17.  GET /orders/<id> never shows the order of another user: an order in
    the answer is a row of the orders table with the key asked for, its
    owner is the user of the session, and no table changes. *)
Theorem get_order_detail_only_own :
  forall (s s' : Session.t) (d d' : DB) (order_id : Z) (r : response) (order : Order.t),
    serve_with (get_order_detail order_id) s d = (r, Some (Some order), s', d') ->
    In order (orders d)
    /\ Order.id order = order_id
    /\ Session.user_id s = Some (Order.user_id order)
    /\ status_code r = 200
    /\ d' = d.
Proof.
  intros s s' d d' order_id r order.
  unfold serve_with, get_order_detail.
  match goal with
  | |- context [require_auth_with ?n ?f ?w] =>
      destruct (require_auth_with_refused n f w) as [(r0 & w' & Hr & _ & _) | [Hr [uid Hs]]];
        rewrite Hr
  end; [intros H; discriminate H|]. clear Hr. cbn [session] in Hs.
  rewrite (bind_done _ _ _ _ _ (session_user_id_ok (mkWorld s d d) uid Hs)).
  unfold bind, query, ret. cbn [session committed work].
  destruct (Query.first _ (orders d)) as [o|] eqn:Eo; [|intros H; discriminate H].
  intros H. injection H as <- <- <- <-.
  destruct (find_some _ _ Eo) as [Hin Hk]. apply andb_true_iff in Hk.
  destruct Hk as [Hk1 Hk2]. apply Z.eqb_eq in Hk1, Hk2.
  rewrite Hs, Hk2. repeat split; [exact Hin | exact Hk1].
Qed.

Lemma get_order_detail_only_own_witness :
  In Example.order1 (orders Example.order_db)
  /\ Order.id Example.order1 = 1
  /\ Session.user_id Example.customer_session = Some (Order.user_id Example.order1)
  /\ status_code (mkResponse 200 "") = 200
  /\ Example.order_db = Example.order_db.
Proof.
  apply (get_order_detail_only_own Example.customer_session Example.customer_session
           Example.order_db Example.order_db 1 (mkResponse 200 "") Example.order1).
  reflexivity.
Defined.

(** X18.  GET /payments/order/<id>, when answered 200, lists exactly the
    payments of that order, and the order belongs to the user of the
    session; no table changes. *)
Theorem get_order_payments_only_own :
  forall (s s' : Session.t) (d d' : DB) (order_id : Z) (r : response)
         (found : option (list Payment.t)),
    serve_with (get_order_payments order_id) s d = (r, found, s', d') ->
    status_code r = 200 ->
    exists order listed,
      found = Some listed
      /\ In order (orders d)
      /\ Order.id order = order_id
      /\ Session.user_id s = Some (Order.user_id order)
      /\ (forall p, In p listed <-> In p (payments d) /\ Payment.order_id p = order_id)
      /\ d' = d.
Proof.
  intros s s' d d' order_id r found.
  unfold serve_with, get_order_payments.
  match goal with
  | |- context [require_auth_with ?n ?f ?w] =>
      destruct (require_auth_with_refused n f w)
        as [(r0 & w' & Hr & _ & H401) | [Hr [uid Hs]]]; rewrite Hr
  end.
  { intros H. injection H as <- _ _ _. intros H200. rewrite H401 in H200. discriminate H200. }
  clear Hr. cbn [session] in Hs.
  rewrite (bind_done _ _ _ _ _ (session_user_id_ok (mkWorld s d d) uid Hs)).
  unfold bind, query, ret. cbn [session committed work].
  destruct (Query.first _ (orders d)) as [o|] eqn:Eo;
    [|intros H; injection H as <- _ _ _; intros H200; discriminate H200].
  intros H _. injection H as <- <- <- <-.
  destruct (find_some _ _ Eo) as [Hin Hk]. apply andb_true_iff in Hk.
  destruct Hk as [Hk1 Hk2]. apply Z.eqb_eq in Hk1, Hk2.
  exists o. eexists. split; [reflexivity|].
  split; [exact Hin|]. split; [exact Hk1|]. split; [rewrite Hs, Hk2; reflexivity|].
  split; [|reflexivity].
  intros p. unfold Query.all. rewrite filter_In, Z.eqb_eq. reflexivity.
Qed.

Lemma get_order_payments_only_own_witness :
  exists order listed,
    Some [Example.payment1 "pending"] = Some listed
    /\ In order (orders (Example.paid_db "pending"))
    /\ Order.id order = 1
    /\ Session.user_id Example.customer_session = Some (Order.user_id order)
    /\ (forall p, In p listed
                  <-> In p (payments (Example.paid_db "pending")) /\ Payment.order_id p = 1)
    /\ Example.paid_db "pending" = Example.paid_db "pending".
Proof.
  apply (get_order_payments_only_own Example.customer_session Example.customer_session
           (Example.paid_db "pending") (Example.paid_db "pending") 1 (mkResponse 200 "")
           (Some [Example.payment1 "pending"])); reflexivity.
Defined.

(* ------------------------------------------------------------------ *)
(** ** Recording a payment *)

Lemma valid_method_truthy (method : string) :
  Py.str_in method valid_methods = true -> Py.truthy_str method = true.
Proof.
  intros H. unfold Py.truthy_str. destruct (method =? "")%string eqn:E; [|reflexivity].
  apply String.eqb_eq in E. subst method. discriminate H.
Qed.

(** X19.  The first POST /payments of the owner for an order: the answer is 201
    and one payment is appended, for that order, with the method asked
    for, the advance amount of the order as its amount, status "pending",
    no proof and no transaction id; the payments there were and every
    other table stay. *)
Theorem create_payment_records_advance :
  forall (s : Session.t) (d : DB) (uid order_id : Z) (u : User.t) (method : string)
         (notes : option string) (order : Order.t),
    Session.user_id s = Some uid ->
    Query.first (fun u => (User.id u =? uid)%Z) (users d) = Some u ->
    order_id <> 0 ->
    Py.str_in method valid_methods = true ->
    Query.first (fun o => (Order.id o =? order_id)%Z && (Order.user_id o =? uid)%Z)
      (orders d) = Some order ->
    Query.first (fun p => (Payment.order_id p =? order_id)%Z) (payments d) = None ->
    exists d' payment,
      serve (create_payment (CreatePayment.mk (Some order_id) (Some method) notes)) s d
      = (mkResponse 201 "Payment record created. Please upload payment proof.", s, d')
      /\ payments d' = (payments d ++ [payment])%list
      /\ payments_of order_id d' = [payment]
      /\ Payment.order_id payment = order_id
      /\ Payment.method payment = method
      /\ Payment.amount payment = Order.advance_amount order
      /\ Payment.status payment = "pending"
      /\ Payment.screenshot_url payment = None
      /\ Payment.transaction_id payment = None
      /\ (forall p, In p (payments d) -> Payment.id p <> Payment.id payment)
      /\ with_payments (payments d) d' = d.
Proof.
  intros s d uid order_id u method notes order Hs Hu Hnz Hvalid Ho Hex.
  unfold serve, create_payment.
  rewrite (require_auth_ok _ (mkWorld s d d) uid u Hs Hu).
  rewrite (bind_done _ _ _ _ _ (session_user_id_ok (mkWorld s d d) uid Hs)).
  cbn [CreatePayment.order_id CreatePayment.method CreatePayment.notes Py.truthy_opt].
  assert (Ht : Py.truthy_int order_id = true)
    by (unfold Py.truthy_int; apply negb_true_iff, Z.eqb_neq; exact Hnz).
  rewrite Ht, (valid_method_truthy method Hvalid). cbn [app is_empty negb].
  rewrite Hvalid. cbn [negb].
  unfold bind at 1. unfold query at 1. cbn [work]. rewrite Ho, Hex.
  unfold Store.payment_add, bind, query, flush, commit, ret. cbn [session committed work].
  eexists. eexists. split; [reflexivity|].
  split; [reflexivity|].
  split.
  { rewrite payments_of_app. cbn [Payment.order_id]. rewrite Z.eqb_refl.
    unfold payments_of. rewrite (first_none_all_nil _ _ Hex). reflexivity. }
  cbn [Payment.order_id Payment.method Payment.amount Payment.status
         Payment.screenshot_url Payment.transaction_id Payment.id].
  repeat (split; [reflexivity|]).
  split; [|destruct d; reflexivity].
  intros p Hp.
  pose proof (next_id_above (map Payment.id (payments d)) (Payment.id p)
                (in_map Payment.id _ _ Hp)). lia.
Qed.

Lemma create_payment_records_advance_witness :
  exists d' payment,
    serve (create_payment (CreatePayment.mk (Some 1) (Some "cod") None))
      Example.customer_session Example.order_db
    = (mkResponse 201 "Payment record created. Please upload payment proof.",
       Example.customer_session, d')
    /\ payments d' = (payments Example.order_db ++ [payment])%list
    /\ payments_of 1 d' = [payment]
    /\ Payment.order_id payment = 1
    /\ Payment.method payment = "cod"
    /\ Payment.amount payment = Order.advance_amount Example.order1
    /\ Payment.status payment = "pending"
    /\ Payment.screenshot_url payment = None
    /\ Payment.transaction_id payment = None
    /\ (forall p, In p (payments Example.order_db) -> Payment.id p <> Payment.id payment)
    /\ with_payments (payments Example.order_db) d' = Example.order_db.
Proof.
  apply (create_payment_records_advance Example.customer_session Example.order_db 7 1
           Example.customer "cod" None Example.order1); try reflexivity.
  discriminate.
Defined.

Lemma create_payment_outcome (s : Session.t) (d : DB) (data : CreatePayment.data) :
  let '(r, _, d') := serve (create_payment data) s d in
  status_code r <> 201 -> d' = d.
Proof.
  unfold serve, create_payment.
  match goal with
  | |- context [require_auth ?f ?w] =>
      destruct (require_auth_refused f w) as [(r & w' & Hr & Hc & H401) | Hr]; rewrite Hr
  end; [intros _; exact Hc|]. clear Hr.
  unfold bind at 1. unfold session_user_id, bind, get_session. cbn [session].
  destruct (Session.user_id s) as [uid|]; [|intros _; reflexivity].
  cbn [ret].
  destruct (CreatePayment.order_id data) as [order_id|];
    destruct (CreatePayment.method data) as [method|]; cbn [Py.truthy_opt];
    try (destruct (Py.truthy_int order_id)); try (destruct (Py.truthy_str method));
    cbn [app is_empty negb ret raise]; try (intros _; reflexivity).
  destruct (Py.str_in method valid_methods); cbn [negb ret]; [|intros _; reflexivity].
  unfold query. cbn [work].
  destruct (Query.first _ (orders d)) as [order|]; [|intros _; reflexivity].
  destruct (Query.first _ (payments d)) as [existing|]; [intros _; reflexivity|].
  unfold Store.payment_add, bind, query, flush, commit, ret. cbn [session committed work].
  intros H. contradiction H. reflexivity.
Qed.

(** X20.  A POST /payments that is not answered 201 changes no table, whatever
    the session, the tables and the body. *)
Theorem create_payment_refusal_changes_nothing :
  forall (s : Session.t) (d : DB) (data : CreatePayment.data),
    status_code (fst (fst (serve (create_payment data) s d))) <> 201 ->
    snd (serve (create_payment data) s d) = d.
Proof.
  intros s d data. pose proof (create_payment_outcome s d data) as H.
  destruct (serve (create_payment data) s d) as [[r s'] d']. exact H.
Qed.

Lemma create_payment_refusal_changes_nothing_witness :
  snd (serve (create_payment (CreatePayment.mk (Some 1) (Some "paypal") None))
         Example.customer_session Example.order_db)
  = Example.order_db.
Proof.
  apply (create_payment_refusal_changes_nothing Example.customer_session Example.order_db
           (CreatePayment.mk (Some 1) (Some "paypal") None)).
  vm_compute. discriminate.
Defined.

(* ------------------------------------------------------------------ *)
(** ** What the payment handlers leave alone *)

Lemma map_after_update {A B} (key : A -> Z) (k : Z) (f : A -> A) (g : A -> B) (l : list A) :
  (forall a, g (f a) = g a) ->
  map g (map (fun a => if (key a =? k)%Z then f a else a) l) = map g l.
Proof.
  intros Hg. rewrite map_map. apply map_ext. intros a.
  destruct (key a =? k)%Z; [apply Hg | reflexivity].
Qed.

Lemma confirm_payment_write (payment_id : Z) (data : ConfirmPayment.data)
    (s : Session.t) (d : DB) :
  payment_write (payments d) (payments (snd (serve (confirm_payment payment_id data) s d))).
Proof.
  unfold serve, confirm_payment.
  match goal with
  | |- context [require_admin ?f ?w] =>
      destruct (require_admin_refused f w) as [(r & Hr & _) | Hr]; rewrite Hr
  end; [left; reflexivity|]. clear Hr.
  unfold bind at 1. unfold query at 1. cbn [work].
  destruct (Query.first _ (payments d)) as [payment|]; [|left; reflexivity].
  unfold Store.payment_update, order_of, Store.order_update, bind, query, flush, commit, ret.
  cbn [work session committed with_payments orders].
  destruct (Query.first _ (orders d)) as [order|]; [|left; reflexivity].
  destruct (Order.status order =? "new")%string;
    cbn [work session committed with_payments with_orders orders payments snd];
    right; eexists; eexists; (split; [reflexivity|]);
    split; intros p; destruct (Py.truthy_str _), (Py.truthy_str _); reflexivity.
Qed.

Lemma reject_payment_write (payment_id : Z) (data_notes : option string)
    (s : Session.t) (d : DB) :
  payment_write (payments d) (payments (snd (serve (reject_payment payment_id data_notes) s d))).
Proof.
  unfold serve, reject_payment.
  match goal with
  | |- context [require_admin ?f ?w] =>
      destruct (require_admin_refused f w) as [(r & Hr & _) | Hr]; rewrite Hr
  end; [left; reflexivity|]. clear Hr.
  unfold bind at 1. unfold query at 1. cbn [work].
  destruct (Query.first _ (payments d)) as [payment|]; [|left; reflexivity].
  destruct (Py.truthy_str _); cbn [negb]; [|left; reflexivity].
  unfold Store.payment_update, bind, query, flush, commit, ret.
  cbn [work session committed with_payments payments snd].
  right. eexists. eexists. split; [reflexivity|]. split; intros p; reflexivity.
Qed.

Lemma upload_payment_proof_write (secure_filename : string -> string) (payment_id : Z)
    (req : Upload.request) (s : Session.t) (d : DB) :
  payment_write (payments d)
    (payments (snd (serve (upload_payment_proof secure_filename payment_id req) s d))).
Proof.
  unfold serve, upload_payment_proof.
  match goal with
  | |- context [require_auth ?f ?w] =>
      destruct (require_auth_refused f w) as [(r & w' & Hr & Hc & _) | Hr]; rewrite Hr
  end; [left; cbn [snd]; rewrite Hc; reflexivity|]. clear Hr.
  unfold bind at 1. unfold session_user_id, bind, get_session. cbn [session].
  destruct (Session.user_id s) as [uid|]; [|left; reflexivity].
  cbn [ret]. unfold query at 1. cbn [work].
  destruct (Query.first _ (payments d)) as [payment|]; [|left; reflexivity].
  destruct (Upload.screenshot req) as [file_filename|]; [|left; reflexivity].
  destruct (file_filename =? "")%string; [left; reflexivity|].
  destruct (allowed_file file_filename); cbn [negb]; [|left; reflexivity].
  unfold Store.payment_update, bind, query, flush, commit, ret.
  cbn [work session committed with_payments payments snd].
  right. eexists. eexists. split; [reflexivity|]. split; intros p; reflexivity.
Qed.

Lemma payment_write_terms (before after : list Payment.t) :
  payment_write before after -> map payment_terms after = map payment_terms before.
Proof.
  intros [-> | (k & f & -> & Hterms & _)]; [reflexivity|].
  apply map_after_update. exact Hterms.
Qed.

Lemma payment_write_statuses (before after : list Payment.t) :
  payment_write before after ->
  (forall p, In p before -> Py.str_in (Payment.status p) payment_statuses = true) ->
  forall p, In p after -> Py.str_in (Payment.status p) payment_statuses = true.
Proof.
  intros [-> | (k & f & -> & _ & Hst)] Hinv p Hin; [apply Hinv; exact Hin|].
  apply in_map_iff in Hin. destruct Hin as (p0 & <- & Hin0).
  destruct (Payment.id p0 =? k)%Z; [apply Hst | apply Hinv; exact Hin0].
Qed.

(** X21.  Once recorded, the terms of a payment are frozen: whatever the
    session and the request, confirming, rejecting and uploading a proof
    leave the key, the order, the method and the amount of every payment
    as they were, and add or delete no payment. *)
Theorem payment_terms_frozen :
  forall (secure_filename : string -> string) (s : Session.t) (d : DB) (payment_id : Z)
         (confirm_data : ConfirmPayment.data) (reason : option string)
         (req : Upload.request),
    map payment_terms (payments (snd (serve (confirm_payment payment_id confirm_data) s d)))
    = map payment_terms (payments d)
    /\ map payment_terms (payments (snd (serve (reject_payment payment_id reason) s d)))
       = map payment_terms (payments d)
    /\ map payment_terms
         (payments (snd (serve (upload_payment_proof secure_filename payment_id req) s d)))
       = map payment_terms (payments d).
Proof.
  intros sf s d payment_id cd reason req. split; [|split]; apply payment_write_terms.
  - apply confirm_payment_write.
  - apply reject_payment_write.
  - apply upload_payment_proof_write.
Qed.

Lemma create_payment_keeps_valid (data : CreatePayment.data) (s : Session.t) (d : DB) :
  payment_statuses_valid d ->
  payment_statuses_valid (snd (serve (create_payment data) s d)).
Proof.
  intros Hinv. unfold serve, create_payment.
  match goal with
  | |- context [require_auth ?f ?w] =>
      destruct (require_auth_refused f w) as [(r & w' & Hr & Hc & H401) | Hr]; rewrite Hr
  end; [cbn [snd]; rewrite Hc; exact Hinv|]. clear Hr.
  unfold bind at 1. unfold session_user_id, bind, get_session. cbn [session].
  destruct (Session.user_id s) as [uid|]; [|exact Hinv].
  cbn [ret].
  destruct (CreatePayment.order_id data) as [order_id|];
    destruct (CreatePayment.method data) as [method|]; cbn [Py.truthy_opt];
    try (destruct (Py.truthy_int order_id)); try (destruct (Py.truthy_str method));
    cbn [app is_empty negb ret raise]; try exact Hinv.
  destruct (Py.str_in method valid_methods); cbn [negb ret]; [|exact Hinv].
  unfold query. cbn [work].
  destruct (Query.first _ (orders d)) as [order|]; [|exact Hinv].
  destruct (Query.first _ (payments d)) as [existing|]; [exact Hinv|].
  unfold Store.payment_add, bind, query, flush, commit, ret.
  cbn [session committed work snd]. intros p. cbn [payments with_payments].
  rewrite in_app_iff. intros [Hp | [<- | []]]; [apply Hinv; exact Hp | reflexivity].
Qed.

(** X22.  The status column of the payments table only ever holds "pending",
    "confirmed" or "rejected": whatever the session and the request, the
    four handlers that write the table keep it so. *)
Theorem payment_statuses_stay_valid :
  forall (secure_filename : string -> string) (s : Session.t) (d : DB) (payment_id : Z)
         (create_data : CreatePayment.data) (confirm_data : ConfirmPayment.data)
         (reason : option string) (req : Upload.request),
    payment_statuses_valid d ->
    payment_statuses_valid (snd (serve (create_payment create_data) s d))
    /\ payment_statuses_valid (snd (serve (confirm_payment payment_id confirm_data) s d))
    /\ payment_statuses_valid (snd (serve (reject_payment payment_id reason) s d))
    /\ payment_statuses_valid
         (snd (serve (upload_payment_proof secure_filename payment_id req) s d)).
Proof.
  intros sf s d payment_id crd cd reason req Hinv.
  split; [apply create_payment_keeps_valid; exact Hinv|].
  split; [|split]; unfold payment_statuses_valid.
  - apply (payment_write_statuses _ _ (confirm_payment_write payment_id cd s d) Hinv).
  - apply (payment_write_statuses _ _ (reject_payment_write payment_id reason s d) Hinv).
  - apply (payment_write_statuses _ _ (upload_payment_proof_write sf payment_id req s d) Hinv).
Qed.

Lemma payment_statuses_stay_valid_witness :
  payment_statuses_valid
    (snd (serve (create_payment (CreatePayment.mk (Some 1) (Some "cod") None))
            Example.customer_session (Example.paid_db "pending")))
  /\ payment_statuses_valid
       (snd (serve (confirm_payment 1 (ConfirmPayment.mk None None))
               Example.customer_session (Example.paid_db "pending")))
  /\ payment_statuses_valid
       (snd (serve (reject_payment 1 (Some "no")) Example.customer_session
               (Example.paid_db "pending")))
  /\ payment_statuses_valid
       (snd (serve (upload_payment_proof (fun n => n) 1 (Upload.mk (Some "a.png") "t"))
               Example.customer_session (Example.paid_db "pending"))).
Proof.
  apply (payment_statuses_stay_valid (fun n => n) Example.customer_session
           (Example.paid_db "pending") 1 (CreatePayment.mk (Some 1) (Some "cod") None)
           (ConfirmPayment.mk None None) (Some "no") (Upload.mk (Some "a.png") "t")).
  intros p [<- | []]. reflexivity.
Defined.

(* ------------------------------------------------------------------ *)
(** ** Who may call what *)

Lemma require_admin_not_admin (f : M response) (s : Session.t) (d : DB) :
  is_admin_session s d = false ->
  serve (require_admin f) s d
  = (match Session.user_id s with
     | None => _bad_request "Authentication required" 401
     | Some _ => _bad_request "Admin access required" 403
     end, s, d).
Proof.
  unfold is_admin_session, serve, require_admin, bind, get_session, query, ret.
  cbn [session work committed].
  destruct (Session.user_id s) as [uid|]; cbn [session work committed]; [|reflexivity].
  destruct (Query.first _ (users d)) as [u|]; [|reflexivity].
  intros ->. reflexivity.
Qed.

(** X23.  The six administrator routes modelled here are closed to everyone
    else: without a user in the session the answer is 401, with a user
    who is unknown or not an administrator it is 403, and in both cases
    the session and every table stay as they were, whatever the request. *)
Theorem admin_routes_refuse_others :
  forall (get_status_display : Order.t -> string) (numeric_of_float : float -> Py.decimal)
         (s : Session.t) (d : DB) (id : Z) (status_data : UpdateOrderStatus.data)
         (fee : DeliveryFee.field) (admin_notes reason : option string)
         (confirm_data : ConfirmPayment.data),
    is_admin_session s d = false ->
    let refusal :=
      (match Session.user_id s with
       | None => _bad_request "Authentication required" 401
       | Some _ => _bad_request "Admin access required" 403
       end, s, d) in
    serve (update_order_status get_status_display id status_data) s d = refusal
    /\ serve (update_delivery_fee numeric_of_float id fee) s d = refusal
    /\ serve (update_order_notes id admin_notes) s d = refusal
    /\ serve (confirm_payment id confirm_data) s d = refusal
    /\ serve (reject_payment id reason) s d = refusal
    /\ serve (toggle_availability id) s d = refusal.
Proof.
  intros gsd nf s d id sd fee notes reason cd H. cbn zeta.
  repeat split; apply require_admin_not_admin; exact H.
Qed.

Lemma admin_routes_refuse_others_witness :
  let refusal :=
    (match Session.user_id Example.customer_session with
     | None => _bad_request "Authentication required" 401
     | Some _ => _bad_request "Admin access required" 403
     end, Example.customer_session, Example.paid_db "pending") in
  serve (update_order_status (fun o => Order.status o) 1
           (UpdateOrderStatus.mk (Some "delivered") None))
    Example.customer_session (Example.paid_db "pending") = refusal
  /\ serve (update_delivery_fee (fun _ => 0) 1 (DeliveryFee.Num 10))
       Example.customer_session (Example.paid_db "pending") = refusal
  /\ serve (update_order_notes 1 (Some "x")) Example.customer_session
       (Example.paid_db "pending") = refusal
  /\ serve (confirm_payment 1 (ConfirmPayment.mk None None)) Example.customer_session
       (Example.paid_db "pending") = refusal
  /\ serve (reject_payment 1 (Some "x")) Example.customer_session
       (Example.paid_db "pending") = refusal
  /\ serve (toggle_availability 1) Example.customer_session (Example.paid_db "pending")
     = refusal.
Proof.
  apply (admin_routes_refuse_others (fun o => Order.status o) (fun _ => 0)
           Example.customer_session (Example.paid_db "pending") 1
           (UpdateOrderStatus.mk (Some "delivered") None) (DeliveryFee.Num 10)
           (Some "x") (Some "x") (ConfirmPayment.mk None None)).
  reflexivity.
Defined.

Lemma require_auth_stale (f : M response) (s : Session.t) (d : DB) (uid : Z) :
  Session.user_id s = Some uid ->
  Query.first (fun u => (User.id u =? uid)%Z) (users d) = None ->
  serve (require_auth f) s d = (_bad_request "Invalid session" 401, Session.clear, d).
Proof.
  intros Hs Hu. unfold serve, require_auth, bind, get_session, query, put_session, ret.
  cbn [session work committed]. rewrite Hs. cbn [session work committed]. rewrite Hu.
  reflexivity.
Qed.

Lemma require_auth_anonymous (f : M response) (s : Session.t) (d : DB) :
  Session.user_id s = None ->
  serve (require_auth f) s d = (_bad_request "Authentication required" 401, s, d).
Proof.
  intros Hs. unfold serve, require_auth, bind, get_session, ret.
  cbn [session work committed]. rewrite Hs. reflexivity.
Qed.

(** X24.  A session whose user no longer exists is signed out: the five
    routes for signed-in users answer 401, the whole session is cleared
    (the guest cart identifier included), and no table changes. *)
Theorem stale_session_is_cleared :
  forall (secure_filename : string -> string) (s : Session.t) (d : DB) (uid id : Z)
         (order_data : CreateOrder.data) (payment_data : CreatePayment.data)
         (req : Upload.request),
    Session.user_id s = Some uid ->
    Query.first (fun u => (User.id u =? uid)%Z) (users d) = None ->
    let refusal := (_bad_request "Invalid session" 401, Session.clear, d) in
    serve (create_order order_data) s d = refusal
    /\ serve (reorder id) s d = refusal
    /\ serve merge_cart s d = refusal
    /\ serve (create_payment payment_data) s d = refusal
    /\ serve (upload_payment_proof secure_filename id req) s d = refusal.
Proof.
  intros sf s d uid id od pd req Hs Hu. cbn zeta.
  repeat split; apply (require_auth_stale _ s d uid Hs Hu).
Qed.

Lemma stale_session_is_cleared_witness :
  let s := Session.mk (Some 9) (Some "s9") None in
  let refusal := (_bad_request "Invalid session" 401, Session.clear, Example.cart_db) in
  serve (create_order (CreateOrder.mk (Some "X") None)) s Example.cart_db = refusal
  /\ serve (reorder 1) s Example.cart_db = refusal
  /\ serve merge_cart s Example.cart_db = refusal
  /\ serve (create_payment (CreatePayment.mk (Some 1) (Some "cod") None)) s Example.cart_db
     = refusal
  /\ serve (upload_payment_proof (fun n => n) 1 (Upload.mk None "t")) s Example.cart_db
     = refusal.
Proof.
  apply (stale_session_is_cleared (fun n => n) (Session.mk (Some 9) (Some "s9") None)
           Example.cart_db 9 1 (CreateOrder.mk (Some "X") None)
           (CreatePayment.mk (Some 1) (Some "cod") None) (Upload.mk None "t"));
    reflexivity.
Defined.

(* ------------------------------------------------------------------ *)
(** ** Confirming twice *)

Lemma update_idempotent {A} (key : A -> Z) (k : Z) (f : A -> A) (l : list A) :
  (forall a, key (f a) = key a) -> (forall a, f (f a) = f a) ->
  map (fun a => if (key a =? k)%Z then f a else a)
    (map (fun a => if (key a =? k)%Z then f a else a) l)
  = map (fun a => if (key a =? k)%Z then f a else a) l.
Proof.
  intros Hkey Hf. rewrite map_map. apply map_ext. intros a.
  destruct (key a =? k)%Z eqn:E; [rewrite Hkey, E; apply Hf | rewrite E; reflexivity].
Qed.

Lemma confirmed_row_twice (data : ConfirmPayment.data) (p : Payment.t) :
  confirmed_row data (confirmed_row data p) = confirmed_row data p.
Proof.
  unfold confirmed_row. cbn zeta.
  destruct (Py.truthy_str (Py.strip (Py.get_or_empty (ConfirmPayment.transaction_id data)))),
    (Py.truthy_str (Py.strip (Py.get_or_empty (ConfirmPayment.notes data)))); reflexivity.
Qed.

Lemma confirmed_row_terms (data : ConfirmPayment.data) (p : Payment.t) :
  Payment.id (confirmed_row data p) = Payment.id p
  /\ Payment.order_id (confirmed_row data p) = Payment.order_id p.
Proof.
  unfold confirmed_row. cbn zeta.
  destruct (Py.truthy_str (Py.strip (Py.get_or_empty (ConfirmPayment.transaction_id data)))),
    (Py.truthy_str (Py.strip (Py.get_or_empty (ConfirmPayment.notes data))));
    split; reflexivity.
Qed.

(** A confirmation by an administrator, step by step. *)
Lemma confirm_payment_run (s : Session.t) (d : DB) (payment_id uid : Z)
    (data : ConfirmPayment.data) (u : User.t) :
  Session.user_id s = Some uid ->
  Query.first (fun u => (User.id u =? uid)%Z) (users d) = Some u ->
  User.is_admin u = true ->
  serve (confirm_payment payment_id data) s d
  = match Query.first (fun p => (Payment.id p =? payment_id)%Z) (payments d) with
    | None => (_bad_request "Payment not found" 404, s, d)
    | Some payment =>
        match Query.first (fun o => (Order.id o =? Payment.order_id payment)%Z) (orders d) with
        | None => (internal_server_error, s, d)
        | Some order =>
            let d1 :=
              with_payments
                (map (fun p => if (Payment.id p =? payment_id)%Z
                               then confirmed_row data p else p) (payments d)) d in
            (mkResponse 200 "Payment confirmed successfully", s,
             if (Order.status order =? "new")%string
             then with_orders
                    (map (fun o => if (Order.id o =? Payment.order_id payment)%Z
                                   then Order.set_status "confirmed" o else o) (orders d)) d1
             else d1)
        end
    end.
Proof.
  intros Hs Hu Ha. unfold serve, confirm_payment.
  rewrite (require_admin_ok _ (mkWorld s d d) uid u Hs Hu Ha).
  unfold bind at 1. unfold query at 1. cbn [work].
  destruct (Query.first _ (payments d)) as [payment|] eqn:Hp; [|reflexivity].
  pose proof (first_some_holds _ _ _ Hp) as Hpid. cbn beta in Hpid. apply Z.eqb_eq in Hpid.
  unfold Store.payment_update, order_of, Store.order_update, bind, query, flush, commit, ret.
  cbn [work session committed with_payments orders].
  destruct (Query.first _ (orders d)) as [order|] eqn:Ho; [|reflexivity].
  pose proof (first_some_holds _ _ _ Ho) as Hoid. cbn beta in Hoid. apply Z.eqb_eq in Hoid.
  rewrite Hpid, Hoid.
  destruct (Order.status order =? "new")%string; reflexivity.
Qed.

(** X25.  PUT /payments/<id>/confirm is idempotent: repeating a confirmation,
    with the same body, gives the same answer and leaves every table as
    the first one left it, whatever the session and the tables. *)
Theorem confirm_payment_twice :
  forall (s : Session.t) (d : DB) (payment_id : Z) (data : ConfirmPayment.data),
    let '(r1, s1, d1) := serve (confirm_payment payment_id data) s d in
    serve (confirm_payment payment_id data) s1 d1 = (r1, s1, d1).
Proof.
  intros s d payment_id data.
  destruct (is_admin_session s d) eqn:Hadm.
  - unfold is_admin_session in Hadm.
    destruct (Session.user_id s) as [uid|] eqn:Hs; [|discriminate Hadm].
    destruct (Query.first (fun u => (User.id u =? uid)%Z) (users d)) as [u|] eqn:Hu;
      [|discriminate Hadm].
    rewrite (confirm_payment_run s d payment_id uid data u Hs Hu Hadm).
    destruct (Query.first (fun p => (Payment.id p =? payment_id)%Z) (payments d))
      as [payment|] eqn:Hp.
    2:{ cbv beta iota.
        rewrite (confirm_payment_run s d payment_id uid data u Hs Hu Hadm), Hp. reflexivity. }
    destruct (Query.first (fun o => (Order.id o =? Payment.order_id payment)%Z) (orders d))
      as [order|] eqn:Ho.
    2:{ cbv beta iota.
        rewrite (confirm_payment_run s d payment_id uid data u Hs Hu Hadm), Hp, Ho.
        reflexivity. }
    cbv beta iota zeta.
    destruct (confirmed_row_terms data payment) as [_ Hoid].
    assert (Hp1 : Query.first (fun p => (Payment.id p =? payment_id)%Z)
                    (map (fun p => if (Payment.id p =? payment_id)%Z
                                   then confirmed_row data p else p) (payments d))
                  = Some (confirmed_row data payment)).
    { rewrite (first_after_update Payment.id payment_id), Hp; [reflexivity|].
      intros a. apply confirmed_row_terms. }
    destruct (Order.status order =? "new")%string eqn:Enew.
    + match goal with
      | |- serve _ _ ?d1 = _ =>
          rewrite (confirm_payment_run s d1 payment_id uid data u Hs
                     (Hu : Query.first (fun u => (User.id u =? uid)%Z) (users d1) = Some u)
                     Hadm)
      end.
      cbn [payments orders with_orders with_payments]. rewrite Hp1, Hoid.
      rewrite (first_after_update Order.id (Payment.order_id payment)), Ho;
        [|intros a; reflexivity].
      cbn [option_map Order.status Order.set_status]. cbn zeta.
      change ("confirmed" =? "new")%string with false. cbn iota.
      rewrite (update_idempotent Payment.id payment_id (confirmed_row data));
        [reflexivity | intros a; apply confirmed_row_terms | apply confirmed_row_twice].
    + match goal with
      | |- serve _ _ ?d1 = _ =>
          rewrite (confirm_payment_run s d1 payment_id uid data u Hs
                     (Hu : Query.first (fun u => (User.id u =? uid)%Z) (users d1) = Some u)
                     Hadm)
      end.
      cbn [payments orders with_orders with_payments]. rewrite Hp1, Hoid, Ho, Enew.
      cbn zeta.
      rewrite (update_idempotent Payment.id payment_id (confirmed_row data));
        [reflexivity | intros a; apply confirmed_row_terms | apply confirmed_row_twice].
  - unfold confirm_payment. rewrite (require_admin_not_admin _ s d Hadm).
    apply require_admin_not_admin. exact Hadm.
Qed.

(* ------------------------------------------------------------------ *)
(** ** The extension of an uploaded file *)

Lemma list_ascii_of_string_app (a b : string) :
  list_ascii_of_string (a ++ b) = (list_ascii_of_string a ++ list_ascii_of_string b)%list.
Proof.
  induction a as [|c a IH]; [reflexivity|].
  change (String c a ++ b) with (String c (a ++ b)).
  cbn [list_ascii_of_string app]. rewrite IH. reflexivity.
Qed.

Lemma until_dot_stops (l rest acc : list ascii) :
  existsb (Ascii.eqb ".") l = false ->
  Py.until_dot (l ++ "."%char :: rest) acc = (rev l ++ acc)%list.
Proof.
  revert acc. induction l as [|c l IH]; intros acc H; cbn [app Py.until_dot rev].
  - reflexivity.
  - cbn [existsb] in H. apply orb_false_iff in H. destruct H as [Hc Hl].
    rewrite Ascii.eqb_sym in Hc. rewrite Hc, (IH _ Hl), <- app_assoc. reflexivity.
Qed.

Lemma existsb_rev {A} (p : A -> bool) (l : list A) : existsb p (rev l) = existsb p l.
Proof.
  induction l as [|a l IH]; [reflexivity|].
  cbn [rev existsb]. rewrite existsb_app, IH. cbn [existsb].
  rewrite orb_false_r. apply orb_comm.
Qed.

(** X26.  Only the text after the last dot counts, and its case does not: a
    name that ends in a dot and a dot-free extension is allowed exactly
    when the lower-cased extension is one of the five, whatever comes
    before the dot, earlier extensions included. *)
Theorem allowed_file_last_extension :
  forall (name ext : string),
    Py.has_dot ext = false ->
    allowed_file (name ++ "." ++ ext)
    = Py.str_in (Py.lower ext) Config.ALLOWED_EXTENSIONS.
Proof.
  intros name ext Hext. unfold allowed_file, Py.has_dot, Py.after_last_dot.
  rewrite list_ascii_of_string_app.
  change ("." ++ ext) with (String "."%char ext). cbn [list_ascii_of_string].
  rewrite existsb_app. cbn [existsb]. rewrite Ascii.eqb_refl.
  rewrite orb_true_r. cbn [orb andb].
  rewrite rev_app_distr. cbn [rev]. rewrite <- app_assoc. cbn [app].
  rewrite until_dot_stops; [|rewrite existsb_rev; exact Hext].
  rewrite rev_involutive, app_nil_r, string_of_list_ascii_of_string. reflexivity.
Qed.

Lemma allowed_file_last_extension_witness :
  allowed_file ("shell.php" ++ "." ++ "PNG")
  = Py.str_in (Py.lower "PNG") Config.ALLOWED_EXTENSIONS.
Proof.
  apply (allowed_file_last_extension "shell.php" "PNG"). reflexivity.
Defined.

(** A name without a dot is never allowed, not even the bare name of an
    allowed extension. *)
Example allowed_file_needs_a_dot :
  allowed_file "png" = false /\ allowed_file "" = false /\ allowed_file "photo.png" = true
  /\ allowed_file "photo.png.exe" = false /\ allowed_file "photo." = false.
Proof. repeat split; reflexivity. Qed.

(* ------------------------------------------------------------------ *)
(** ** Taking a menu item off the menu *)

Lemma key_unique {A} (key : A -> Z) (l : list A) (a b : A) :
  NoDup (map key l) -> In a l -> In b l -> key a = key b -> a = b.
Proof.
  induction l as [|x l IH]; cbn [map In]; intros Hnd Ha Hb Hid; [destruct Ha|].
  apply NoDup_cons_iff in Hnd. destruct Hnd as [Hx Hnd].
  destruct Ha as [-> | Ha], Hb as [-> | Hb].
  - reflexivity.
  - exfalso. apply Hx. rewrite Hid. apply in_map. exact Hb.
  - exfalso. apply Hx. rewrite <- Hid. apply in_map. exact Ha.
  - exact (IH Hnd Ha Hb Hid).
Qed.

Lemma toggle_availability_run (s : Session.t) (d : DB) (item_id uid : Z) (u : User.t)
    (m : MenuItem.t) :
  Session.user_id s = Some uid ->
  Query.first (fun u => (User.id u =? uid)%Z) (users d) = Some u ->
  User.is_admin u = true ->
  Query.first (fun m => (MenuItem.id m =? item_id)%Z) (menu_items d) = Some m ->
  serve (toggle_availability item_id) s d
  = (mkResponse 200
       ("Item is now " ++ (if negb (MenuItem.is_available m)
                           then "available" else "unavailable")),
     s,
     with_menu_items
       (map (fun r => if (MenuItem.id r =? item_id)%Z
                      then MenuItem.mk (MenuItem.id r) (MenuItem.price r)
                             (negb (MenuItem.is_available m))
                      else r) (menu_items d)) d).
Proof.
  intros Hs Hu Ha Hm.
  pose proof (first_some_holds _ _ _ Hm) as Hid. cbn beta in Hid. apply Z.eqb_eq in Hid.
  unfold serve, toggle_availability.
  rewrite (require_admin_ok _ (mkWorld s d d) uid u Hs Hu Ha).
  unfold bind at 1. unfold query at 1. cbn [work]. rewrite Hm.
  unfold menu_item_update, bind, query, flush, commit, ret. cbn [session committed work].
  rewrite Hid. reflexivity.
Qed.

(** X27.  PUT /menu/<id>/toggle-availability flips the availability of the
    item, and a second call restores every table (the keys of the menu
    are unique): for an administrator and an existing item both calls
    answer 200, the item read back after the first has the opposite
    availability, and after the second the database is the one before
    the first. *)
Theorem toggle_availability_twice :
  forall (s : Session.t) (d : DB) (item_id uid : Z) (u : User.t) (m : MenuItem.t),
    Session.user_id s = Some uid ->
    Query.first (fun u => (User.id u =? uid)%Z) (users d) = Some u ->
    User.is_admin u = true ->
    Query.first (fun m => (MenuItem.id m =? item_id)%Z) (menu_items d) = Some m ->
    NoDup (map MenuItem.id (menu_items d)) ->
    let '(r1, s1, d1) := serve (toggle_availability item_id) s d in
    status_code r1 = 200
    /\ option_map MenuItem.is_available
         (Query.first (fun m => (MenuItem.id m =? item_id)%Z) (menu_items d1))
       = Some (negb (MenuItem.is_available m))
    /\ exists r2, serve (toggle_availability item_id) s1 d1 = (r2, s, d)
                  /\ status_code r2 = 200.
Proof.
  intros s d item_id uid u m Hs Hu Ha Hm Hnd.
  rewrite (toggle_availability_run s d item_id uid u m Hs Hu Ha Hm).
  assert (Hm1 : Query.first (fun m => (MenuItem.id m =? item_id)%Z)
                  (map (fun r => if (MenuItem.id r =? item_id)%Z
                                 then MenuItem.mk (MenuItem.id r) (MenuItem.price r)
                                        (negb (MenuItem.is_available m))
                                 else r)
                     (menu_items d))
                = Some (MenuItem.mk (MenuItem.id m) (MenuItem.price m)
                          (negb (MenuItem.is_available m)))).
  { rewrite (first_after_update MenuItem.id item_id
               (fun r => MenuItem.mk (MenuItem.id r) (MenuItem.price r)
                           (negb (MenuItem.is_available m)))), Hm; [reflexivity|].
    intros a. reflexivity. }
  split; [reflexivity|].
  split; [cbn [menu_items with_menu_items]; rewrite Hm1; reflexivity|].
  match goal with
  | |- exists r2, serve _ _ ?d1 = _ /\ _ =>
      rewrite (toggle_availability_run s d1 item_id uid u _ Hs
                 (Hu : Query.first (fun u => (User.id u =? uid)%Z) (users d1) = Some u)
                 Ha Hm1)
  end.
  eexists. split; [apply f_equal2; [reflexivity|] | reflexivity].
  cbn [menu_items with_menu_items MenuItem.is_available].
  rewrite negb_involutive.
  assert (Hback : map (fun r => if (MenuItem.id r =? item_id)%Z
                                then MenuItem.mk (MenuItem.id r) (MenuItem.price r)
                                       (MenuItem.is_available m)
                                else r)
                    (map (fun r => if (MenuItem.id r =? item_id)%Z
                                   then MenuItem.mk (MenuItem.id r) (MenuItem.price r)
                                          (negb (MenuItem.is_available m))
                                   else r)
                       (menu_items d))
                  = menu_items d).
  { rewrite map_map. rewrite <- (map_id (menu_items d)) at 2.
    apply map_ext_in. intros r Hr.
    destruct (MenuItem.id r =? item_id)%Z eqn:E.
    - cbn [MenuItem.id]. rewrite E. cbn [MenuItem.price].
      destruct (find_some _ _ Hm) as [Hmin Hmid]. apply Z.eqb_eq in E, Hmid.
      assert (r = m) by (apply (key_unique MenuItem.id (menu_items d)); congruence).
      subst r. destruct m; reflexivity.
    - rewrite E. reflexivity. }
  unfold with_menu_items. cbn [users menu_items orders order_items payments cart].
  rewrite Hback. destruct d; reflexivity.
Qed.

Lemma toggle_availability_twice_witness :
  let '(r1, s1, d1) :=
    serve (toggle_availability 5) Example.manager_session Example.cart_db in
  status_code r1 = 200
  /\ option_map MenuItem.is_available
       (Query.first (fun m => (MenuItem.id m =? 5)%Z) (menu_items d1))
     = Some (negb (MenuItem.is_available Example.pickles))
  /\ exists r2, serve (toggle_availability 5) s1 d1
                = (r2, Example.manager_session, Example.cart_db)
                /\ status_code r2 = 200.
Proof.
  apply (toggle_availability_twice Example.manager_session Example.cart_db 5 1
           Example.manager Example.pickles); try reflexivity.
  cbn. repeat constructor; cbn; intuition discriminate.
Defined.

(** X28.  Once an administrator has switched an available item off, POST /cart
    refuses it for every session, with 400 and no change; the rows that
    carts already hold for the item stay where they are. *)
Theorem switched_off_item_is_refused :
  forall (s customer : Session.t) (d : DB) (item_id uid quantity : Z) (u : User.t)
         (m : MenuItem.t) (notes : option string),
    Session.user_id s = Some uid ->
    Query.first (fun u => (User.id u =? uid)%Z) (users d) = Some u ->
    User.is_admin u = true ->
    Query.first (fun m => (MenuItem.id m =? item_id)%Z) (menu_items d) = Some m ->
    MenuItem.is_available m = true ->
    item_id <> 0 ->
    0 < quantity ->
    let '(r1, s1, d1) := serve (toggle_availability item_id) s d in
    cart d1 = cart d
    /\ serve (add_to_cart (AddToCart.mk (Some item_id) (Some quantity) notes)) customer d1
       = (_bad_request "Menu item is not available" 400, customer, d1).
Proof.
  intros s customer d item_id uid q u m notes Hs Hu Ha Hm Hav Hnz Hq.
  rewrite (toggle_availability_run s d item_id uid u m Hs Hu Ha Hm).
  split; [reflexivity|].
  apply (add_to_cart_unavailable customer _ item_id q notes
           (MenuItem.mk (MenuItem.id m) (MenuItem.price m) (negb (MenuItem.is_available m)))
           Hnz Hq).
  - cbn [menu_items with_menu_items].
    rewrite (first_after_update MenuItem.id item_id), Hm; [reflexivity|].
    intros a. reflexivity.
  - cbn [MenuItem.is_available]. rewrite Hav. reflexivity.
Qed.

Lemma switched_off_item_is_refused_witness :
  let '(r1, s1, d1) :=
    serve (toggle_availability 1) Example.manager_session Example.cart_db in
  cart d1 = cart Example.cart_db
  /\ serve (add_to_cart (AddToCart.mk (Some 1) (Some 2) None)) Example.guest_session d1
     = (_bad_request "Menu item is not available" 400, Example.guest_session, d1).
Proof.
  apply (switched_off_item_is_refused Example.manager_session Example.guest_session
           Example.cart_db 1 1 2 Example.manager Example.koshary None);
    try reflexivity; lia.
Defined.

(* ------------------------------------------------------------------ *)
(** ** System settings *)

Lemma settings_first_after_set (rows : list SystemSettings.t) (k : string)
    (v descr : option string) :
  exists r, Query.first (fun r => (SystemSettings.key r =? k)%string)
              (SystemSettings.set_value rows k v descr) = Some r
            /\ SystemSettings.value r = v.
Proof.
  unfold SystemSettings.set_value.
  destruct (Query.first (fun r => (SystemSettings.key r =? k)%string) rows)
    as [setting|] eqn:E.
  - unfold Query.first in *. induction rows as [|a rows IH]; [discriminate E|].
    cbn [find map] in *.
    destruct (SystemSettings.key a =? k)%string eqn:Ea.
    + injection E as <-. rewrite Z.eqb_refl. cbn [SystemSettings.key]. rewrite Ea.
      eexists. split; reflexivity.
    + destruct (SystemSettings.id a =? SystemSettings.id setting)%Z;
        cbn [SystemSettings.key]; rewrite Ea; exact (IH E).
  - rewrite (first_app_none _ _ _ E); [|cbn [SystemSettings.key]; apply String.eqb_refl].
    eexists. split; reflexivity.
Qed.

Lemma settings_other_key (rows : list SystemSettings.t) (k k' : string)
    (v descr : option string) :
  k' <> k ->
  NoDup (map SystemSettings.id rows) ->
  Query.first (fun r => (SystemSettings.key r =? k')%string)
    (SystemSettings.set_value rows k v descr)
  = Query.first (fun r => (SystemSettings.key r =? k')%string) rows.
Proof.
  intros Hk Hnd. unfold SystemSettings.set_value.
  destruct (Query.first (fun r => (SystemSettings.key r =? k)%string) rows)
    as [setting|] eqn:E.
  - destruct (find_some _ _ E) as [Hin Hkey]. apply String.eqb_eq in Hkey.
    unfold Query.first. clear E.
    assert (Hall : forall a, In a rows -> SystemSettings.id a = SystemSettings.id setting ->
                             a = setting).
    { intros a Ha Hid. apply (key_unique SystemSettings.id rows); assumption. }
    clear Hnd Hin. induction rows as [|a rows IH]; [reflexivity|].
    cbn [map find].
    destruct (SystemSettings.id a =? SystemSettings.id setting)%Z eqn:Ea.
    + apply Z.eqb_eq in Ea. rewrite (Hall a (or_introl eq_refl) Ea).
      cbn [SystemSettings.key]. rewrite Hkey.
      assert (Hne : (k =? k')%string = false) by (apply String.eqb_neq; congruence).
      rewrite Hne. apply IH. intros b Hb. apply Hall. right. exact Hb.
    + destruct (SystemSettings.key a =? k')%string; [reflexivity|].
      apply IH. intros b Hb. apply Hall. right. exact Hb.
  - unfold Query.first. clear E Hnd.
    generalize (Query.next_id (map SystemSettings.id rows)). intros n.
    induction rows as [|a rows IH]; cbn [app find SystemSettings.key].
    + assert (Hne : (k =? k')%string = false) by (apply String.eqb_neq; congruence).
      rewrite Hne. reflexivity.
    + destruct (SystemSettings.key a =? k')%string; [reflexivity | exact IH].
Qed.

(** X29.  A setting reads back as written: after [set_value] for a key,
    [get_value] for that key gives the value just set, whatever the
    table held and whatever the default; a setting with another key
    reads as before (the primary keys of the table are unique). *)
Theorem settings_read_back :
  forall (rows : list SystemSettings.t) (k k' : string) (v descr default : option string),
    NoDup (map SystemSettings.id rows) ->
    k' <> k ->
    SystemSettings.get_value (SystemSettings.set_value rows k v descr) k default = v
    /\ SystemSettings.get_value (SystemSettings.set_value rows k v descr) k' default
       = SystemSettings.get_value rows k' default.
Proof.
  intros rows k k' v descr default Hnd Hk. split.
  - unfold SystemSettings.get_value.
    destruct (settings_first_after_set rows k v descr) as (r & Hr & Hv).
    rewrite Hr. exact Hv.
  - unfold SystemSettings.get_value. rewrite (settings_other_key rows k k' v descr Hk Hnd).
    reflexivity.
Qed.

Lemma settings_read_back_witness :
  let rows := [SystemSettings.mk 1 "phone_number" (Some "0100") None;
               SystemSettings.mk 2 "ordering_enabled" (Some "true") (Some "switch")] in
  SystemSettings.get_value
    (SystemSettings.set_value rows "ordering_enabled" (Some "false") None)
    "ordering_enabled" (Some "true") = Some "false"
  /\ SystemSettings.get_value
       (SystemSettings.set_value rows "ordering_enabled" (Some "false") None)
       "phone_number" (Some "true")
     = SystemSettings.get_value rows "phone_number" (Some "true").
Proof.
  apply (settings_read_back
           [SystemSettings.mk 1 "phone_number" (Some "0100") None;
            SystemSettings.mk 2 "ordering_enabled" (Some "true") (Some "switch")]
           "ordering_enabled" "phone_number" (Some "false") None (Some "true")).
  - cbn. repeat constructor; cbn; intuition discriminate.
  - discriminate.
Defined.

(** [set_value] never makes a second row for a key: unique keys and
    unique primary keys stay unique, and the table grows by one row
    exactly when the key was not there. *)
Theorem settings_keys_stay_unique :
  forall (rows : list SystemSettings.t) (k : string) (v descr : option string),
    NoDup (map SystemSettings.key rows) ->
    NoDup (map SystemSettings.id rows) ->
    NoDup (map SystemSettings.key (SystemSettings.set_value rows k v descr))
    /\ NoDup (map SystemSettings.id (SystemSettings.set_value rows k v descr))
    /\ List.length (SystemSettings.set_value rows k v descr)
       = (if existsb (fun r => (SystemSettings.key r =? k)%string) rows
          then List.length rows else S (List.length rows)).
Proof.
  intros rows k v descr Hkeys Hids. unfold SystemSettings.set_value.
  destruct (Query.first (fun r => (SystemSettings.key r =? k)%string) rows)
    as [setting|] eqn:E.
  - assert (Hex : existsb (fun r => (SystemSettings.key r =? k)%string) rows = true).
    { apply existsb_exists. exists setting. exact (find_some _ _ E). }
    rewrite Hex.
    rewrite (map_after_update SystemSettings.id (SystemSettings.id setting) _
               SystemSettings.key rows) by (intros a; reflexivity).
    rewrite (map_after_update SystemSettings.id (SystemSettings.id setting) _
               SystemSettings.id rows) by (intros a; reflexivity).
    rewrite length_map. repeat split; assumption.
  - assert (Hall : forall r, In r rows -> SystemSettings.key r <> k).
    { intros r Hr. pose proof (find_none _ _ E r Hr) as H. cbn beta in H.
      apply String.eqb_neq. exact H. }
    assert (Hex : existsb (fun r => (SystemSettings.key r =? k)%string) rows = false).
    { destruct (existsb _ rows) eqn:Ex; [|reflexivity].
      apply existsb_exists in Ex. destruct Ex as (r & Hr & Hk).
      apply String.eqb_eq in Hk. exfalso. exact (Hall r Hr Hk). }
    rewrite Hex, !map_app, length_app. cbn [map List.length SystemSettings.key SystemSettings.id].
    split; [|split].
    + apply NoDup_app; [exact Hkeys | repeat constructor; intros [] |].
      intros a Ha [<- | []]. apply in_map_iff in Ha. destruct Ha as (r & Hk & Hr).
      exact (Hall r Hr Hk).
    + apply NoDup_app; [exact Hids | repeat constructor; intros [] |].
      intros a Ha [<- | []]. pose proof (next_id_above _ _ Ha). lia.
    + lia.
Qed.

Lemma settings_keys_stay_unique_witness :
  let rows := [SystemSettings.mk 1 "phone_number" (Some "0100") None] in
  NoDup (map SystemSettings.key
           (SystemSettings.set_value rows "email" (Some "a@b") None))
  /\ NoDup (map SystemSettings.id
              (SystemSettings.set_value rows "email" (Some "a@b") None))
  /\ List.length (SystemSettings.set_value rows "email" (Some "a@b") None)
     = (if existsb (fun r => (SystemSettings.key r =? "email")%string) rows
        then List.length rows else S (List.length rows)).
Proof.
  apply (settings_keys_stay_unique
           [SystemSettings.mk 1 "phone_number" (Some "0100") None] "email" (Some "a@b") None).
  - cbn. repeat constructor; cbn; intuition discriminate.
  - cbn. repeat constructor; cbn; intuition discriminate.
Defined.

Lemma require_admin_with_ok {A} (none : A) (f : M (response * A)) (w : world)
    (uid : Z) (u : User.t) :
  Session.user_id (session w) = Some uid ->
  Query.first (fun u => (User.id u =? uid)%Z) (users (work w)) = Some u ->
  User.is_admin u = true ->
  require_admin_with none f w = f w.
Proof.
  intros Hs Hu Ha. unfold require_admin_with, bind, get_session, query.
  rewrite Hs, Hu, Ha. reflexivity.
Qed.

(** X30.  POST /admin/toggle-ordering flips what GET /admin/ordering-status
    reports, from any table: a missing setting counts as enabled and is
    created disabled, and a stored value other than "true" counts as
    disabled and becomes "true".  The answer names the new state, and
    the tables of the shop are not touched. *)
Theorem toggle_ordering_flips :
  forall (s : Session.t) (d : DB) (rows : list SystemSettings.t) (uid : Z) (u : User.t),
    Session.user_id s = Some uid ->
    Query.first (fun u => (User.id u =? uid)%Z) (users d) = Some u ->
    User.is_admin u = true ->
    exists rows',
      serve_with (toggle_ordering rows) s d
      = (mkResponse 200
           ("Ordering system " ++ (if get_ordering_status rows' then "enabled" else "disabled")),
         Some rows', s, d)
      /\ get_ordering_status rows' = negb (get_ordering_status rows).
Proof.
  intros s d rows uid u Hs Hu Ha. unfold serve_with, toggle_ordering.
  rewrite (require_admin_with_ok _ _ (mkWorld s d d) uid u Hs Hu Ha).
  unfold ret. cbn [session committed].
  eexists. 
  assert (Hget : forall v, get_ordering_status
                   (SystemSettings.set_value rows "ordering_enabled" (Some v)
                      (Some "Enable/disable ordering system"))
                 = (v =? "true")%string).
  { intros v. unfold get_ordering_status, SystemSettings.get_value.
    destruct (settings_first_after_set rows "ordering_enabled" (Some v)
                (Some "Enable/disable ordering system")) as (r & Hr & Hv).
    rewrite Hr, Hv. reflexivity. }
  rewrite Hget. split; [reflexivity|].
  unfold get_ordering_status.
  destruct (eq_str (SystemSettings.get_value rows "ordering_enabled" (Some "true")) "true");
    reflexivity.
Qed.

Lemma toggle_ordering_flips_witness :
  exists rows',
    serve_with (toggle_ordering []) Example.manager_session Example.empty_db
    = (mkResponse 200
         ("Ordering system " ++ (if get_ordering_status rows' then "enabled" else "disabled")),
       Some rows', Example.manager_session, Example.empty_db)
    /\ get_ordering_status rows' = negb (get_ordering_status []).
Proof.
  apply (toggle_ordering_flips Example.manager_session Example.empty_db [] 1 Example.manager);
    reflexivity.
Defined.

(* ------------------------------------------------------------------ *)
(** ** A fee outside the bounds, on a sample order *)

Lemma update_delivery_fee_out_of_bounds_witness :
  serve (update_delivery_fee (fun _ => 0) 1 (DeliveryFee.Num 95)) Example.manager_session
    Example.order_db
  = (_bad_request "Delivery fee must be between 40 and 80 EGP" 400,
     Example.manager_session, Example.order_db).
Proof.
  apply (update_delivery_fee_out_of_bounds (fun _ => 0) Example.manager_session
           Example.order_db 1 1 Example.manager Example.order1 95); try reflexivity.
  right. vm_compute. reflexivity.
Defined.
